(** * SimplyShop: the sales and inventory reconciliation logic

    A shallow embedding of the request handlers of [shop/views.py] over the
    relational schema of [shop/models.py], and the properties of the shop's
    specification that concern stock, orders, returns, credit and reporting.

    Conventions of the embedding.
    - A table is the list of its rows, in insertion order; a row carries its
      primary key [id].  A new row gets the key one above the largest key in
      the table.
    - Decimal columns ([DecimalField(decimal_places=2)]) and the Python floats
      that flow into them are counted in hundredths, as integers.
    - Integer columns and Python integers are [Z]; a [PositiveIntegerField]
      is a [Z] whose non-negativity is a property to be proved, not a type.
      The widths of the columns (the integers of SQLite have 64 bits, an
      amount has [max_digits] digits) are not part of the handlers: a
      statement that a row is written for the numbers of a form carries them
      as conditions ([cart_storable], [max_amount]).
    - A string holds the UTF-8 encoding of a Python text.  [str.strip()],
      [int()] and [strptime] are embedded on the characters of the text, with
      the white space and the decimal digits of Unicode as Python reads
      them.  [float()] is embedded on the plain decimal literals of at most
      two fractional digits; a statement about an amount of a form takes the
      amount as read.
    - [request.session], [request.GET] and [request.POST] are finite maps with
      string keys, as the dictionaries they are.
    - A handler takes the request and the database and returns the response
      together with the new database (and the new session cart when it writes
      the session).  An exception that leaves the handler is the response
      [Raised]; rows written before it stay written, since the handlers run
      outside any transaction.
    - The [login_required] / [user_passes_test] decorators and the flash
      messages belong to the authentication and rendering layers and are not
      part of the embedding. *)

From stdpp Require Import base option list gmap strings pretty.
From Stdlib Require Import ZArith Lia Ascii String.

Local Open Scope Z_scope.

(** ** The Python runtime, as far as the handlers use it *)

Module Py.

(** Truth value of [x] for an [x] that is a string or [None]
    ([if name and phone and address], [a or b]). *)
Definition truthy (x : option string) : bool :=
  match x with
  | Some s => negb (String.eqb s "")
  | None => false
  end.

(** [a or b] on optional strings. *)
Definition or_else (a b : option string) : option string :=
  if truthy a then a else b.

(** [d.get(k, default)] for a form dictionary. *)
Definition get (d : gmap string string) (k : string) (dflt : string) : string :=
  default dflt (d !! k).

(** [d.get(k) or dflt]. *)
Definition get_or (d : gmap string string) (k : string) (dflt : string) : string :=
  default dflt (or_else (d !! k) (Some dflt)).

Definition code (c : ascii) : Z := Z.of_nat (nat_of_ascii c).

Definition byte (b : Z) : ascii := ascii_of_nat (Z.to_nat b).

(** *** Texts

    A string of the model holds the UTF-8 encoding of a Python text.
    [decode] gives the characters of the text, as code points.  A byte that
    starts no well-formed sequence stands for itself, as the code point
    [0xDC00 + byte] (the [surrogateescape] of Python), and [encode] writes
    the bytes of a text. *)

Definition continuation (b : Z) : bool := (128 <=? b) && (b <=? 191).

Definition escaped (b : Z) : Z := if b <? 128 then b else 56320 + b.

Definition two_bytes (b0 b1 : Z) : option Z :=
  if (194 <=? b0) && (b0 <=? 223) && continuation b1
  then Some ((b0 - 192) * 64 + (b1 - 128))
  else None.

Definition three_bytes (b0 b1 b2 : Z) : option Z :=
  let cp := (b0 - 224) * 4096 + (b1 - 128) * 64 + (b2 - 128) in
  if (224 <=? b0) && (b0 <=? 239) && continuation b1 && continuation b2
     && (2048 <=? cp) && negb ((55296 <=? cp) && (cp <=? 57343))
  then Some cp
  else None.

Definition four_bytes (b0 b1 b2 b3 : Z) : option Z :=
  let cp := (b0 - 240) * 262144 + (b1 - 128) * 4096 + (b2 - 128) * 64
            + (b3 - 128) in
  if (240 <=? b0) && (b0 <=? 244) && continuation b1 && continuation b2
     && continuation b3 && (65536 <=? cp) && (cp <=? 1114111)
  then Some cp
  else None.

Fixpoint decode (l : list ascii) : list Z :=
  match l with
  | [] => []
  | a0 :: l1 =>
      let one := escaped (code a0) :: decode l1 in
      match l1 with
      | [] => one
      | a1 :: l2 =>
          match two_bytes (code a0) (code a1) with
          | Some cp => cp :: decode l2
          | None =>
              match l2 with
              | [] => one
              | a2 :: l3 =>
                  match three_bytes (code a0) (code a1) (code a2) with
                  | Some cp => cp :: decode l3
                  | None =>
                      match l3 with
                      | [] => one
                      | a3 :: l4 =>
                          match four_bytes (code a0) (code a1) (code a2)
                                  (code a3) with
                          | Some cp => cp :: decode l4
                          | None => one
                          end
                      end
                  end
              end
          end
      end
  end.

Definition encode_char (cp : Z) : list ascii :=
  if cp <? 128 then [byte cp]
  else if cp <? 2048 then [byte (192 + cp / 64); byte (128 + cp mod 64)]
  else if (56448 <=? cp) && (cp <=? 56575) then [byte (cp - 56320)]
  else if cp <? 65536 then
    [byte (224 + cp / 4096); byte (128 + cp / 64 mod 64); byte (128 + cp mod 64)]
  else
    [byte (240 + cp / 262144); byte (128 + cp / 4096 mod 64);
     byte (128 + cp / 64 mod 64); byte (128 + cp mod 64)].

Definition encode (l : list Z) : list ascii := List.flat_map encode_char l.

(** The characters of a string. *)
Definition chars (s : string) : list Z := decode (list_ascii_of_string s).

(** White space as [str.strip()] sees it: the characters for which
    [str.isspace()] holds. *)
Definition is_space (c : Z) : bool :=
  ((9 <=? c) && (c <=? 13)) || ((28 <=? c) && (c <=? 32))
  || (c =? 133) || (c =? 160) || (c =? 5760)
  || ((8192 <=? c) && (c <=? 8202))
  || (c =? 8232) || (c =? 8233) || (c =? 8239) || (c =? 8287) || (c =? 12288).

(** White space as [int()] and [float()] skip it around a number: of the
    ASCII characters only tab, line feed, vertical tab, form feed, carriage
    return and the blank, and every other white space of [str.isspace()]. *)
Definition is_number_space (c : Z) : bool :=
  if c <? 127 then ((9 <=? c) && (c <=? 13)) || (c =? 32) else is_space c.

(** The characters that are the digit zero of a script: every decimal digit
    of Unicode (category Nd, version 14) is one of the ten characters that
    start at one of them. *)
Definition decimal_zeros : list Z :=
  [48; 1632; 1776; 1984; 2406; 2534; 2662; 2790; 2918; 3046; 3174; 3302;
   3430; 3558; 3664; 3792; 3872; 4160; 4240; 6112; 6160; 6470; 6608; 6784;
   6800; 6992; 7088; 7232; 7248; 42528; 43216; 43264; 43472; 43504; 43600;
   44016; 65296; 66720; 68912; 69734; 69872; 69942; 70096; 70384; 70736;
   70864; 71248; 71360; 71472; 71904; 72016; 72784; 73040; 73120; 92768;
   92864; 93008; 120782; 120792; 120802; 120812; 120822; 123200; 123632;
   125264; 130032].

(** The value of a decimal digit, as [int()] and [float()] read it. *)
Definition digit (c : Z) : option Z :=
  zero ← find (λ zero, (zero <=? c) && (c <=? zero + 9)) decimal_zeros;
  Some (c - zero).

Fixpoint lstrip (space : Z → bool) (l : list Z) : list Z :=
  match l with
  | c :: l' => if space c then lstrip space l' else l
  | [] => []
  end.

Definition strip_list (space : Z → bool) (l : list Z) : list Z :=
  rev (lstrip space (rev (lstrip space l))).

(** [s.strip()]. *)
Definition strip (s : string) : string :=
  string_of_list_ascii (encode (strip_list is_space (chars s))).

(** Digits of a literal, with single underscores allowed between digits. *)
Fixpoint digits_from (acc : Z) (after_underscore : bool) (l : list Z) : option Z :=
  match l with
  | [] => if after_underscore then None else Some acc
  | c :: l' =>
      if c =? 95 then
        if after_underscore then None else digits_from acc true l'
      else
        match digit c with
        | Some d => digits_from (10 * acc + d) false l'
        | None => None
        end
  end.

Definition digits (l : list Z) : option Z :=
  match l with
  | [] => None
  | c :: _ => if c =? 95 then None else digits_from 0 false l
  end.

(** The sign of a literal: [-] is the character 45, [+] the character 43. *)
Definition signed (l : list Z) : bool * list Z :=
  match l with
  | c :: l' =>
      if c =? 45 then (true, l')
      else if c =? 43 then (false, l')
      else (false, l)
  | [] => (false, [])
  end.

(** [int(s)] for a string [s]: [None] stands for [ValueError]. *)
Definition int (s : string) : option Z :=
  let '(neg, l) := signed (strip_list is_number_space (chars s)) in
  n ← digits l; Some (if neg then - n else n).

(** The integers of Python are unbounded, and so is [int].  The interpreter
    has, since Python 3.11 and unless it is configured otherwise, a limit on
    the digits of a text that [int()] reads, beyond which it raises
    [ValueError]: [int] is the [int()] of such an interpreter on the texts
    of at most [max_str_digits] bytes, which hold no more digits than
    that. *)
Definition max_str_digits : nat := 4300.

Definition within_limit (s : string) : Prop :=
  (String.length s ≤ max_str_digits)%nat.

(** Splits a literal at its first decimal point, the character 46. *)
Fixpoint split_point (l : list Z) : list Z * option (list Z) :=
  match l with
  | [] => ([], None)
  | c :: l' =>
      if c =? 46 then ([], Some l')
      else let '(a, b) := split_point l' in (c :: a, b)
  end.

(** Hundredths denoted by the fractional digits of a literal. *)
Definition hundredths (frac : list Z) : option Z :=
  match frac with
  | [] => Some 0
  | [a] => d ← digit a; Some (10 * d)
  | [a; b] => d ← digit a; e ← digit b; Some (10 * d + e)
  | _ => None
  end.

(** [float(s)] for a form amount [s], in hundredths.  The model reads the
    plain decimal literals with at most two fractional digits, the amounts a
    two-decimal column holds exactly: for these it gives the value of
    [float(s)].  It gives [None] where [float(s)] raises [ValueError], and
    also for the literals it does not read (an exponent, more than two
    fractional digits, [inf], [nan]); the statements about amounts take the
    amount as read, [float s = Some a]. *)
Definition float (s : string) : option Z :=
  let '(neg, l) := signed (strip_list is_number_space (chars s)) in
  let '(whole, frac) := split_point l in
  v ← match whole, frac with
      | [], None => None
      | [], Some [] => None
      | [], Some f => hundredths f
      | w, None => n ← digits w; Some (100 * n)
      | w, Some f => n ← digits w; h ← hundredths f; Some (100 * n + h)
      end;
  Some (if neg then - v else v).

(** [s.split("-")] on the characters of a text. *)
Fixpoint split_dash (l : list Z) : list (list Z) :=
  match l with
  | [] => [[]]
  | c :: l' =>
      if c =? 45 then [] :: split_dash l'
      else match split_dash l' with
           | part :: parts => (c :: part) :: parts
           | [] => [[c]]
           end
  end.

(** A digit of [0-9], as the month and day directives of [strptime] want
    it; the year, and the second digit of a day after [1] or [2], are
    matched by [\d] and may be any decimal digit. *)
Definition ascii_digit (c : Z) : option Z :=
  if (48 <=? c) && (c <=? 57) then Some (c - 48) else None.

Definition year_of (ys : list Z) : option Z :=
  match ys with
  | [a; b; c; d] =>
      a ← digit a; b ← digit b; c ← digit c; d ← digit d;
      Some (1000 * a + 100 * b + 10 * c + d)
  | _ => None
  end.

Definition month_of (ms : list Z) : option Z :=
  match ms with
  | [a] => ascii_digit a
  | [a; b] => a ← ascii_digit a; b ← ascii_digit b; Some (10 * a + b)
  | _ => None
  end.

Definition day_of (ds : list Z) : option Z :=
  match ds with
  | [a] => ascii_digit a
  | [a; b] =>
      if a =? 32 then ascii_digit b
      else if (a =? 49) || (a =? 50) then b ← digit b; Some (10 * (a - 48) + b)
      else a ← ascii_digit a; b ← ascii_digit b; Some (10 * a + b)
  | _ => None
  end.

Definition is_leap (y : Z) : bool :=
  ((y mod 4 =? 0) && negb (y mod 100 =? 0)) || (y mod 400 =? 0).

Definition days_in_month (y m : Z) : Z :=
  if m =? 2 then (if is_leap y then 29 else 28)
  else if (m =? 4) || (m =? 6) || (m =? 9) || (m =? 11) then 30
  else 31.

(** The day number of a date of the proleptic Gregorian calendar. *)
Definition days_from_civil (y m d : Z) : Z :=
  let y := if m <=? 2 then y - 1 else y in
  let era := y / 400 in
  let yoe := y - era * 400 in
  let doy := (153 * (if 2 <? m then m - 3 else m + 9) + 2) / 5 + d - 1 in
  let doe := yoe * 365 + yoe / 4 - yoe / 100 + doy in
  era * 146097 + doe - 719468.

(** [datetime.strptime(s, "%Y-%m-%d")], as the number of its day: [None]
    stands for [ValueError]. *)
Definition strptime_ymd (s : string) : option Z :=
  match split_dash (chars s) with
  | [ys; ms; ds] =>
      y ← year_of ys; m ← month_of ms; d ← day_of ds;
      if (1 <=? y) && (1 <=? m) && (m <=? 12)
         && (1 <=? d) && (d <=? days_in_month y m)
      then Some (days_from_civil y m d) else None
  | _ => None
  end.

(** Values handed to [str()] by the audit trail. *)
Inductive value :=
| Int (n : Z)
| Str (s : string)
| NoneValue.

Definition str (v : value) : string :=
  match v with
  | Int n => pretty n
  | Str s => s
  | NoneValue => "None"
  end.

End Py.

(** ** The schema of [shop/models.py]

    Every model is a module holding the record of its columns under the
    column names of the source.  Columns that no embedded handler reads or
    writes (images, units, notes and the like) are left out. *)

Definition money := Z.

(** A moment is counted in seconds from the epoch, in the shop's time zone; a
    day is counted in days from the epoch. *)
Definition datetime := Z.

Module Product.
Record t := mk {
  id : Z;
  name : string;
  price : money;
  cost_price : money;
  discount_price : money;
  stock_quantity : Z;
  barcode : option string;
  qr_payload : string;
  is_active : bool
}.
Definition with_stock_quantity (p : t) (v : Z) : t :=
  mk (id p) (name p) (price p) (cost_price p) (discount_price p) v
     (barcode p) (qr_payload p) (is_active p).
Definition with_prices (p : t) (cost sell : money) : t :=
  mk (id p) (name p) sell cost (discount_price p) (stock_quantity p)
     (barcode p) (qr_payload p) (is_active p).
End Product.

Module Order.
Inductive status_t := pending | preparing | completed | cancelled | returned.
Record t := mk {
  id : Z;
  customer_name : string;
  customer_phone : string;
  customer_address : string;
  created_at : datetime;
  updated_at : datetime;
  status : status_t
}.
Definition with_status (o : t) (s : status_t) : t :=
  mk (id o) (customer_name o) (customer_phone o) (customer_address o)
     (created_at o) (updated_at o) s.
Definition with_updated_at (o : t) (now : datetime) : t :=
  mk (id o) (customer_name o) (customer_phone o) (customer_address o)
     (created_at o) now (status o).
Definition status_eqb (a b : status_t) : bool :=
  match a, b with
  | pending, pending | preparing, preparing | completed, completed
  | cancelled, cancelled | returned, returned => true
  | _, _ => false
  end.
End Order.

Module OrderItem.
Record t := mk {
  id : Z;
  order : Z;
  product : Z;
  quantity : Z;
  unit_price : money;
  discount_amount : money
}.
(** The [subtotal] property: [(unit_price - discount_amount) * quantity]. *)
Definition subtotal (i : t) : money :=
  (unit_price i - discount_amount i) * quantity i.
End OrderItem.

Module Customer.
Record t := mk {
  id : Z;
  name : string;
  phone : string;
  address : string
}.
End Customer.

Module CreditEntry.
Record t := mk {
  id : Z;
  customer : Z;
  product : option Z;
  item_name : string;
  quantity : Z;
  amount : money;
  date_taken : datetime;
  is_paid : bool;
  date_paid : option datetime
}.
Definition paid_at (c : t) (now : datetime) : t :=
  mk (id c) (customer c) (product c) (item_name c) (quantity c) (amount c)
     (date_taken c) true (Some now).
End CreditEntry.

Module Wholesaler.
Record t := mk {
  id : Z;
  name : string;
  phone : string;
  email : string
}.
End Wholesaler.

Module Purchase.
Record t := mk {
  id : Z;
  wholesaler : Z;
  date : datetime;
  created_at : datetime
}.
End Purchase.

Module PurchaseItem.
Record t := mk {
  id : Z;
  purchase : Z;
  product : Z;
  quantity : Z;
  unit_cost : money;
  (** a day, counted from the epoch *)
  expiry_date : option Z
}.
End PurchaseItem.

Module OrderPayment.
Record t := mk {
  id : Z;
  order : Z;
  method : string;
  amount : money;
  reference : string;
  created_at : datetime
}.
End OrderPayment.

Module OrderReturn.
Record t := mk {
  id : Z;
  order : Z;
  reason : string;
  refund_method : string;
  created_at : datetime
}.
End OrderReturn.

Module OrderReturnItem.
Record t := mk {
  id : Z;
  order_return : Z;
  product : Z;
  quantity : Z;
  unit_price : money
}.
Definition subtotal (i : t) : money := unit_price i * quantity i.
End OrderReturnItem.

Module AuditLog.
Inductive action_t := stock_change | price_change | credit_paid.
Record t := mk {
  id : Z;
  user : option Z;
  action : action_t;
  model : string;
  object_id : Z;
  field : string;
  old_value : string;
  new_value : string;
  created_at : datetime
}.
Definition action_eqb (a b : action_t) : bool :=
  match a, b with
  | stock_change, stock_change | price_change, price_change
  | credit_paid, credit_paid => true
  | _, _ => false
  end.
End AuditLog.

Module Expense.
Record t := mk {
  id : Z;
  date : Z;
  amount : money
}.
End Expense.

(** ** The database *)

Record DB := mkDB {
  products : list Product.t;
  customers : list Customer.t;
  orders : list Order.t;
  order_items : list OrderItem.t;
  order_payments : list OrderPayment.t;
  order_returns : list OrderReturn.t;
  order_return_items : list OrderReturnItem.t;
  credit_entries : list CreditEntry.t;
  wholesalers : list Wholesaler.t;
  purchases : list Purchase.t;
  purchase_items : list PurchaseItem.t;
  audit_logs : list AuditLog.t;
  expenses : list Expense.t
}.

Definition with_products (db : DB) (v : list Product.t) : DB :=
  mkDB v (customers db) (orders db) (order_items db) (order_payments db)
       (order_returns db) (order_return_items db) (credit_entries db)
       (wholesalers db) (purchases db) (purchase_items db) (audit_logs db)
       (expenses db).

Definition with_customers (db : DB) (v : list Customer.t) : DB :=
  mkDB (products db) v (orders db) (order_items db) (order_payments db)
       (order_returns db) (order_return_items db) (credit_entries db)
       (wholesalers db) (purchases db) (purchase_items db) (audit_logs db)
       (expenses db).

Definition with_orders (db : DB) (v : list Order.t) : DB :=
  mkDB (products db) (customers db) v (order_items db) (order_payments db)
       (order_returns db) (order_return_items db) (credit_entries db)
       (wholesalers db) (purchases db) (purchase_items db) (audit_logs db)
       (expenses db).

Definition with_order_items (db : DB) (v : list OrderItem.t) : DB :=
  mkDB (products db) (customers db) (orders db) v (order_payments db)
       (order_returns db) (order_return_items db) (credit_entries db)
       (wholesalers db) (purchases db) (purchase_items db) (audit_logs db)
       (expenses db).

Definition with_order_payments (db : DB) (v : list OrderPayment.t) : DB :=
  mkDB (products db) (customers db) (orders db) (order_items db) v
       (order_returns db) (order_return_items db) (credit_entries db)
       (wholesalers db) (purchases db) (purchase_items db) (audit_logs db)
       (expenses db).

Definition with_order_returns (db : DB) (v : list OrderReturn.t) : DB :=
  mkDB (products db) (customers db) (orders db) (order_items db)
       (order_payments db) v (order_return_items db) (credit_entries db)
       (wholesalers db) (purchases db) (purchase_items db) (audit_logs db)
       (expenses db).

Definition with_order_return_items (db : DB) (v : list OrderReturnItem.t) : DB :=
  mkDB (products db) (customers db) (orders db) (order_items db)
       (order_payments db) (order_returns db) v (credit_entries db)
       (wholesalers db) (purchases db) (purchase_items db) (audit_logs db)
       (expenses db).

Definition with_credit_entries (db : DB) (v : list CreditEntry.t) : DB :=
  mkDB (products db) (customers db) (orders db) (order_items db)
       (order_payments db) (order_returns db) (order_return_items db) v
       (wholesalers db) (purchases db) (purchase_items db) (audit_logs db)
       (expenses db).

Definition with_wholesalers (db : DB) (v : list Wholesaler.t) : DB :=
  mkDB (products db) (customers db) (orders db) (order_items db)
       (order_payments db) (order_returns db) (order_return_items db)
       (credit_entries db) v (purchases db) (purchase_items db) (audit_logs db)
       (expenses db).

Definition with_purchases (db : DB) (v : list Purchase.t) : DB :=
  mkDB (products db) (customers db) (orders db) (order_items db)
       (order_payments db) (order_returns db) (order_return_items db)
       (credit_entries db) (wholesalers db) v (purchase_items db) (audit_logs db)
       (expenses db).

Definition with_purchase_items (db : DB) (v : list PurchaseItem.t) : DB :=
  mkDB (products db) (customers db) (orders db) (order_items db)
       (order_payments db) (order_returns db) (order_return_items db)
       (credit_entries db) (wholesalers db) (purchases db) v (audit_logs db)
       (expenses db).

Definition with_audit_logs (db : DB) (v : list AuditLog.t) : DB :=
  mkDB (products db) (customers db) (orders db) (order_items db)
       (order_payments db) (order_returns db) (order_return_items db)
       (credit_entries db) (wholesalers db) (purchases db) (purchase_items db) v
       (expenses db).

(** The key of the next row of a table whose keys are [ids]. *)
Definition next_id (ids : list Z) : Z := 1 + foldr Z.max 0 ids.

(** [Model.objects.filter(id=k).first()]. *)
Definition get_product (db : DB) (k : Z) : option Product.t :=
  find (λ p, Product.id p =? k) (products db).

Definition get_order (db : DB) (k : Z) : option Order.t :=
  find (λ o, Order.id o =? k) (orders db).

Definition get_credit (db : DB) (k : Z) : option CreditEntry.t :=
  find (λ c, CreditEntry.id c =? k) (credit_entries db).

Definition get_customer (db : DB) (k : Z) : option Customer.t :=
  find (λ c, Customer.id c =? k) (customers db).

Definition get_wholesaler (db : DB) (k : Z) : option Wholesaler.t :=
  find (λ w, Wholesaler.id w =? k) (wholesalers db).

(** [UPDATE ... WHERE id = k]: the rows with key [k] are replaced by [row]. *)
Definition save_product (db : DB) (row : Product.t) : DB :=
  with_products db
    (map (λ p, if Product.id p =? Product.id row then row else p) (products db)).

Definition save_order (db : DB) (row : Order.t) : DB :=
  with_orders db
    (map (λ o, if Order.id o =? Order.id row then row else o) (orders db)).

Definition save_credit (db : DB) (row : CreditEntry.t) : DB :=
  with_credit_entries db
    (map (λ c, if CreditEntry.id c =? CreditEntry.id row then row else c)
         (credit_entries db)).

Definition save_customer (db : DB) (row : Customer.t) : DB :=
  with_customers db
    (map (λ c, if Customer.id c =? Customer.id row then row else c) (customers db)).

(** [product.save(update_fields=["stock_quantity"])]: only the stock column
    of the row is written, with the value held by the object in memory. *)
Definition save_stock_quantity (db : DB) (product : Product.t) : DB :=
  with_products db
    (map (λ p, if Product.id p =? Product.id product
               then Product.with_stock_quantity p (Product.stock_quantity product)
               else p)
         (products db)).

(** [product.save(update_fields=["stock_quantity", "cost_price", "price"])]. *)
Definition save_stock_and_prices (db : DB) (product : Product.t) : DB :=
  with_products db
    (map (λ p, if Product.id p =? Product.id product
               then Product.with_prices
                      (Product.with_stock_quantity p (Product.stock_quantity product))
                      (Product.cost_price product) (Product.price product)
               else p)
         (products db)).

(** [order.save(update_fields=["status"])]; [updated_at] is not among the
    fields and keeps its value. *)
Definition save_status (db : DB) (order : Order.t) : DB :=
  with_orders db
    (map (λ o, if Order.id o =? Order.id order
               then Order.with_status o (Order.status order) else o)
         (orders db)).

(** ** Requests and responses *)

Inductive Method := GET | POST.

Record Request := mkRequest {
  method : Method;
  GET_data : gmap string string;
  POST_data : gmap string string;
  (** [request.session.get('cart', {})] *)
  session_cart : gmap string Z;
  (** the authenticated user, [None] for the anonymous one *)
  user : option Z;
  (** [timezone.now()] *)
  now : datetime
}.

Inductive Exception :=
| ValueError
| MultipleObjectsReturned
| IntegrityError.

Inductive Response :=
| Redirect (to : string)
| RedirectOrder (to : string) (order_id : Z)
| Render (template : string)
| Http404
| Raised (e : Exception).

Definition is_POST (request : Request) : bool :=
  match method request with POST => true | GET => false end.

(** ** [_audit_log] *)

Definition _audit_log (request : Request) (action : AuditLog.action_t)
    (model_name : string) (object_id : Z) (field : string)
    (old_value new_value : Py.value) (db : DB) : DB :=
  let text v := match v with Py.NoneValue => ""%string | _ => Py.str v end in
  with_audit_logs db
    (audit_logs db ++
     [AuditLog.mk (next_id (AuditLog.id <$> audit_logs db)) (user request)
        action model_name object_id field (text old_value) (text new_value)
        (now request)]).

(** ** Query helpers *)

Inductive Result (A : Type) :=
| Ok (a : A)
| Err (e : Exception).
Arguments Ok {A} a.
Arguments Err {A} e.

(** [Model.objects.get(...)] on the rows that satisfy the lookup. *)
Inductive GetResult (A : Type) :=
| Got (a : A)
| DoesNotExist
| Multiple.
Arguments Got {A} a.
Arguments DoesNotExist {A}.
Arguments Multiple {A}.

Definition objects_get {A : Type} (lookup : A → bool) (rows : list A) : GetResult A :=
  match List.filter lookup rows with
  | [] => DoesNotExist
  | [a] => Got a
  | _ => Multiple
  end.

(** [rows.aggregate(total=Sum(f))["total"] or 0]. *)
Fixpoint sum_of {A : Type} (f : A → Z) (rows : list A) : Z :=
  match rows with
  | [] => 0
  | r :: rows => f r + sum_of f rows
  end.

(** The key under which the cart holds a product: [str(product.id)]. *)
Definition cart_key (product_id : Z) : string := pretty product_id.

(** ** Cart Session *)

(** [int(text)] with the fall-back of the forgiving forms:
    [except ValueError: qty = 1] and [if qty < 1: qty = 1]. *)
Definition int_or_one (text : string) : Z :=
  let qty := default 1 (Py.int text) in
  if qty <? 1 then 1 else qty.

Definition add_to_cart (request : Request) (product_id : Z)
    : Response * gmap string Z :=
  let cart := session_cart request in
  let product_id_str := cart_key product_id in
  let qty := if is_POST request
             then int_or_one (Py.get (POST_data request) "quantity" "1")
             else 1 in
  let cart :=
    match cart !! product_id_str with
    | Some n => <[product_id_str := n + qty]> cart
    | None => <[product_id_str := qty]> cart
    end in
  if is_POST request then (Redirect "cart_summary", cart)
  else (Redirect "product_list", cart).

(** [int(request.POST.get('quantity', 1))] stands outside any [try]. *)
Definition update_cart (request : Request) (product_id : Z)
    : Response * gmap string Z :=
  let cart := session_cart request in
  if is_POST request then
    match match POST_data request !! "quantity" with
          | Some text => Py.int text
          | None => Some 1
          end with
    | None => (Raised ValueError, cart)
    | Some quantity =>
        let product_id_str := cart_key product_id in
        if 0 <? quantity
        then (Redirect "cart_summary", <[product_id_str := quantity]> cart)
        else (Redirect "cart_summary", delete product_id_str cart)
    end
  else (Redirect "cart_summary", cart).

Definition remove_from_cart (request : Request) (product_id : Z)
    : Response * gmap string Z :=
  (Redirect "cart_summary", delete (cart_key product_id) (session_cart request)).

(** ** Code lookup *)

Definition _find_product_by_code (db : DB) (code : string)
    : Result (option Product.t) :=
  let code := Py.strip code in
  if String.eqb code "" then Ok None
  else
    match objects_get
            (λ p, match Product.barcode p with
                  | Some b => String.eqb b code
                  | None => false
                  end) (products db) with
    | Got p => Ok (Some p)
    | Multiple => Err MultipleObjectsReturned
    | DoesNotExist =>
        match objects_get (λ p, String.eqb (Product.qr_payload p) code)
                (products db) with
        | Got p => Ok (Some p)
        | Multiple => Err MultipleObjectsReturned
        | DoesNotExist =>
            match Py.int code with
            | Some pid => Ok (get_product db pid)
            | None => Ok None
            end
        end
    end.

(** [request.GET.get(k) or request.POST.get(k) or dflt]. *)
Definition get_or_post (request : Request) (k dflt : string) : string :=
  default dflt
    (Py.or_else (GET_data request !! k)
       (Py.or_else (POST_data request !! k) (Some dflt))).

Definition scan_add_to_cart (request : Request) (db : DB)
    : Response * gmap string Z :=
  let cart := session_cart request in
  let code := get_or_post request "code" "" in
  let qty_text := get_or_post request "qty" "1" in
  match _find_product_by_code db code with
  | Err e => (Raised e, cart)
  | Ok None => (Redirect "product_list", cart)
  | Ok (Some product) =>
      if negb (Product.is_active product) then (Redirect "product_list", cart)
      else
        let qty := int_or_one qty_text in
        let key := cart_key (Product.id product) in
        (Redirect "cart_summary",
         <[key := default 0 (cart !! key) + qty]> cart)
  end.

Definition scan_stock_increment (request : Request) (db : DB) : Response * DB :=
  let code := get_or_post request "code" "" in
  let delta_text := get_or_post request "delta" "1" in
  match _find_product_by_code db code with
  | Err e => (Raised e, db)
  | Ok None => (Redirect "sales_dashboard", db)
  | Ok (Some product) =>
      let delta := int_or_one delta_text in
      let old_stock := Product.stock_quantity product in
      let product := Product.with_stock_quantity product (old_stock + delta) in
      let db := save_stock_quantity db product in
      let db := _audit_log request AuditLog.stock_change "Product"
                  (Product.id product) "stock_quantity"
                  (Py.Int old_stock) (Py.Int (Product.stock_quantity product)) db in
      (Redirect "sales_dashboard", db)
  end.

(** ** Order Engine *)

(** [Customer.objects.get_or_create(name=name, defaults={...})] followed by
    the update of a found customer's phone and address. *)
Definition upsert_customer (name phone address : string) (db : DB) : Result DB :=
  match objects_get (λ c, String.eqb (Customer.name c) name) (customers db) with
  | Multiple => Err MultipleObjectsReturned
  | DoesNotExist =>
      Ok (with_customers db
            (customers db ++
             [Customer.mk (next_id (Customer.id <$> customers db)) name phone address]))
  | Got customer =>
      let phone_changed :=
        Py.truthy (Some phone) && negb (String.eqb (Customer.phone customer) phone) in
      let address_changed :=
        Py.truthy (Some address) && negb (String.eqb (Customer.address customer) address) in
      if phone_changed || address_changed then
        Ok (save_customer db
              (Customer.mk (Customer.id customer) (Customer.name customer)
                 (if phone_changed then phone else Customer.phone customer)
                 (if address_changed then address else Customer.address customer)))
      else Ok db
  end.

(** [Product.objects.filter(id__in=cart.keys())], each product paired with
    [cart[str(product.id)]].  The queryset is evaluated once, when the loop
    starts; the loop works on these objects. *)
Definition cart_products (cart : gmap string Z) (db : DB) : list (Product.t * Z) :=
  omap (λ p, quantity ← cart !! cart_key (Product.id p); Some (p, quantity))
       (products db).

(** Stock left after [quantity] units leave a stock of [stock]. *)
Definition deduct (stock quantity : Z) : Z :=
  if quantity <=? stock then stock - quantity else 0.

(** The body of [for product in products] in [checkout]. *)
Definition checkout_line (request : Request) (order_id : Z) (db : DB)
    (line : Product.t * Z) : DB :=
  let '(product, quantity) := line in
  let db := with_order_items db
              (order_items db ++
               [OrderItem.mk (next_id (OrderItem.id <$> order_items db)) order_id
                  (Product.id product) quantity (Product.price product)
                  (Product.discount_price product)]) in
  let old_stock := Product.stock_quantity product in
  let product := Product.with_stock_quantity product (deduct old_stock quantity) in
  let db := save_stock_quantity db product in
  _audit_log request AuditLog.stock_change "Product" (Product.id product)
    "stock_quantity" (Py.Int old_stock) (Py.Int (Product.stock_quantity product)) db.

Definition create_payment (request : Request) (order_id : Z) (method : string)
    (amount : money) (reference : string) (db : DB) : DB :=
  with_order_payments db
    (order_payments db ++
     [OrderPayment.mk (next_id (OrderPayment.id <$> order_payments db)) order_id
        method amount reference (now request)]).

Definition checkout (request : Request) (db : DB)
    : Response * DB * gmap string Z :=
  let cart := session_cart request in
  if bool_decide (cart = ∅) then (Redirect "product_list", db, cart)
  else
    let post := POST_data request in
    let name := post !! "name" in
    let phone := post !! "phone" in
    let address := post !! "address" in
    if is_POST request && (Py.truthy name && Py.truthy phone && Py.truthy address) then
      let name := default "" name in
      let phone := default "" phone in
      let address := default "" address in
      let method1 := post !! "payment_method_1" in
      let amount1 := Py.get_or post "payment_amount_1" "0" in
      let method2 := post !! "payment_method_2" in
      let amount2 := Py.get_or post "payment_amount_2" "0" in
      let ref1 := Py.get post "payment_ref_1" "" in
      let ref2 := Py.get post "payment_ref_2" "" in
      match upsert_customer name phone address db with
      | Err e => (Raised e, db, cart)
      | Ok db =>
          let order_id := next_id (Order.id <$> orders db) in
          let db := with_orders db
                      (orders db ++
                       [Order.mk order_id name phone address (now request)
                          (now request) Order.pending]) in
          let db := foldl (checkout_line request order_id) db (cart_products cart db) in
          (* the order total computed next in the source only decides
             whether a warning is flashed *)
          let a1 := default 0 (Py.float amount1) in
          let a2 := default 0 (Py.float amount2) in
          let db := if Py.truthy method1 && (0 <? a1)
                    then create_payment request order_id (default "" method1) a1 ref1 db
                    else db in
          let db := if Py.truthy method2 && (0 <? a2)
                    then create_payment request order_id (default "" method2) a2 ref2 db
                    else db in
          (RedirectOrder "order_success" order_id, db, ∅)
      end
    else (Render "shop/checkout.html", db, cart).

Definition mark_order_completed (request : Request) (order_id : Z) (db : DB)
    : Response * DB :=
  match get_order db order_id with
  | None => (Http404, db)
  | Some order =>
      if negb (Order.status_eqb (Order.status order) Order.completed) then
        let order := Order.with_status order Order.completed in
        (* [order.save()] writes every column and stamps [updated_at] *)
        (Redirect "shop_dashboard",
         save_order db (Order.with_updated_at order (now request)))
      else (Redirect "shop_dashboard", db)
  end.

(** ** Reporting: [sales_stats], the closure of [sales_dashboard] *)

Record Stats := mkStats {
  revenue : money;
  profit : money;
  spent : money;
  expenses_total : money;
  net_profit : money
}.

Definition in_window (start end_ t : datetime) : bool :=
  (start <=? t) && (t <? end_).

(** [.date()] of a moment counted in seconds. *)
Definition date_of (t : datetime) : Z := t / 86400.

(** The condition of the report on an order: [status__in=["completed",
    "returned"]], [created_at__gte=start] and [created_at__lt=end]. *)
Definition counted_order (start end_ : datetime) (o : Order.t) : bool :=
  (Order.status_eqb (Order.status o) Order.completed
   || Order.status_eqb (Order.status o) Order.returned)
  && in_window start end_ (Order.created_at o).

(** [OrderItem.objects.filter(order__status__in=["completed", "returned"],
    order__created_at__gte=start, order__created_at__lt=end)]: the items
    joined with their order. *)
Definition sold_items (db : DB) (start end_ : datetime) : list OrderItem.t :=
  List.filter
    (λ i, match get_order db (OrderItem.order i) with
          | Some o => counted_order start end_ o
          | None => false
          end)
    (order_items db).

(** [OrderReturnItem.objects.filter(order_return__created_at__gte=start,
    order_return__created_at__lt=end)]. *)
Definition returned_items (db : DB) (start end_ : datetime) : list OrderReturnItem.t :=
  List.filter
    (λ i, match find (λ r, OrderReturn.id r =? OrderReturnItem.order_return i)
                  (order_returns db) with
          | Some r => in_window start end_ (OrderReturn.created_at r)
          | None => false
          end)
    (order_return_items db).

(** [product__cost_price] of a row, through the join on its product. *)
Definition margin (db : DB) (product : Z) (unit_price : money) (quantity : Z) : money :=
  match get_product db product with
  | Some p => (unit_price - Product.cost_price p) * quantity
  | None => 0
  end.

Definition sales_stats (db : DB) (start end_ : datetime) : Stats :=
  let items := sold_items db start end_ in
  let revenue := sum_of (λ i, OrderItem.unit_price i * OrderItem.quantity i) items in
  let profit :=
    sum_of (λ i, margin db (OrderItem.product i) (OrderItem.unit_price i)
                   (OrderItem.quantity i)) items in
  let return_items := returned_items db start end_ in
  let returns_revenue :=
    sum_of (λ i, OrderReturnItem.unit_price i * OrderReturnItem.quantity i)
      return_items in
  let revenue := revenue - returns_revenue in
  let returns_profit :=
    sum_of (λ i, margin db (OrderReturnItem.product i) (OrderReturnItem.unit_price i)
                   (OrderReturnItem.quantity i)) return_items in
  let profit := profit - returns_profit in
  let purchase_items_ :=
    List.filter
      (λ i, match find (λ p, Purchase.id p =? PurchaseItem.purchase i)
                    (purchases db) with
            | Some p => in_window start end_ (Purchase.date p)
            | None => false
            end)
      (purchase_items db) in
  let spent :=
    sum_of (λ i, PurchaseItem.unit_cost i * PurchaseItem.quantity i) purchase_items_ in
  let expenses :=
    sum_of Expense.amount
      (List.filter (λ e, in_window (date_of start) (date_of end_) (Expense.date e))
         (expenses db)) in
  mkStats revenue profit spent expenses (profit - expenses).

(** ** Purchasing Engine: the POST branch of [wholesaler_dashboard] *)

(** [Model.objects.get(id=text)] where only [DoesNotExist] is caught: a key
    that is no number raises [ValueError]. *)
Definition get_by_id_text {A : Type} (get : Z → option A) (text : string)
    : Result (option A) :=
  match Py.int text with
  | Some k => Ok (get k)
  | None => Err ValueError
  end.

Definition resolve_wholesaler (post : gmap string string) (db : DB)
    : Result (option Wholesaler.t * DB) :=
  let wholesaler_id := post !! "wholesaler_id" in
  let wholesaler_name := Py.strip (Py.get_or post "wholesaler_name" "") in
  let wholesaler_phone := Py.strip (Py.get_or post "wholesaler_phone" "") in
  let wholesaler_email := ""%string in
  match (if Py.truthy wholesaler_id
         then get_by_id_text (get_wholesaler db) (default "" wholesaler_id)
         else Ok None) with
  | Err e => Err e
  | Ok (Some w) => Ok (Some w, db)
  | Ok None =>
      if Py.truthy (Some wholesaler_name) then
        match objects_get (λ w, String.eqb (Wholesaler.name w) wholesaler_name)
                (wholesalers db) with
        | Multiple => Err MultipleObjectsReturned
        | Got w => Ok (Some w, db)
        | DoesNotExist =>
            let w := Wholesaler.mk (next_id (Wholesaler.id <$> wholesalers db))
                       wholesaler_name wholesaler_phone wholesaler_email in
            Ok (Some w, with_wholesalers db (wholesalers db ++ [w]))
        end
      else Ok (None, db)
  end.

Definition resolve_product (post : gmap string string)
    (unit_cost selling_price : money) (db : DB) : option Product.t * DB :=
  let product_id := post !! "product_id" in
  let new_product_name := Py.strip (Py.get_or post "new_product_name" "") in
  let product :=
    if Py.truthy product_id
    then k ← Py.int (default "" product_id); get_product db k
    else None in
  match product with
  | Some p => (Some p, db)
  | None =>
      if Py.truthy (Some new_product_name) then
        let p := Product.mk (next_id (Product.id <$> products db)) new_product_name
                   selling_price unit_cost 0 0 None "" true in
        (Some p, with_products db (products db ++ [p]))
      else (None, db)
  end.

Definition wholesaler_dashboard (request : Request) (db : DB) : Response * DB :=
  if is_POST request then
    let post := POST_data request in
    let quantity_text := Py.get post "quantity" "1" in
    let unit_cost_text := Py.get post "unit_cost" "0" in
    let selling_price_text := Py.get post "selling_price" "0" in
    let date_text := Py.get post "date" "" in
    let expiry_text := Py.get post "expiry_date" "" in
    match resolve_wholesaler post db with
    | Err e => (Raised e, db)
    | Ok (None, db) => (Redirect "wholesaler_dashboard", db)
    | Ok (Some wholesaler, db) =>
        let quantity := int_or_one quantity_text in
        let unit_cost := default 0 (Py.float unit_cost_text) in
        if unit_cost <=? 0 then (Redirect "wholesaler_dashboard", db)
        else
          let selling_price := default 0 (Py.float selling_price_text) in
          if selling_price <=? 0 then (Redirect "wholesaler_dashboard", db)
          else
            match resolve_product post unit_cost selling_price db with
            | (None, db) => (Redirect "wholesaler_dashboard", db)
            | (Some product, db) =>
                let date_value :=
                  if Py.truthy (Some date_text)
                  then match Py.strptime_ymd date_text with
                       | Some day => 86400 * day
                       | None => now request
                       end
                  else now request in
                let expiry_value :=
                  if Py.truthy (Some expiry_text)
                  then Py.strptime_ymd expiry_text else None in
                let purchase :=
                  Purchase.mk (next_id (Purchase.id <$> purchases db))
                    (Wholesaler.id wholesaler) date_value (now request) in
                let db := with_purchases db (purchases db ++ [purchase]) in
                let db := with_purchase_items db
                            (purchase_items db ++
                             [PurchaseItem.mk
                                (next_id (PurchaseItem.id <$> purchase_items db))
                                (Purchase.id purchase) (Product.id product) quantity
                                unit_cost expiry_value]) in
                let product :=
                  Product.with_prices
                    (Product.with_stock_quantity product
                       (Product.stock_quantity product + quantity))
                    unit_cost selling_price in
                (Redirect "wholesaler_dashboard", save_stock_and_prices db product)
            end
    end
  else (Render "shop/wholesaler_dashboard.html", db).

(** ** Return Engine *)

(** [order.items.select_related("product")]: the items of the order, each
    with the product row read by the same query.  The rows are read once,
    when the loop starts. *)
Definition order_items_with_product (db : DB) (order_id : Z)
    : list (OrderItem.t * Product.t) :=
  omap (λ i, if OrderItem.order i =? order_id
             then p ← get_product db (OrderItem.product i); Some (i, p)
             else None)
       (order_items db).

(** The quantity asked back for an item: [int(request.POST.get(f"qty_{item.id}",
    "0"))], [0] on [ValueError]. *)
Definition requested_quantity (post : gmap string string) (item : OrderItem.t) : Z :=
  default 0 (Py.int (Py.get post ("qty_" +:+ pretty (OrderItem.id item)) "0")).

(** The quantity taken back: the request, at most what was ordered. *)
Definition returned_quantity (rqty : Z) (item : OrderItem.t) : Z :=
  if OrderItem.quantity item <? rqty then OrderItem.quantity item else rqty.

(** The body of [for item in order_items] in [return_order]; the state of the
    loop is the database and [total_refund]. *)
Definition return_line (request : Request) (oreturn_id : Z) (st : DB * money)
    (line : OrderItem.t * Product.t) : DB * money :=
  let '(db, total_refund) := st in
  let '(item, product) := line in
  let rqty := requested_quantity (POST_data request) item in
  if 0 <? rqty then
    let rqty := returned_quantity rqty item in
    let db := with_order_return_items db
                (order_return_items db ++
                 [OrderReturnItem.mk
                    (next_id (OrderReturnItem.id <$> order_return_items db))
                    oreturn_id (Product.id product) rqty (OrderItem.unit_price item)]) in
    let product :=
      Product.with_stock_quantity product (Product.stock_quantity product + rqty) in
    let db := save_stock_quantity db product in
    (db, total_refund + OrderItem.unit_price item * rqty)
  else (db, total_refund).

Definition return_order (request : Request) (order_id : Z) (db : DB)
    : Response * DB :=
  match get_order db order_id with
  | None => (Http404, db)
  | Some order =>
      if is_POST request then
        let post := POST_data request in
        let reason := Py.strip (Py.get post "reason" "") in
        let refund_method := Py.get post "refund_method" "" in
        let oreturn_id := next_id (OrderReturn.id <$> order_returns db) in
        let db := with_order_returns db
                    (order_returns db ++
                     [OrderReturn.mk oreturn_id (Order.id order) reason refund_method
                        (now request)]) in
        let '(db, total_refund) :=
          foldl (return_line request oreturn_id) (db, 0)
            (order_items_with_product db (Order.id order)) in
        let db := if Py.truthy (Some refund_method) && (0 <? total_refund)
                  then create_payment request (Order.id order) refund_method
                         (- total_refund) "REFUND" db
                  else db in
        let order := Order.with_status order Order.returned in
        (Redirect "manage_orders", save_status db order)
      else (Render "shop/return_order.html", db)
  end.

(** ** Credit Ledger *)

Definition resolve_customer (post : gmap string string) (db : DB)
    : Result (option Customer.t * DB) :=
  let customer_id := post !! "customer_id" in
  let customer_name := post !! "customer_name" in
  let customer_phone := Py.get post "customer_phone" "" in
  match (if Py.truthy customer_id
         then get_by_id_text (get_customer db) (default "" customer_id)
         else Ok None) with
  | Err e => Err e
  | Ok (Some c) => Ok (Some c, db)
  | Ok None =>
      if negb (Py.truthy customer_name) then Ok (None, db)
      else
        let name := default "" customer_name in
        (* [customer_phone or ""] is [customer_phone], a string already *)
        let phone := customer_phone in
        match objects_get
                (λ c, String.eqb (Customer.name c) name
                      && String.eqb (Customer.phone c) phone) (customers db) with
        | Multiple => Err MultipleObjectsReturned
        | Got c => Ok (Some c, db)
        | DoesNotExist =>
            let c := Customer.mk (next_id (Customer.id <$> customers db)) name phone "" in
            Ok (Some c, with_customers db (customers db ++ [c]))
        end
  end.

(** [int(request.POST.get("quantity", 1))] stands outside any [try].  The
    column [quantity] is a [PositiveIntegerField], which the database checks
    to be at least 0: [CreditEntry.objects.create] with a negative quantity
    raises [IntegrityError] and writes no row.  The handler is embedded for
    the quantities of 64 bits and the amounts up to [max_amount], the ones
    that the columns can hold. *)
Definition add_credit (request : Request) (db : DB) : Response * DB :=
  if is_POST request then
    let post := POST_data request in
    let item_name := post !! "item_name" in
    let product_id := post !! "product_id" in
    match match post !! "quantity" with
          | Some text => Py.int text
          | None => Some 1
          end with
    | None => (Raised ValueError, db)
    | Some quantity =>
        let amount_text := Py.get post "amount" "0" in
        match resolve_customer post db with
        | Err e => (Raised e, db)
        | Ok (None, db) => (Redirect "credit_list", db)
        | Ok (Some customer, db) =>
            match (if Py.truthy product_id
                   then get_by_id_text (get_product db) (default "" product_id)
                   else Ok None) with
            | Err e => (Raised e, db)
            | Ok product =>
                let item_name :=
                  match product with
                  | Some p => if Py.truthy item_name then item_name
                              else Some (Product.name p)
                  | None => item_name
                  end in
                if negb (Py.truthy item_name) then (Redirect "credit_list", db)
                else
                  let amount_value := default 0 (Py.float amount_text) in
                  let amount_value :=
                    match product with
                    | Some p => if amount_value <=? 0
                                then Product.price p * quantity else amount_value
                    | None => amount_value
                    end in
                  if quantity <? 0 then (Raised IntegrityError, db)
                  else
                    (Redirect "credit_list",
                     with_credit_entries db
                       (credit_entries db ++
                        [CreditEntry.mk
                           (next_id (CreditEntry.id <$> credit_entries db))
                           (Customer.id customer) (Product.id <$> product)
                           (default "" item_name) quantity amount_value
                           (now request) false None]))
            end
        end
    end
  else (Render "shop/add_credit.html", db).

Definition mark_credit_paid (request : Request) (credit_id : Z) (db : DB)
    : Response * DB :=
  match get_credit db credit_id with
  | None => (Http404, db)
  | Some credit =>
      if negb (CreditEntry.is_paid credit) then
        let credit := CreditEntry.paid_at credit (now request) in
        let db := save_credit db credit in
        let db := _audit_log request AuditLog.credit_paid "CreditEntry"
                    (CreditEntry.id credit) "is_paid"
                    (Py.Str "False") (Py.Str "True") db in
        (Redirect "credit_list", db)
      else (Redirect "credit_list", db)
  end.

(** ** Sample data for the worked examples *)

Definition apple : Product.t :=
  Product.mk 1 "Apple" 1000 600 100 10 (Some "890") "" true.

Definition milk : Product.t :=
  Product.mk 2 "Milk" 300 200 0 2 None "qr-milk" true.

Definition empty_db : DB := mkDB [] [] [] [] [] [] [] [] [] [] [] [] [].

(** A shop with two products, one order of five apples and two bottles of
    milk, and one unpaid credit entry. *)
Definition sample_db (status : Order.status_t) : DB :=
  mkDB [apple; milk]
       [Customer.mk 1 "Asha" "98" "Pune"]
       [Order.mk 1 "Asha" "98" "Pune" 10 10 status]
       [OrderItem.mk 1 1 1 5 1000 100; OrderItem.mk 2 1 2 2 300 0]
       [] [] []
       [CreditEntry.mk 1 1 None "Sugar 2kg" 1 9000 5 false None]
       [Wholesaler.mk 1 "Ravi Traders" "" ""]
       [] [] [] [].

Definition post_request (fields : gmap string string) (cart : gmap string Z)
    (at_ : datetime) : Request :=
  mkRequest POST ∅ fields cart (Some 1) at_.

(** ** The revenue figure, as the specification words it *)

Definition items_of_order (db : DB) (o : Order.t) : list OrderItem.t :=
  List.filter (λ i, OrderItem.order i =? Order.id o) (order_items db).

Definition items_of_return (db : DB) (r : OrderReturn.t) : list OrderReturnItem.t :=
  List.filter (λ i, OrderReturnItem.order_return i =? OrderReturn.id r)
    (order_return_items db).

(** What the returns created in the window take off the revenue: the sum,
    over those returns, of [unit_price * quantity] of their items. *)
Definition spec_returns (db : DB) (start end_ : datetime) : money :=
  sum_of (λ r, sum_of OrderReturnItem.subtotal (items_of_return db r))
    (List.filter (λ r, in_window start end_ (OrderReturn.created_at r))
       (order_returns db)).

(** The revenue of the specification: the line subtotals
    [(unit_price - discount_amount) * quantity] of the completed and returned
    orders created in the window, less the returns. *)
Definition spec_revenue (db : DB) (start end_ : datetime) : money :=
  sum_of (λ o, sum_of OrderItem.subtotal (items_of_order db o))
    (List.filter (counted_order start end_) (orders db))
  - spec_returns db start end_.

(** The same figure on the undiscounted price, [unit_price * quantity]. *)
Definition spec_gross_revenue (db : DB) (start end_ : datetime) : money :=
  sum_of (λ o, sum_of (λ i, OrderItem.unit_price i * OrderItem.quantity i)
                 (items_of_order db o))
    (List.filter (counted_order start end_) (orders db))
  - spec_returns db start end_.

(** The discounts granted on the lines of the orders of the window. *)
Definition spec_discounts (db : DB) (start end_ : datetime) : money :=
  sum_of (λ o, sum_of (λ i, OrderItem.discount_amount i * OrderItem.quantity i)
                 (items_of_order db o))
    (List.filter (counted_order start end_) (orders db)).

(** ** Reading the audit trail *)

(** The stock-change entries of the audit trail that concern a product. *)
Definition is_stock_change_of (product_id : Z) (entry : AuditLog.t) : bool :=
  AuditLog.action_eqb (AuditLog.action entry) AuditLog.stock_change
  && String.eqb (AuditLog.model entry) "Product"
  && (AuditLog.object_id entry =? product_id).

(** [entry] is the audit entry that [checkout] writes for a line of the
    cart, whatever its key. *)
Definition line_entry (request : Request) (line : Product.t * Z)
    (entry : AuditLog.t) : Prop :=
  entry
  = AuditLog.mk (AuditLog.id entry) (user request) AuditLog.stock_change
      "Product" (Product.id line.1) "stock_quantity"
      (pretty (Product.stock_quantity line.1))
      (pretty (deduct (Product.stock_quantity line.1) line.2)) (now request).

(** A checkout of twelve apples, two more than the stock holds, and one
    bottle of milk, paid in cash. *)
Definition sample_checkout : Request :=
  post_request
    {[ "name" := "Asha"; "phone" := "98"; "address" := "Pune";
       "payment_method_1" := "cash"; "payment_amount_1" := "111.00" ]}
    {[ "1" := 12; "2" := 1 ]} 50.

(** ** Reading a return request *)

(** The form asks nothing back for [item]: its quantity field is no number,
    or a number that is not positive. *)
Definition nothing_requested (post : gmap string string) (item : OrderItem.t) : Prop :=
  match Py.int (Py.get post ("qty_" +:+ pretty (OrderItem.id item)) "0") with
  | Some n => n ≤ 0
  | None => True
  end.

(** [item] is a line of the order on the product, with a positive quantity
    asked back. *)
Definition asked_back (post : gmap string string) (order_id product_id : Z)
    (item : OrderItem.t) : bool :=
  (OrderItem.order item =? order_id)
  && (OrderItem.product item =? product_id)
  && (0 <? requested_quantity post item).

(** The same condition on a line of the loop of [return_order]. *)
Definition line_asked (post : gmap string string) (product_id : Z)
    (line : OrderItem.t * Product.t) : bool :=
  (Product.id line.2 =? product_id) && (0 <? requested_quantity post line.1).

(** The return items on a product. *)
Definition returns_product (product_id : Z) (i : OrderReturnItem.t) : bool :=
  OrderReturnItem.product i =? product_id.

(** A return of seven apples, two more than were ordered, and of no milk,
    refunded in cash. *)
Definition sample_return : Request :=
  post_request
    {[ "reason" := " bruised "; "refund_method" := "cash";
       "qty_1" := "7"; "qty_2" := "none" ]} ∅ 60.

(** The shop after that return of its completed order. *)
Definition returned_db : DB :=
  (return_order sample_return 1 (sample_db Order.completed)).2.

(** A return form that asks nothing back. *)
Definition sample_empty_return : Request :=
  post_request
    {[ "reason" := ""; "refund_method" := "cash"; "qty_1" := "0"; "qty_2" := "x" ]}
    ∅ 60.

(** A database in which the order has two lines on apples, as the inline
    editor of the admin site can make it. *)
Definition twin_lines_db : DB :=
  mkDB [apple] []
       [Order.mk 1 "Asha" "98" "Pune" 10 10 Order.completed]
       [OrderItem.mk 1 1 1 5 1000 100; OrderItem.mk 2 1 1 3 1000 100]
       [] [] [] [] [] [] [] [] [].

(** A return of two apples from each of the two lines. *)
Definition twin_return : Request :=
  post_request {[ "qty_1" := "2"; "qty_2" := "2" ]} ∅ 60.

(** ** Sequences of requests

    The shop as a state machine: the state is the database together with the
    cart of the browsing session, a step is one request to a handler of the
    cart, to [checkout] or to [return_order]. *)

Inductive Operation :=
| AddToCart (request : Request) (product_id : Z)
| UpdateCart (request : Request) (product_id : Z)
| RemoveFromCart (request : Request) (product_id : Z)
| ScanAddToCart (request : Request)
| Checkout (request : Request)
| ReturnOrder (request : Request) (order_id : Z).

(** The request as it arrives in a session whose cart is [cart]. *)
Definition in_session (request : Request) (cart : gmap string Z) : Request :=
  mkRequest (method request) (GET_data request) (POST_data request) cart
    (user request) (now request).

Definition step (st : DB * gmap string Z) (op : Operation) : DB * gmap string Z :=
  let '(db, cart) := st in
  match op with
  | AddToCart request product_id =>
      (db, (add_to_cart (in_session request cart) product_id).2)
  | UpdateCart request product_id =>
      (db, (update_cart (in_session request cart) product_id).2)
  | RemoveFromCart request product_id =>
      (db, (remove_from_cart (in_session request cart) product_id).2)
  | ScanAddToCart request =>
      (db, (scan_add_to_cart (in_session request cart) db).2)
  | Checkout request =>
      let '(_, db, cart) := checkout (in_session request cart) db in (db, cart)
  | ReturnOrder request order_id =>
      ((return_order (in_session request cart) order_id db).2, cart)
  end.

Definition run (st : DB * gmap string Z) (ops : list Operation)
    : DB * gmap string Z :=
  foldl step st ops.

(** No product has a negative stock. *)
Definition stock_nonnegative (db : DB) : Prop :=
  Forall (λ p, 0 ≤ Product.stock_quantity p) (products db).

(** The quantity columns of the order items, [PositiveIntegerField]s like
    the stock, hold no negative number. *)
Definition quantities_nonnegative (db : DB) : Prop :=
  Forall (λ i, 0 ≤ OrderItem.quantity i) (order_items db).

(** The cart holds no negative quantity. *)
Definition cart_nonnegative (cart : gmap string Z) : Prop :=
  map_Forall (λ _ q, 0 ≤ q) cart.

(** A cart that [checkout] can write as order lines.  Its keys are texts
    [str(id)], as the cart handlers write them: on another key
    [Product.objects.filter(id__in=cart.keys())] or [cart[str(product.id)]]
    raises.  Its quantities are numbers that the column [quantity] of an
    order line holds, a [PositiveIntegerField]: at least 0, which the
    database checks, and of 64 bits, as the integers of SQLite are.  On
    another quantity [OrderItem.objects.create] raises. *)
Definition cart_storable (cart : gmap string Z) : Prop :=
  map_Forall (λ key q, (∃ id, key = cart_key id) ∧ 0 ≤ q < 2 ^ 63) cart.

(** The largest amount of a [DecimalField(max_digits=10, decimal_places=2)],
    in hundredths: writing a larger one raises [decimal.InvalidOperation]. *)
Definition max_amount : money := 10 ^ 10 - 1.

Definition consistent (st : DB * gmap string Z) : Prop :=
  stock_nonnegative st.1 ∧ quantities_nonnegative st.1 ∧ cart_nonnegative st.2.

(** A session: twelve apples and a scanned bottle of milk go into the cart,
    an update with a quantity that is no number fails, the order is placed,
    and the new order and the old one are returned. *)
Definition sample_session : list Operation :=
  [ AddToCart (post_request {[ "quantity" := "12" ]} ∅ 20) 1;
    ScanAddToCart (mkRequest GET {[ "code" := "qr-milk" ]} ∅ ∅ None 21);
    UpdateCart (post_request {[ "quantity" := "abc" ]} ∅ 22) 2;
    Checkout sample_checkout;
    ReturnOrder (post_request {[ "qty_3" := "20"; "refund_method" := "upi" ]} ∅ 70) 2;
    ReturnOrder sample_return 1 ].

(** A purchase of ten bottles of milk, of which two are in stock, from the
    first wholesaler at 5.00 each, to be sold at 8.00. *)
Definition sample_purchase : Request :=
  post_request
    {[ "wholesaler_id" := "1"; "product_id" := "2"; "quantity" := "10";
       "unit_cost" := "5"; "selling_price" := "8.00"; "date" := "2024-02-29" ]}
    ∅ 80.

(** ** Well-formed databases

    What the schema and [checkout] guarantee about the rows: product keys
    are unique, every order item belongs to an order of the table, and no
    order has two lines on one product (the cart is a dictionary keyed by
    product). *)

Definition product_keys_unique (db : DB) : Prop :=
  NoDup (Product.id <$> products db).

Definition items_have_orders (db : DB) : Prop :=
  Forall (λ i, OrderItem.order i ∈ Order.id <$> orders db) (order_items db).

Definition one_line_per_product (db : DB) : Prop :=
  ∀ order_id,
    NoDup (OrderItem.product
             <$> List.filter (λ i, OrderItem.order i =? order_id) (order_items db)).

Definition well_formed (db : DB) : Prop :=
  product_keys_unique db ∧ items_have_orders db ∧ one_line_per_product db.

(** ** More handlers of [shop/views.py] *)

(** One entry of [cart_items] in the context of [cart_summary]. *)
Record CartItem := mkCartItem {
  item_product : Product.t;
  item_quantity : Z;
  item_subtotal : money;
  item_unit_price : money;
  item_discount : money
}.

(** [cart_summary]: the context it renders, [cart_items] and [cart_total]. *)
Definition cart_summary (request : Request) (db : DB) : list CartItem * money :=
  foldl (λ '(cart_items, total_amount) '(product, quantity),
           let price := Product.price product - Product.discount_price product in
           let subtotal := price * quantity in
           (cart_items ++
            [mkCartItem product quantity subtotal price
               (Product.discount_price product)],
            total_amount + subtotal))
        ([], 0) (cart_products (session_cart request) db).

(** The [total_amount] property of [Order]: the sum of the subtotals of
    [self.items.all()]. *)
Definition total_amount (db : DB) (order : Order.t) : money :=
  sum_of OrderItem.subtotal
    (List.filter (λ i, OrderItem.order i =? Order.id order) (order_items db)).

(** [Product.objects.filter(stock_quantity=0, is_active=True)
    .update(is_active=False)], the first statement of [shop_dashboard]. *)
Definition deactivate_sold_out (db : DB) : DB :=
  with_products db
    (map (λ p, if (Product.stock_quantity p =? 0) && Product.is_active p
               then Product.mk (Product.id p) (Product.name p) (Product.price p)
                      (Product.cost_price p) (Product.discount_price p)
                      (Product.stock_quantity p) (Product.barcode p)
                      (Product.qr_payload p) false
               else p)
         (products db)).

(** The figures in the context of [shop_dashboard]. *)
Record Dashboard := mkDashboard {
  total_sales : money;
  pending_orders_count : Z
}.

(** [shop_dashboard], without the product and order lists it hands to the
    template: the update of the sold-out products, then [total_sales] (the
    items of the pending, preparing, completed and returned orders, less all
    return items) and the number of pending orders. *)
Definition shop_dashboard (db : DB) : Dashboard * DB :=
  let db := deactivate_sold_out db in
  let gross_sales :=
    sum_of (λ i, OrderItem.unit_price i * OrderItem.quantity i)
      (List.filter
         (λ i, match get_order db (OrderItem.order i) with
               | Some o =>
                   existsb (Order.status_eqb (Order.status o))
                     [Order.pending; Order.preparing; Order.completed;
                      Order.returned]
               | None => false
               end)
         (order_items db)) in
  let returns_total :=
    sum_of (λ i, OrderReturnItem.unit_price i * OrderReturnItem.quantity i)
      (order_return_items db) in
  let total_sales := gross_sales - returns_total in
  let pending_orders_count :=
    Z.of_nat
      (List.length
         (List.filter (λ o, Order.status_eqb (Order.status o) Order.pending)
            (orders db))) in
  (mkDashboard total_sales pending_orders_count, db).

(** ** Credit list *)

(** [total_outstanding] of [credit_list]:
    [sum(c.amount for c in credits if not c.is_paid)]. *)
Definition total_outstanding (credits : list CreditEntry.t) : money :=
  sum_of CreditEntry.amount
    (List.filter (λ c, negb (CreditEntry.is_paid c)) credits).

(** [by_customer[key]["total"] += amount], with the row created at its first
    use; the dictionary keeps its keys in the order of their insertion. *)
Fixpoint add_to_total (key : Z) (amount : money) (rows : list (Z * money))
    : list (Z * money) :=
  match rows with
  | [] => [(key, 0 + amount)]
  | (k, total) :: rows =>
      if k =? key then (k, total + amount) :: rows
      else (k, total) :: add_to_total key amount rows
  end.

(** The loop of [credit_list] that fills [by_customer], over the credit
    entries in the order the query returned them: for each customer the sum
    of the unpaid amounts. *)
Definition by_customer (credits : list CreditEntry.t) : list (Z * money) :=
  foldl (λ rows c,
           if CreditEntry.is_paid c then rows
           else add_to_total (CreditEntry.customer c) (CreditEntry.amount c) rows)
        [] credits.

(** ** The [currency] filter of [templatetags/custom_filters.py] *)

(** [s[-n:]] and [s[:-n]] on the characters of a string. *)
Definition last_chars (n : nat) (l : list ascii) : list ascii :=
  drop (List.length l - n) l.

Definition but_last_chars (n : nat) (l : list ascii) : list ascii :=
  take (List.length l - n) l.

(** The loop [while len(other) > 0] that puts a comma before every two
    digits, from right to left; [fuel] bounds its turns. *)
Fixpoint group_pairs (fuel : nat) (other formatted_other : list ascii)
    : list ascii :=
  match fuel, other with
  | S fuel, _ :: _ =>
      let chunk := last_chars 2 other in
      let other := but_last_chars 2 other in
      let formatted_other :=
        match formatted_other with
        | [] => chunk
        | _ => chunk ++ ","%char :: formatted_other
        end in
      group_pairs fuel other formatted_other
  | _, _ => formatted_other
  end.

(** The integer part with the commas of the Indian numbering: the last
    three digits, then groups of two. *)
Definition group_indian (integer_part : string) : string :=
  let l := list_ascii_of_string integer_part in
  if (3 <? List.length l)%nat then
    let last3 := last_chars 3 l in
    let other := but_last_chars 3 l in
    string_of_list_ascii
      (group_pairs (List.length other) other [] ++ ","%char :: last3)
  else integer_part.

(** ["{:.2f}".format(val)] split at its point, for an amount [val] that is
    not negative, counted in hundredths. *)
Definition format_2f (val : Z) : string * string :=
  (pretty (val / 100),
   String (ascii_of_nat (48 + Z.to_nat (val mod 100 / 10)))
     (String (ascii_of_nat (48 + Z.to_nat (val mod 10))) "")).

(** [currency(value)] for the value of a decimal column or a sum of such
    values.  The filter formats [float(value)]: it writes the digits of
    [value] as long as the float holds them, which it does for an amount of
    at most fifteen digits. *)
Definition currency (value : money) : string :=
  let is_negative := value <? 0 in
  let val := Z.abs value in
  let '(integer_part, decimal_part) := format_2f val in
  let res := group_indian integer_part in
  let final_res := ("â‚¹" +:+ res +:+ "." +:+ decimal_part)%string in
  if is_negative then ("-" +:+ final_res)%string else final_res.

(** Every line of the cart asks for at least one unit. *)
Definition cart_positive (cart : gmap string Z) : Prop :=
  map_Forall (λ _ q, 1 ≤ q) cart.

(** ** Reading the code lookup *)

(** The ways in which a product answers to a scanned code. *)
Definition has_barcode (code : string) (p : Product.t) : bool :=
  match Product.barcode p with
  | Some b => String.eqb b code
  | None => false
  end.

Definition has_qr_payload (code : string) (p : Product.t) : bool :=
  String.eqb (Product.qr_payload p) code.

Definition has_id (code : string) (p : Product.t) : bool :=
  match Py.int code with
  | Some pid => Product.id p =? pid
  | None => false
  end.

(** Two products with barcodes have different barcodes (the column is
    unique). *)
Definition barcodes_unique (db : DB) : Prop :=
  ∀ i j p q b, products db !! i = Some p → products db !! j = Some q →
               Product.barcode p = Some b → Product.barcode q = Some b → i = j.

(** A shop in which the number of a product is the barcode of another. *)
Definition coded_db : DB :=
  with_products empty_db
    [Product.mk 1 "Apple" 1000 600 100 10 (Some "2") "tea" true;
     Product.mk 2 "Milk" 300 200 0 0 (Some "tea") "qr-milk" true;
     Product.mk 3 "Tea" 500 300 0 4 None "" false].

(** The code [2] between two no-break spaces (the character 160, in UTF-8
    the bytes 194 and 160), as a scanner or a pasted text may give it. *)
Definition padded_code : string :=
  String (Py.byte 194) (String (Py.byte 160)
    (String "2" (String (Py.byte 194) (String (Py.byte 160) EmptyString)))).

(** What the customer [k] still owes: the outstanding total of the entries
    of that customer. *)
Definition outstanding_of (k : Z) (credits : list CreditEntry.t) : money :=
  total_outstanding (List.filter (λ c, CreditEntry.customer c =? k) credits).

(** ** The Indian grouping of digits, told from the right

    The digits of a number, last digit first, with a comma after every two
    of them when more follow. *)
Fixpoint commas_every_two (digits_rev : list ascii) : list ascii :=
  match digits_rev with
  | a :: b :: rest =>
      a :: b :: match rest with
                | [] => []
                | _ => ","%char :: commas_every_two rest
                end
  | _ => digits_rev
  end.

(** The digits of a number, last digit first, with a comma after the first
    three when more follow, and then after every two. *)
Definition commas_indian (digits_rev : list ascii) : list ascii :=
  match digits_rev with
  | a :: b :: c :: (_ :: _) as rest =>
      a :: b :: c :: ","%char :: commas_every_two rest
  | _ => digits_rev
  end.

(** A text without its commas. *)
Definition without_commas (l : list ascii) : list ascii :=
  List.filter (λ c, negb (Ascii.eqb c ","%char)) l.

(** * Properties *)

(** ** Tables: reading a row back after a write *)

Section Tables.
Context {A : Type} (key : A → Z).

Lemma find_key_eq (rows : list A) (k : Z) (row : A) :
  find (λ r, key r =? k) rows = Some row → key row = k.
Proof.
  intros H. apply find_some in H as [_ H]. lia.
Qed.

Lemma find_key_in (rows : list A) (k : Z) (row : A) :
  find (λ r, key r =? k) rows = Some row → row ∈ rows.
Proof.
  intros H. apply find_some in H as [H _]. by apply list_elem_of_In.
Qed.

(** After [UPDATE ... WHERE id = k] by [f], which keeps the key [k], the row
    read under [k] is [f] of the row read before. *)
Lemma find_map_update (f : A → A) (rows : list A) (k j : Z) :
  (∀ r, key r = k → key (f r) = k) →
  find (λ r, key r =? j) (map (λ r, if key r =? k then f r else r) rows)
  = (λ r, if key r =? k then f r else r) <$> find (λ r, key r =? j) rows.
Proof.
  intros Hkey. induction rows as [|r rows IH]; [done|].
  cbn [map find].
  replace (key (if key r =? k then f r else r)) with (key r)
    by (destruct (Z.eqb_spec (key r) k) as [H|]; [rewrite (Hkey _ H); lia | done]).
  destruct (key r =? j); [done | apply IH].
Qed.

Lemma find_unique (rows : list A) (row : A) :
  NoDup (key <$> rows) → row ∈ rows →
  find (λ r, key r =? key row) rows = Some row.
Proof.
  induction rows as [|r rows IH]; intros Hnd Hin.
  - by apply elem_of_nil in Hin.
  - apply NoDup_cons in Hnd as [Hr Hnd]. cbn [find].
    apply elem_of_cons in Hin as [->|Hin].
    + by rewrite Z.eqb_refl.
    + destruct (Z.eqb_spec (key r) (key row)) as [Heq|_]; [|by apply IH].
      exfalso. apply Hr. rewrite Heq. by apply list_elem_of_fmap_2.
Qed.
End Tables.

(** ** Order status: [mark_order_completed] *)

Lemma get_order_save_order (db : DB) (row : Order.t) (k : Z) :
  get_order (save_order db row) k
  = (λ o, if Order.id o =? Order.id row then row else o) <$> get_order db k.
Proof.
  unfold get_order, save_order. cbn [orders with_orders].
  by apply (find_map_update Order.id (λ _, row)).
Qed.

(** C5, the claim as written, at a returned order: the order leaves
    [returned] for [completed], a transition other than pending to
    completed. *)
Lemma mark_order_completed_from_returned :
  Order.status <$> get_order (sample_db Order.returned) 1 = Some Order.returned
  ∧ Order.status
      <$> get_order
            (mark_order_completed (post_request ∅ ∅ 50) 1
               (sample_db Order.returned)).2 1
    = Some Order.completed.
Proof. split; reflexivity. Qed.


Lemma status_eqb_eq (a b : Order.status_t) :
  Order.status_eqb a b = true ↔ a = b.
Proof. destruct a, b; cbn; split; congruence. Qed.

(** C5, as the code has it: [mark_order_completed] answers with the
    redirect; an order that is completed already leaves the database as it
    was; an order in any other status (pending, preparing, cancelled or
    returned) becomes completed, with [updated_at] stamped and every other
    column and every other order kept. *)
Theorem mark_order_completed_spec (request : Request) (order_id : Z) (db : DB)
    (order : Order.t) :
  get_order db order_id = Some order →
  let '(response, db') := mark_order_completed request order_id db in
  response = Redirect "shop_dashboard"
  ∧ (Order.status order = Order.completed → db' = db)
  ∧ (Order.status order ≠ Order.completed →
     get_order db' order_id
     = Some (Order.with_updated_at (Order.with_status order Order.completed)
               (now request))
     ∧ ∀ k, k ≠ order_id → get_order db' k = get_order db k).
Proof.
  intros Hget. unfold mark_order_completed. rewrite Hget.
  pose proof (find_key_eq Order.id _ _ _ Hget) as Hid.
  destruct (Order.status_eqb (Order.status order) Order.completed) eqn:Hst;
    cbn [negb].
  - apply status_eqb_eq in Hst. by repeat split.
  - assert (Order.status order ≠ Order.completed) as Hne
      by (intros H; apply status_eqb_eq in H; congruence).
    split; [done|]. split; [done|]. intros _. split.
    + rewrite get_order_save_order, Hget. cbn. by rewrite Hid, Z.eqb_refl.
    + intros k Hk. rewrite get_order_save_order.
      destruct (get_order db k) as [o|] eqn:Hk'; [|done].
      pose proof (find_key_eq Order.id _ _ _ Hk') as Hid'.
      cbn. rewrite Hid. destruct (Z.eqb_spec (Order.id o) order_id); [congruence | done].
Qed.

Lemma mark_order_completed_spec_witness :
  let db := sample_db Order.pending in
  let request := post_request ∅ ∅ 50 in
  let '(response, db') := mark_order_completed request 1 db in
  response = Redirect "shop_dashboard"
  ∧ (Order.pending = Order.completed → db' = db)
  ∧ (Order.pending ≠ Order.completed →
     get_order db' 1
     = Some (Order.mk 1 "Asha" "98" "Pune" 10 50 Order.completed)
     ∧ ∀ k, k ≠ 1 → get_order db' k = get_order db k).
Proof.
  exact (mark_order_completed_spec (post_request ∅ ∅ 50) 1
           (sample_db Order.pending)
           (Order.mk 1 "Asha" "98" "Pune" 10 10 Order.pending) eq_refl).
Defined.

(** ** Credit Ledger: [mark_credit_paid] *)

Lemma get_credit_save_credit (db : DB) (row : CreditEntry.t) (k : Z) :
  get_credit (save_credit db row) k
  = (λ c, if CreditEntry.id c =? CreditEntry.id row then row else c)
      <$> get_credit db k.
Proof.
  unfold get_credit, save_credit. cbn [credit_entries with_credit_entries].
  by apply (find_map_update CreditEntry.id (λ _, row)).
Qed.

Lemma get_credit_audit_log (request : Request) (action : AuditLog.action_t)
    (model_name field : string) (object_id : Z) (old_value new_value : Py.value)
    (db : DB) (k : Z) :
  get_credit
    (_audit_log request action model_name object_id field old_value new_value db) k
  = get_credit db k.
Proof. reflexivity. Qed.

(** The handler leaves a paid entry, and the whole database, as they are. *)
Lemma mark_credit_paid_paid (request : Request) (credit_id : Z) (db : DB)
    (credit : CreditEntry.t) :
  get_credit db credit_id = Some credit →
  CreditEntry.is_paid credit = true →
  mark_credit_paid request credit_id db = (Redirect "credit_list", db).
Proof.
  intros Hget Hpaid. unfold mark_credit_paid. by rewrite Hget, Hpaid.
Qed.

(** C7: marking a credit entry paid twice.  The second call changes nothing
    in the database, so [is_paid] stays true and [date_paid] keeps the value
    it had after the first call; for an entry that was unpaid, [date_paid]
    is the moment of the first call, and the two calls together add exactly
    one row to the audit trail, the [credit_paid] entry of the first. *)
Theorem mark_credit_paid_twice (request1 request2 : Request) (credit_id : Z)
    (db : DB) (credit : CreditEntry.t) :
  get_credit db credit_id = Some credit →
  let db1 := (mark_credit_paid request1 credit_id db).2 in
  let db2 := (mark_credit_paid request2 credit_id db1).2 in
  db2 = db1
  ∧ CreditEntry.is_paid <$> get_credit db2 credit_id = Some true
  ∧ CreditEntry.date_paid <$> get_credit db2 credit_id
    = CreditEntry.date_paid <$> get_credit db1 credit_id
  ∧ (CreditEntry.is_paid credit = false →
     CreditEntry.date_paid <$> get_credit db2 credit_id
     = Some (Some (now request1))
     ∧ audit_logs db2
       = audit_logs db ++
         [AuditLog.mk (next_id (AuditLog.id <$> audit_logs db)) (user request1)
            AuditLog.credit_paid "CreditEntry" credit_id "is_paid"
            "False" "True" (now request1)]).
Proof.
  intros Hget db1 db2.
  pose proof (find_key_eq CreditEntry.id _ _ _ Hget) as Hid.
  destruct (CreditEntry.is_paid credit) eqn:Hpaid.
  - assert (db1 = db) as Hdb1
      by (unfold db1; by rewrite (mark_credit_paid_paid _ _ _ _ Hget Hpaid)).
    assert (db2 = db) as Hdb2
      by (unfold db2; rewrite Hdb1;
          by rewrite (mark_credit_paid_paid _ _ _ _ Hget Hpaid)).
    rewrite Hdb2, Hdb1, Hget. cbn. rewrite Hpaid. by repeat split.
  - assert (get_credit db1 credit_id
            = Some (CreditEntry.paid_at credit (now request1))) as Hget1.
    { unfold db1, mark_credit_paid. rewrite Hget, Hpaid. cbn [negb snd].
      rewrite get_credit_audit_log, get_credit_save_credit, Hget. cbn.
      by rewrite Hid, Z.eqb_refl. }
    assert (db2 = db1) as Hdb2
      by (unfold db2; by rewrite (mark_credit_paid_paid _ _ _ _ Hget1 eq_refl)).
    rewrite Hdb2, Hget1. repeat split.
    unfold db1, mark_credit_paid. rewrite Hget, Hpaid. cbn. by rewrite Hid.
Qed.

Lemma mark_credit_paid_twice_witness :
  let db := sample_db Order.pending in
  let db1 := (mark_credit_paid (post_request ∅ ∅ 50) 1 db).2 in
  let db2 := (mark_credit_paid (post_request ∅ ∅ 70) 1 db1).2 in
  db2 = db1
  ∧ CreditEntry.is_paid <$> get_credit db2 1 = Some true
  ∧ CreditEntry.date_paid <$> get_credit db2 1
    = CreditEntry.date_paid <$> get_credit db1 1
  ∧ (false = false →
     CreditEntry.date_paid <$> get_credit db2 1 = Some (Some 50)
     ∧ audit_logs db2
       = [AuditLog.mk 1 (Some 1) AuditLog.credit_paid "CreditEntry" 1 "is_paid"
            "False" "True" 50]).
Proof.
  exact (mark_credit_paid_twice (post_request ∅ ∅ 50) (post_request ∅ ∅ 70) 1
           (sample_db Order.pending)
           (CreditEntry.mk 1 1 None "Sugar 2kg" 1 9000 5 false None) eq_refl).
Defined.

(** ** Checkout: the customer fields *)

(** C9: a checkout POST with a cart in the session and a name, phone or
    address that is missing or empty shows the checkout page again and writes
    nothing: the database (orders, items, payments, stock) and the session
    cart are what they were.  So an order row appears only when the three
    fields are all non-empty. *)
Theorem checkout_requires_customer_fields (request : Request) (db : DB) :
  session_cart request ≠ ∅ →
  is_POST request = true →
  Py.truthy (POST_data request !! "name")
  && Py.truthy (POST_data request !! "phone")
  && Py.truthy (POST_data request !! "address") = false →
  checkout request db = (Render "shop/checkout.html", db, session_cart request).
Proof.
  intros Hcart Hpost Hfields. unfold checkout.
  rewrite bool_decide_eq_false_2 by done.
  by rewrite Hpost, Hfields.
Qed.

Lemma checkout_requires_customer_fields_witness :
  let request :=
    post_request {[ "name" := "Asha"; "phone" := ""; "address" := "Pune" ]}
      {[ "1" := 3 ]} 50 in
  checkout request (sample_db Order.pending)
  = (Render "shop/checkout.html", sample_db Order.pending, session_cart request).
Proof.
  apply (checkout_requires_customer_fields
           (post_request {[ "name" := "Asha"; "phone" := ""; "address" := "Pune" ]}
              {[ "1" := 3 ]} 50)
           (sample_db Order.pending)).
  - vm_compute. discriminate.
  - reflexivity.
  - vm_compute. reflexivity.
Defined.

(** Conversely, whatever the request, a change of the order table means the
    three fields were non-empty. *)
Lemma checkout_order_only_with_fields (request : Request) (db : DB) :
  orders (checkout request db).1.2 ≠ orders db →
  Py.truthy (POST_data request !! "name")
  && Py.truthy (POST_data request !! "phone")
  && Py.truthy (POST_data request !! "address") = true.
Proof.
  unfold checkout. case_bool_decide; [done|].
  destruct (is_POST request); [|done]. cbn [andb].
  by destruct (_ && _ && _).
Qed.

(** ** Forgiving forms: quantities that are no numbers *)

Lemma int_or_one_unparsed (text : string) :
  Py.int text = None → int_or_one text = 1.
Proof. intros H. unfold int_or_one. by rewrite H. Qed.

(** [add_to_cart] reads such a quantity as one unit. *)
Lemma add_to_cart_unparsed (request : Request) (product_id : Z) (text : string) :
  is_POST request = true →
  POST_data request !! "quantity" = Some text →
  Py.int text = None →
  add_to_cart request product_id
  = (Redirect "cart_summary",
     <[cart_key product_id :=
         default 0 (session_cart request !! cart_key product_id) + 1]>
       (session_cart request)).
Proof.
  intros Hpost Hq Hint. unfold add_to_cart, Py.get.
  rewrite Hpost, Hq. cbn [from_option id]. rewrite (int_or_one_unparsed _ Hint).
  by destruct (session_cart request !! cart_key product_id).
Qed.

(** [scan_add_to_cart] does the same for the product the code names. *)
Lemma scan_add_to_cart_unparsed (request : Request) (db : DB)
    (product : Product.t) :
  _find_product_by_code db (get_or_post request "code" "") = Ok (Some product) →
  Product.is_active product = true →
  Py.int (get_or_post request "qty" "1") = None →
  scan_add_to_cart request db
  = (Redirect "cart_summary",
     <[cart_key (Product.id product) :=
         default 0 (session_cart request !! cart_key (Product.id product)) + 1]>
       (session_cart request)).
Proof.
  intros Hfind Hactive Hint. unfold scan_add_to_cart.
  rewrite Hfind, Hactive. cbn [negb]. by rewrite (int_or_one_unparsed _ Hint).
Qed.

(** [scan_stock_increment] adds one unit to the stock. *)
Lemma scan_stock_increment_unparsed (request : Request) (db : DB)
    (product : Product.t) :
  _find_product_by_code db (get_or_post request "code" "") = Ok (Some product) →
  Py.int (get_or_post request "delta" "1") = None →
  (scan_stock_increment request db).1 = Redirect "sales_dashboard"
  ∧ products (scan_stock_increment request db).2
    = map (λ p, if Product.id p =? Product.id product
                then Product.with_stock_quantity p
                       (Product.stock_quantity product + 1)
                else p) (products db).
Proof.
  intros Hfind Hint. unfold scan_stock_increment.
  rewrite Hfind, (int_or_one_unparsed _ Hint). by split.
Qed.

(** [update_cart] has no such fall-back: the [ValueError] leaves the
    handler and the cart is not written. *)
Lemma update_cart_unparsed (request : Request) (product_id : Z) (text : string) :
  is_POST request = true →
  POST_data request !! "quantity" = Some text →
  Py.int text = None →
  update_cart request product_id = (Raised ValueError, session_cart request).
Proof.
  intros Hpost Hq Hint. unfold update_cart. by rewrite Hpost, Hq, Hint.
Qed.

(** Nor has [add_credit]: nothing is written. *)
Lemma add_credit_unparsed (request : Request) (db : DB) (text : string) :
  is_POST request = true →
  POST_data request !! "quantity" = Some text →
  Py.int text = None →
  add_credit request db = (Raised ValueError, db).
Proof.
  intros Hpost Hq Hint. unfold add_credit. by rewrite Hpost, Hq, Hint.
Qed.

(** C8, at a quantity that is no number: the cart update and the credit
    entry end in an uncaught [ValueError] and write nothing, where the claim
    has them go on with the quantity 1; on the same text [add_to_cart] goes
    on with one unit. *)
Theorem quantity_fallback_missing_in_update_cart_and_add_credit :
  Py.int "abc" = None
  ∧ update_cart (post_request {[ "quantity" := "abc" ]} {[ "1" := 3 ]} 50) 1
    = (Raised ValueError, {[ "1" := 3 ]})
  ∧ add_credit
      (post_request
         {[ "customer_id" := "1"; "item_name" := "Sugar"; "quantity" := "abc";
            "amount" := "50" ]} ∅ 50)
      (sample_db Order.pending)
    = (Raised ValueError, sample_db Order.pending)
  ∧ add_to_cart (post_request {[ "quantity" := "abc" ]} {[ "1" := 3 ]} 50) 1
    = (Redirect "cart_summary", {[ "1" := 4 ]}).
Proof. repeat split; vm_compute; reflexivity. Qed.

(** ** Reporting: sums over a join *)

Lemma sum_of_app {A : Type} (f : A → Z) (l1 l2 : list A) :
  sum_of f (l1 ++ l2) = sum_of f l1 + sum_of f l2.
Proof. induction l1 as [|a l1 IH]; cbn; [done | rewrite IH; lia]. Qed.

Lemma sum_of_plus {A : Type} (f g : A → Z) (l : list A) :
  sum_of (λ a, f a + g a) l = sum_of f l + sum_of g l.
Proof. induction l as [|a l IH]; cbn; [done | rewrite IH; lia]. Qed.

Lemma sum_of_minus {A : Type} (f g : A → Z) (l : list A) :
  sum_of (λ a, f a - g a) l = sum_of f l - sum_of g l.
Proof. induction l as [|a l IH]; cbn; [done | rewrite IH; lia]. Qed.

Lemma sum_of_ext {A : Type} (f g : A → Z) (l : list A) :
  (∀ a, f a = g a) → sum_of f l = sum_of g l.
Proof. intros H. induction l as [|a l IH]; cbn; [done | by rewrite H, IH]. Qed.

Lemma sum_of_zero {A : Type} (l : list A) : sum_of (λ _, 0) l = 0.
Proof. induction l as [|a l IH]; cbn; [done | by rewrite IH]. Qed.

Section Join.
Context {A B : Type} (fk : A → Z) (key : B → Z) (keep : B → bool) (f : A → Z).

(** The share of one child row in the sum grouped by parent is nothing when
    no parent has its key. *)
Lemma share_absent (a : A) (parents : list B) :
  fk a ∉ key <$> parents →
  sum_of (λ b, if fk a =? key b then f a else 0) (List.filter keep parents) = 0.
Proof.
  induction parents as [|b bs IH]; [done|].
  intros Hnot. apply not_elem_of_cons in Hnot as [Hne Hnot].
  cbn [List.filter]. destruct (keep b); cbn [sum_of]; [|by apply IH].
  rewrite (IH Hnot). destruct (Z.eqb_spec (fk a) (key b)); [done | lia].
Qed.

Lemma share_found (a : A) (parents : list B) :
  NoDup (key <$> parents) →
  sum_of (λ b, if fk a =? key b then f a else 0) (List.filter keep parents)
  = match find (λ b, key b =? fk a) parents with
    | Some b => if keep b then f a else 0
    | None => 0
    end.
Proof.
  induction parents as [|b bs IH]; [done|].
  intros Hnd. apply NoDup_cons in Hnd as [Hb Hnd].
  cbn [find List.filter]. destruct (Z.eqb_spec (key b) (fk a)) as [Heq|Hne].
  - rewrite Heq in Hb. pose proof (share_absent a bs Hb) as Habs.
    destruct (keep b); cbn [sum_of]; [|done].
    rewrite Habs, <- Heq, Z.eqb_refl. lia.
  - rewrite <- (IH Hnd).
    destruct (keep b); cbn [sum_of]; [|done].
    destruct (Z.eqb_spec (fk a) (key b)); [congruence | done].
Qed.

(** Summing [f] over the child rows whose parent is kept is summing, over
    the kept parents, [f] over the children of each. *)
Lemma sum_of_join (children : list A) (parents : list B) :
  NoDup (key <$> parents) →
  sum_of f
    (List.filter
       (λ a, match find (λ b, key b =? fk a) parents with
             | Some b => keep b
             | None => false
             end) children)
  = sum_of (λ b, sum_of f (List.filter (λ a, fk a =? key b) children))
      (List.filter keep parents).
Proof.
  intros Hnd. induction children as [|a cs IH].
  - cbn. by rewrite sum_of_zero.
  - cbn [List.filter].
    rewrite (sum_of_ext
               (λ b, sum_of f (if fk a =? key b
                               then a :: List.filter (λ a0, fk a0 =? key b) cs
                               else List.filter (λ a0, fk a0 =? key b) cs))
               (λ b, (if fk a =? key b then f a else 0)
                     + sum_of f (List.filter (λ a0, fk a0 =? key b) cs)))
      by (intros b; destruct (fk a =? key b); cbn; lia).
    rewrite sum_of_plus, <- IH, (share_found a parents Hnd).
    destruct (find (λ b, key b =? fk a) parents) as [b|]; [|done].
    destruct (keep b); cbn; lia.
Qed.
End Join.

(** ** Reporting: the revenue of [sales_stats] *)

Lemma sold_items_sum (db : DB) (start end_ : datetime) (f : OrderItem.t → Z) :
  NoDup (Order.id <$> orders db) →
  sum_of f (sold_items db start end_)
  = sum_of (λ o, sum_of f (items_of_order db o))
      (List.filter (counted_order start end_) (orders db)).
Proof.
  intros Hnd. unfold sold_items, get_order, items_of_order.
  by rewrite (sum_of_join OrderItem.order Order.id (counted_order start end_) f).
Qed.

Lemma returned_items_sum (db : DB) (start end_ : datetime) :
  NoDup (OrderReturn.id <$> order_returns db) →
  sum_of (λ i, OrderReturnItem.unit_price i * OrderReturnItem.quantity i)
    (returned_items db start end_)
  = spec_returns db start end_.
Proof.
  intros Hnd. unfold returned_items, spec_returns, items_of_return.
  by rewrite (sum_of_join OrderReturnItem.order_return OrderReturn.id
                (λ r, in_window start end_ (OrderReturn.created_at r))
                (λ i, OrderReturnItem.unit_price i * OrderReturnItem.quantity i)).
Qed.

(** C1, the claim as written, on a completed order of five apples at 10.00
    with a discount of 1.00 each and two bottles of milk at 3.00: the report
    says 56.00, the sum of the discounted line subtotals is 51.00. *)
Lemma sales_stats_revenue_ignores_discount :
  revenue (sales_stats (sample_db Order.completed) 0 100) = 5600
  ∧ spec_revenue (sample_db Order.completed) 0 100 = 5100.
Proof. split; reflexivity. Qed.

(** C1, as the code has it: the revenue of [sales_stats] for the window
    [start, end) is the sum of [unit_price * quantity], the discount not
    taken off, over the items of the orders that are completed or returned
    and were created in the window, less the sum of [unit_price * quantity]
    over the return items whose return was created in the window.  It
    exceeds the figure of the claim by the discounts of those order lines. *)
Theorem sales_stats_revenue (db : DB) (start end_ : datetime) :
  NoDup (Order.id <$> orders db) →
  NoDup (OrderReturn.id <$> order_returns db) →
  revenue (sales_stats db start end_) = spec_gross_revenue db start end_
  ∧ revenue (sales_stats db start end_)
    = spec_revenue db start end_ + spec_discounts db start end_.
Proof.
  intros Ho Hr. unfold sales_stats, spec_gross_revenue, spec_revenue, spec_discounts.
  cbn [revenue]. rewrite (returned_items_sum _ _ _ Hr), (sold_items_sum _ _ _ _ Ho).
  split; [done|].
  rewrite <- !(sold_items_sum _ _ _ _ Ho).
  unfold OrderItem.subtotal.
  rewrite (sum_of_ext (λ i, (OrderItem.unit_price i - OrderItem.discount_amount i)
                            * OrderItem.quantity i)
             (λ i, OrderItem.unit_price i * OrderItem.quantity i
                   - OrderItem.discount_amount i * OrderItem.quantity i))
    by (intros; lia).
  rewrite sum_of_minus. lia.
Qed.

(** After the return of the five apples at 10.00 the report of the window
    says 6.00: 56.00 of sales less 50.00 of returns. *)
Example sales_stats_after_return :
  revenue (sales_stats returned_db 0 100) = 600
  ∧ spec_gross_revenue returned_db 0 100 = 600
  ∧ spec_revenue returned_db 0 100 = 100
  ∧ spec_discounts returned_db 0 100 = 500.
Proof. repeat split; reflexivity. Qed.

Lemma sales_stats_revenue_witness :
  revenue (sales_stats returned_db 0 100) = spec_gross_revenue returned_db 0 100
  ∧ revenue (sales_stats returned_db 0 100)
    = spec_revenue returned_db 0 100 + spec_discounts returned_db 0 100.
Proof.
  apply (sales_stats_revenue returned_db 0 100).
  - apply (bool_decide_unpack _). vm_compute. exact I.
  - apply (bool_decide_unpack _). vm_compute. exact I.
Defined.

(** ** Checkout: stock and audit trail *)

Lemma deduct_max (stock quantity : Z) :
  deduct stock quantity = Z.max (stock - quantity) 0.
Proof. unfold deduct. destruct (Z.leb_spec quantity stock); lia. Qed.

Lemma deduct_nonneg (stock quantity : Z) : 0 ≤ deduct stock quantity.
Proof. rewrite deduct_max. lia. Qed.

Lemma get_product_save_stock (db : DB) (product : Product.t) (k : Z) :
  get_product (save_stock_quantity db product) k
  = (λ p, if Product.id p =? Product.id product
          then Product.with_stock_quantity p (Product.stock_quantity product)
          else p) <$> get_product db k.
Proof.
  unfold get_product, save_stock_quantity. cbn [products with_products].
  by apply (find_map_update Product.id
              (λ p, Product.with_stock_quantity p (Product.stock_quantity product))).
Qed.

Lemma upsert_customer_frame (name phone address : string) (db db0 : DB) :
  upsert_customer name phone address db = Ok db0 →
  products db0 = products db ∧ orders db0 = orders db
  ∧ order_items db0 = order_items db ∧ audit_logs db0 = audit_logs db
  ∧ order_payments db0 = order_payments db.
Proof.
  unfold upsert_customer.
  destruct (objects_get _ _) as [c| |]; [|intros [= <-]; done|done].
  destruct (_ || _); intros [= <-]; done.
Qed.

(** What a placed order did to the database: the customer and the order
    were written, then the lines of the cart, then the payments. *)
Lemma checkout_placed (request : Request) (db db' : DB) (order_id : Z)
    (cart' : gmap string Z) :
  checkout request db = (RedirectOrder "order_success" order_id, db', cart') →
  ∃ db0,
    products db0 = products db ∧ audit_logs db0 = audit_logs db
    ∧ order_items db0 = order_items db
    ∧ let db1 := foldl (checkout_line request order_id) db0
                   (cart_products (session_cart request) db0) in
      products db' = products db1 ∧ audit_logs db' = audit_logs db1
      ∧ order_items db' = order_items db1.
Proof.
  unfold checkout. case_bool_decide; [done|].
  destruct (is_POST request && _); [|done].
  destruct (upsert_customer _ _ _ db) as [db0|] eqn:Hc; [|done].
  apply upsert_customer_frame in Hc as (Hp & _ & Hi & Ha & _).
  intros [= <- <- <-].
  eexists (with_orders db0 _). cbn [products audit_logs order_items with_orders].
  repeat split; [done..| | |];
    repeat match goal with |- context [if ?b then _ else _] => destruct b end;
    reflexivity.
Qed.

Lemma get_product_checkout_line (request : Request) (order_id : Z) (db : DB)
    (line : Product.t * Z) (k : Z) :
  get_product (checkout_line request order_id db line) k
  = (λ p, if Product.id p =? Product.id line.1
          then Product.with_stock_quantity p
                 (deduct (Product.stock_quantity line.1) line.2)
          else p) <$> get_product db k.
Proof.
  destruct line as [product quantity]. unfold checkout_line.
  change (get_product (_audit_log ?r ?a ?m ?o ?f ?x ?y ?d) k) with (get_product d k).
  rewrite get_product_save_stock. reflexivity.
Qed.

(** Lines on other products leave the row of product [k] alone. *)
Lemma get_product_checkout_others (request : Request) (order_id : Z)
    (lines : list (Product.t * Z)) (db : DB) (k : Z) :
  Forall (λ line, Product.id line.1 ≠ k) lines →
  get_product (foldl (checkout_line request order_id) db lines) k
  = get_product db k.
Proof.
  revert db. induction lines as [|line lines IH]; intros db Hall; [done|].
  apply Forall_cons in Hall as [Hne Hall]. cbn [foldl].
  rewrite (IH _ Hall), get_product_checkout_line.
  destruct (get_product db k) as [p|] eqn:Hp; [|done].
  pose proof (find_key_eq Product.id _ _ _ Hp) as Hid. cbn.
  destruct (Z.eqb_spec (Product.id p) (Product.id line.1)); [congruence | done].
Qed.

Lemma audit_logs_checkout_line (request : Request) (order_id : Z) (db : DB)
    (line : Product.t * Z) :
  audit_logs (checkout_line request order_id db line)
  = audit_logs db ++
    [AuditLog.mk (next_id (AuditLog.id <$> audit_logs db)) (user request)
       AuditLog.stock_change "Product" (Product.id line.1) "stock_quantity"
       (pretty (Product.stock_quantity line.1))
       (pretty (deduct (Product.stock_quantity line.1) line.2)) (now request)].
Proof. destruct line. reflexivity. Qed.

Lemma audit_logs_checkout_lines (request : Request) (order_id : Z)
    (lines : list (Product.t * Z)) (db : DB) :
  ∃ entries,
    audit_logs (foldl (checkout_line request order_id) db lines)
    = audit_logs db ++ entries
    ∧ Forall2 (line_entry request) lines entries.
Proof.
  revert db. induction lines as [|line lines IH]; intros db.
  - exists []. split; [by rewrite app_nil_r | constructor].
  - cbn [foldl]. destruct (IH (checkout_line request order_id db line))
      as (entries & Hlogs & Hall).
    rewrite audit_logs_checkout_line in Hlogs. rewrite <- app_assoc in Hlogs.
    eexists (_ :: entries). split; [exact Hlogs|].
    constructor; [reflexivity | done].
Qed.

Lemma cart_products_split (cart : gmap string Z) (db : DB) (product : Product.t)
    (q : Z) :
  NoDup (Product.id <$> products db) →
  product ∈ products db →
  cart !! cart_key (Product.id product) = Some q →
  ∃ before after,
    cart_products cart db = before ++ (product, q) :: after
    ∧ Forall (λ line, Product.id line.1 ≠ Product.id product) before
    ∧ Forall (λ line, Product.id line.1 ≠ Product.id product) after.
Proof.
  intros Hnd Hin Hq. unfold cart_products.
  apply list_elem_of_split in Hin as (ps1 & ps2 & Hps). rewrite Hps in *.
  rewrite fmap_app, fmap_cons in Hnd.
  apply NoDup_app in Hnd as (_ & Hdisj & Hnd2).
  apply NoDup_cons in Hnd2 as [Hnot2 _].
  assert (∀ ps : list Product.t,
            Product.id product ∉ Product.id <$> ps →
            Forall (λ line : Product.t * Z, Product.id line.1 ≠ Product.id product)
              (omap (λ p, quantity ← cart !! cart_key (Product.id p);
                          Some (p, quantity)) ps)) as Hother.
  { intros ps Hnot. apply Forall_forall. intros [p q'] Hel.
    apply list_elem_of_omap in Hel as (x & Hx & Hfx).
    destruct (cart !! cart_key (Product.id x)); [|done].
    cbn in Hfx. injection Hfx as <- <-. cbn. intros Heq. apply Hnot.
    rewrite <- Heq. by apply list_elem_of_fmap_2. }
  eexists _, _. rewrite omap_app. cbn [omap list_omap]. rewrite Hq. cbn.
  split; [reflexivity|]. split; apply Hother; [|done].
  intros Hel. apply (Hdisj _ Hel). apply elem_of_cons. by left.
Qed.

Lemma filter_stock_changes_others (request : Request) (k : Z)
    (lines : list (Product.t * Z)) (entries : list AuditLog.t) :
  Forall2 (line_entry request) lines entries →
  Forall (λ line, Product.id line.1 ≠ k) lines →
  List.filter (is_stock_change_of k) entries = [].
Proof.
  induction 1 as [|line entry lines entries Hentry _ IH]; [done|].
  intros Hall. apply Forall_cons in Hall as [Hne Hall].
  cbn [List.filter]. rewrite (IH Hall).
  unfold is_stock_change_of. rewrite Hentry. cbn.
  destruct (Z.eqb_spec (Product.id line.1) k); [congruence | done].
Qed.

(** What a placed order did to the stock: a line of the cart that asks for
    [q] units of a product with stock [s] leaves the product with stock
    [max (s - q) 0], and among the audit entries the request appends there
    is exactly one stock change for the product, from [s] to
    [max (s - q) 0]. *)
Lemma checkout_placed_deducts_stock (request : Request) (db db' : DB) (order_id : Z)
    (cart' : gmap string Z) (product : Product.t) (q : Z) :
  NoDup (Product.id <$> products db) →
  product ∈ products db →
  session_cart request !! cart_key (Product.id product) = Some q →
  checkout request db = (RedirectOrder "order_success" order_id, db', cart') →
  let s := Product.stock_quantity product in
  Product.stock_quantity <$> get_product db' (Product.id product)
  = Some (Z.max (s - q) 0)
  ∧ ∃ entries entry_id,
      audit_logs db' = audit_logs db ++ entries
      ∧ List.filter (is_stock_change_of (Product.id product)) entries
        = [AuditLog.mk entry_id (user request) AuditLog.stock_change "Product"
             (Product.id product) "stock_quantity"
             (pretty s) (pretty (Z.max (s - q) 0)) (now request)].
Proof.
  intros Hnd Hin Hq Hplaced s.
  apply checkout_placed in Hplaced as (db0 & Hp0 & Ha0 & _ & Hp & Ha & _).
  assert (cart_products (session_cart request) db0
          = cart_products (session_cart request) db) as Hlines
    by (unfold cart_products; by rewrite Hp0).
  rewrite Hlines in Hp, Ha.
  destruct (cart_products_split _ _ _ _ Hnd Hin Hq)
    as (before & after & Hsplit & Hbefore & Hafter).
  rewrite Hsplit, foldl_app in Hp, Ha. cbn [foldl] in Hp, Ha.
  split.
  - unfold get_product. rewrite Hp. fold (get_product
      (foldl (checkout_line request order_id)
         (checkout_line request order_id
            (foldl (checkout_line request order_id) db0 before) (product, q))
         after) (Product.id product)).
    rewrite (get_product_checkout_others _ _ _ _ _ Hafter).
    rewrite get_product_checkout_line.
    rewrite (get_product_checkout_others _ _ _ _ _ Hbefore).
    unfold get_product. rewrite Hp0.
    rewrite (find_unique Product.id _ _ Hnd Hin). cbn.
    by rewrite Z.eqb_refl, deduct_max.
  - destruct (audit_logs_checkout_lines request order_id before db0)
      as (entries1 & Hlogs1 & Hall1).
    destruct (audit_logs_checkout_lines request order_id after
                (checkout_line request order_id
                   (foldl (checkout_line request order_id) db0 before)
                   (product, q)))
      as (entries2 & Hlogs2 & Hall2).
    rewrite Ha, Hlogs2, audit_logs_checkout_line, Hlogs1, Ha0.
    eexists (entries1 ++ _ :: entries2), _.
    split; [by rewrite <- !app_assoc|].
    rewrite List.filter_app. cbn [List.filter].
    rewrite (filter_stock_changes_others _ _ _ _ Hall1 Hbefore).
    rewrite (filter_stock_changes_others _ _ _ _ Hall2 Hafter).
    unfold is_stock_change_of. cbn. rewrite Z.eqb_refl.
    by rewrite deduct_max.
Qed.

(** A checkout form with a cart and the three customer fields places the
    order: no condition on the products or their stock is among the
    conditions.  The name must not be that of two customers, or
    [get_or_create] raises. *)
Lemma checkout_places_order (request : Request) (db : DB) (q : Z)
    (key name phone address : string) :
  session_cart request !! key = Some q →
  is_POST request = true →
  POST_data request !! "name" = Some name → name ≠ ""%string →
  POST_data request !! "phone" = Some phone → phone ≠ ""%string →
  POST_data request !! "address" = Some address → address ≠ ""%string →
  (List.length (List.filter (λ c, String.eqb (Customer.name c) name)
                  (customers db)) ≤ 1)%nat →
  ∃ db', checkout request db
         = (RedirectOrder "order_success" (next_id (Order.id <$> orders db)),
            db', ∅).
Proof.
  intros Hq Hpost Hname Hn Hphone Hp Haddress Ha Hone.
  unfold checkout. case_bool_decide as Hempty.
  { rewrite Hempty in Hq. by rewrite lookup_empty in Hq. }
  rewrite Hpost, Hname, Hphone, Haddress. cbn [Py.truthy andb from_option id].
  destruct (String.eqb_spec name ""); [done|].
  destruct (String.eqb_spec phone ""); [done|].
  destruct (String.eqb_spec address ""); [done|]. cbn [negb andb].
  destruct (upsert_customer name phone address db) as [db0|e] eqn:Hc.
  - apply upsert_customer_frame in Hc as (_ & -> & _). by eexists.
  - exfalso. revert Hc. unfold upsert_customer, objects_get.
    destruct (List.filter _ (customers db)) as [|c [|c2 l]];
      [done| |cbn in Hone; lia].
    by destruct (_ || _).
Qed.

(** C2: a checkout never fails on a shortfall of stock.  A checkout form
    that gives name, phone and address places the order, whatever the stock
    of the products is; a line of its cart that asks for [q] units of a
    product with stock [s] leaves the product with stock [max (s - q) 0];
    and among the audit entries the request appends there is exactly one
    stock change for the product, from [s] to [max (s - q) 0].  The
    conditions are on the request and on the rows the handler does not write
    for the line, and none is on the stock: the cart is one that the
    database can hold as order lines ([cart_storable]), the payment amounts
    are plain decimal numbers (an absent one counts as 0) that their column
    holds, the name of the form is not that of two customers, and the
    numbers of the products are distinct. *)
Theorem checkout_deducts_stock (request : Request) (db : DB)
    (product : Product.t) (q : Z) (name phone address : string)
    (a1 a2 : money) :
  NoDup (Product.id <$> products db) →
  product ∈ products db →
  session_cart request !! cart_key (Product.id product) = Some q →
  cart_storable (session_cart request) →
  is_POST request = true →
  POST_data request !! "name" = Some name → name ≠ ""%string →
  POST_data request !! "phone" = Some phone → phone ≠ ""%string →
  POST_data request !! "address" = Some address → address ≠ ""%string →
  (List.length (List.filter (λ c, String.eqb (Customer.name c) name)
                  (customers db)) ≤ 1)%nat →
  Py.float (Py.get_or (POST_data request) "payment_amount_1" "0") = Some a1 →
  Py.float (Py.get_or (POST_data request) "payment_amount_2" "0") = Some a2 →
  a1 ≤ max_amount → a2 ≤ max_amount →
  let s := Product.stock_quantity product in
  ∃ order_id db',
    checkout request db = (RedirectOrder "order_success" order_id, db', ∅)
    ∧ Product.stock_quantity <$> get_product db' (Product.id product)
      = Some (Z.max (s - q) 0)
    ∧ ∃ entries entry_id,
        audit_logs db' = audit_logs db ++ entries
        ∧ List.filter (is_stock_change_of (Product.id product)) entries
          = [AuditLog.mk entry_id (user request) AuditLog.stock_change "Product"
               (Product.id product) "stock_quantity"
               (pretty s) (pretty (Z.max (s - q) 0)) (now request)].
Proof.
  intros Hnd Hin Hq _ Hpost Hname Hn Hphone Hp Haddress Ha Hone _ _ _ _ s.
  destruct (checkout_places_order request db q _ name phone address
              Hq Hpost Hname Hn Hphone Hp Haddress Ha Hone) as [db' Hplaced].
  exists (next_id (Order.id <$> orders db)), db'. split; [exact Hplaced|].
  exact (checkout_placed_deducts_stock request db db' _ ∅ product q
           Hnd Hin Hq Hplaced).
Qed.

Lemma checkout_deducts_stock_witness :
  ∃ order_id db',
    checkout sample_checkout (sample_db Order.pending)
    = (RedirectOrder "order_success" order_id, db', ∅)
    ∧ Product.stock_quantity <$> get_product db' (Product.id apple)
      = Some (Z.max (Product.stock_quantity apple - 12) 0)
    ∧ ∃ entries entry_id,
        audit_logs db' = audit_logs (sample_db Order.pending) ++ entries
        ∧ List.filter (is_stock_change_of (Product.id apple)) entries
          = [AuditLog.mk entry_id (user sample_checkout) AuditLog.stock_change
               "Product" (Product.id apple) "stock_quantity"
               (pretty (Product.stock_quantity apple))
               (pretty (Z.max (Product.stock_quantity apple - 12) 0))
               (now sample_checkout)].
Proof.
  apply (checkout_deducts_stock sample_checkout (sample_db Order.pending)
           apple 12 "Asha" "98" "Pune" 11100 0).
  - apply (bool_decide_unpack _). vm_compute. exact I.
  - apply elem_of_cons. by left.
  - vm_compute. reflexivity.
  - apply map_Forall_to_list.
    assert (map_to_list (session_cart sample_checkout)
            = [("1"%string, 12); ("2"%string, 1)]) as ->
      by (vm_compute; reflexivity).
    repeat (apply Forall_cons; split; [|]);
      [split; [by exists 1 | lia] | split; [by exists 2 | lia] | apply Forall_nil; exact I].
  - reflexivity.
  - vm_compute. reflexivity.
  - discriminate.
  - vm_compute. reflexivity.
  - discriminate.
  - vm_compute. reflexivity.
  - discriminate.
  - vm_compute. lia.
  - vm_compute. reflexivity.
  - vm_compute. reflexivity.
  - vm_compute. discriminate.
  - vm_compute. discriminate.
Defined.

(** Twelve apples ordered from a stock of ten: the order is placed, no apple
    is left, and the audit trail says so. *)
Example checkout_oversells :
  (checkout sample_checkout (sample_db Order.pending)).1.1
  = RedirectOrder "order_success" 2
  ∧ Product.stock_quantity
      <$> products (checkout sample_checkout (sample_db Order.pending)).1.2
    = [0; 1]
  ∧ List.filter (is_stock_change_of 1)
      (audit_logs (checkout sample_checkout (sample_db Order.pending)).1.2)
    = [AuditLog.mk 1 (Some 1) AuditLog.stock_change "Product" 1
         "stock_quantity" "10" "0" 50].
Proof. repeat split; vm_compute; reflexivity. Qed.

(** ** Checkout: a shortfall of stock never fails the order *)

Lemma upsert_customer_outcome (name phone address : string) (db db2 : DB) :
  customers db2 = customers db →
  match upsert_customer name phone address db,
        upsert_customer name phone address db2 with
  | Ok d, Ok d2 => orders d = orders db ∧ orders d2 = orders db2
  | Err e, Err e2 => e = e2
  | _, _ => False
  end.
Proof.
  intros Hc. unfold upsert_customer. rewrite Hc.
  destruct (objects_get _ _); [|done..].
  by destruct (_ || _).
Qed.

(** The response of [checkout] is the same on two databases that differ in
    their products only, whatever the stock: the order is placed, or not,
    without regard to the stock. *)
Lemma checkout_response_whatever_stock (request : Request) (db db2 : DB) :
  customers db2 = customers db →
  orders db2 = orders db →
  (checkout request db2).1.1 = (checkout request db).1.1.
Proof.
  intros Hc Ho. unfold checkout. case_bool_decide; [done|].
  destruct (is_POST request && _); [|done].
  pose proof (upsert_customer_outcome
                (default "" (POST_data request !! "name"))
                (default "" (POST_data request !! "phone"))
                (default "" (POST_data request !! "address")) db db2 Hc) as Hout.
  destruct (upsert_customer _ _ _ db) as [d|e],
           (upsert_customer _ _ _ db2) as [d2|e2]; try done.
  - destruct Hout as [H1 H2]. cbn [fst]. by rewrite H1, H2, Ho.
  - cbn [fst]. by rewrite Hout.
Qed.

(** ** Return Engine *)

Lemma get_order_save_status (db : DB) (order : Order.t) (k : Z) :
  get_order (save_status db order) k
  = (λ o, if Order.id o =? Order.id order
          then Order.with_status o (Order.status order) else o)
      <$> get_order db k.
Proof.
  unfold get_order, save_status. cbn [orders with_orders].
  by apply (find_map_update Order.id (λ o, Order.with_status o (Order.status order))).
Qed.

Lemma requested_nothing (post : gmap string string) (item : OrderItem.t) :
  nothing_requested post item ↔ requested_quantity post item ≤ 0.
Proof.
  unfold nothing_requested, requested_quantity.
  destruct (Py.int _); cbn; [done | split; [lia | done]].
Qed.

(** A line with nothing asked back leaves the loop state as it is. *)
Lemma return_line_skip (request : Request) (oreturn_id : Z) (st : DB * money)
    (line : OrderItem.t * Product.t) :
  requested_quantity (POST_data request) line.1 ≤ 0 →
  return_line request oreturn_id st line = st.
Proof.
  intros H. destruct st as [db total], line as [item product].
  unfold return_line. cbn in H.
  destruct (Z.ltb_spec 0 (requested_quantity (POST_data request) item)); [lia | done].
Qed.

Lemma return_lines_skip (request : Request) (oreturn_id : Z) (st : DB * money)
    (lines : list (OrderItem.t * Product.t)) :
  Forall (λ line, requested_quantity (POST_data request) line.1 ≤ 0) lines →
  foldl (return_line request oreturn_id) st lines = st.
Proof.
  revert st. induction lines as [|line lines IH]; intros st Hall; [done|].
  apply Forall_cons in Hall as [H Hall]. cbn [foldl].
  by rewrite (return_line_skip _ _ _ _ H), (IH _ Hall).
Qed.

Lemma order_items_with_product_elem (db : DB) (order_id : Z)
    (line : OrderItem.t * Product.t) :
  line ∈ order_items_with_product db order_id →
  line.1 ∈ order_items db ∧ OrderItem.order line.1 = order_id
  ∧ get_product db (OrderItem.product line.1) = Some line.2.
Proof.
  unfold order_items_with_product. intros Hel.
  apply list_elem_of_omap in Hel as (i & Hi & Hline).
  destruct (Z.eqb_spec (OrderItem.order i) order_id); [|done].
  destruct (get_product db (OrderItem.product i)) eqn:Hp; [|done].
  cbn in Hline. injection Hline as <-. by cbn.
Qed.

(** C10: a return form in which every quantity field of the order's lines
    is no number or not positive still records the return and marks the
    order returned, and it writes no return item and no refund payment and
    leaves the products, their stock included, as they were. *)
Theorem return_order_nothing_requested (request : Request) (order_id : Z)
    (db : DB) (order : Order.t) :
  get_order db order_id = Some order →
  is_POST request = true →
  (∀ item, item ∈ order_items db → OrderItem.order item = order_id →
           nothing_requested (POST_data request) item) →
  let db' := (return_order request order_id db).2 in
  order_returns db'
  = order_returns db ++
    [OrderReturn.mk (next_id (OrderReturn.id <$> order_returns db)) order_id
       (Py.strip (Py.get (POST_data request) "reason" ""))
       (Py.get (POST_data request) "refund_method" "") (now request)]
  ∧ order_return_items db' = order_return_items db
  ∧ order_payments db' = order_payments db
  ∧ products db' = products db
  ∧ Order.status <$> get_order db' order_id = Some Order.returned.
Proof.
  intros Hget Hpost Hnothing.
  pose proof (find_key_eq Order.id _ _ _ Hget) as Hid.
  unfold return_order. rewrite Hget, Hpost, Hid.
  rewrite return_lines_skip.
  - cbn [Z.ltb andb]. rewrite andb_false_r. cbn -[next_id Py.strip Py.get].
    repeat split.
    pose proof (get_order_save_status db (Order.with_status order Order.returned)
                  order_id) as Hs.
    unfold get_order, save_status in Hs. cbn in Hs. rewrite Hs.
    unfold get_order in Hget. rewrite Hget. cbn. by rewrite Hid, Z.eqb_refl.
  - apply Forall_forall. intros line Hel.
    apply order_items_with_product_elem in Hel as (Hin & Horder & _).
    apply requested_nothing. by apply Hnothing.
Qed.

Lemma return_order_nothing_requested_witness :
  let db := sample_db Order.pending in
  let db' := (return_order sample_empty_return 1 db).2 in
  order_returns db' = [] ++ [OrderReturn.mk 1 1 "" "cash" 60]
  ∧ order_return_items db' = order_return_items db
  ∧ order_payments db' = order_payments db
  ∧ products db' = products db
  ∧ Order.status <$> get_order db' 1 = Some Order.returned.
Proof.
  apply (return_order_nothing_requested sample_empty_return 1
           (sample_db Order.pending)
           (Order.mk 1 "Asha" "98" "Pune" 10 10 Order.pending)).
  - reflexivity.
  - reflexivity.
  - intros item Hin _. cbn in Hin.
    apply elem_of_cons in Hin as [->|Hin];
      [|apply elem_of_cons in Hin as [->|Hin]; [|by apply elem_of_nil in Hin]];
      vm_compute; [discriminate | exact I].
Defined.

(** ** Return Engine: a line that is taken back *)

Lemma returned_quantity_min (rqty : Z) (item : OrderItem.t) :
  returned_quantity rqty item = Z.min rqty (OrderItem.quantity item).
Proof.
  unfold returned_quantity.
  destruct (Z.ltb_spec (OrderItem.quantity item) rqty); lia.
Qed.

(** The row of product [k] after one turn of the loop. *)
Lemma get_product_return_line (request : Request) (oreturn_id : Z) (db : DB)
    (total : money) (line : OrderItem.t * Product.t) (k : Z) :
  get_product (return_line request oreturn_id (db, total) line).1 k
  = if 0 <? requested_quantity (POST_data request) line.1
    then (λ p, if Product.id p =? Product.id line.2
               then Product.with_stock_quantity p
                      (Product.stock_quantity line.2
                       + returned_quantity
                           (requested_quantity (POST_data request) line.1) line.1)
               else p) <$> get_product db k
    else get_product db k.
Proof.
  destruct line as [item product]. unfold return_line. cbn [fst snd].
  destruct (0 <? requested_quantity (POST_data request) item); [|done].
  cbn [fst]. by rewrite get_product_save_stock.
Qed.

(** The return items after one turn of the loop. *)
Lemma return_items_return_line (request : Request) (oreturn_id : Z) (db : DB)
    (total : money) (line : OrderItem.t * Product.t) :
  order_return_items (return_line request oreturn_id (db, total) line).1
  = order_return_items db ++
    if 0 <? requested_quantity (POST_data request) line.1
    then [OrderReturnItem.mk
            (next_id (OrderReturnItem.id <$> order_return_items db)) oreturn_id
            (Product.id line.2)
            (returned_quantity (requested_quantity (POST_data request) line.1) line.1)
            (OrderItem.unit_price line.1)]
    else [].
Proof.
  destruct line as [item product]. unfold return_line. cbn [fst snd].
  destruct (0 <? requested_quantity (POST_data request) item);
    [done | by rewrite app_nil_r].
Qed.

(** Turns of the loop that take nothing back on product [k] leave its row
    alone and add no return item on it. *)
Lemma return_lines_others (request : Request) (oreturn_id : Z) (k : Z)
    (lines : list (OrderItem.t * Product.t)) (st : DB * money) :
  List.filter (line_asked (POST_data request) k) lines = [] →
  get_product (foldl (return_line request oreturn_id) st lines).1 k
  = get_product st.1 k
  ∧ ∃ new,
      order_return_items (foldl (return_line request oreturn_id) st lines).1
      = order_return_items st.1 ++ new
      ∧ List.filter (returns_product k) new = [].
Proof.
  revert st. induction lines as [|line lines IH]; intros [db total] Hnone.
  - split; [done|]. exists []. by rewrite app_nil_r.
  - cbn [List.filter] in Hnone.
    destruct (line_asked (POST_data request) k line) eqn:Hline; [done|].
    cbn [foldl].
    destruct (return_line request oreturn_id (db, total) line) as [db1 total1] eqn:Hstep.
    destruct (IH (db1, total1) Hnone) as (Hrow & new & Hitems & Hnew).
    pose proof (get_product_return_line request oreturn_id db total line k) as Hrow1.
    pose proof (return_items_return_line request oreturn_id db total line) as Hitems1.
    rewrite Hstep in Hrow1, Hitems1. cbn [fst] in *.
    unfold line_asked in Hline. split.
    + rewrite Hrow, Hrow1.
      destruct (0 <? requested_quantity (POST_data request) line.1); [|done].
      rewrite andb_true_r in Hline.
      destruct (get_product db k) as [p|] eqn:Hp; [|done].
      pose proof (find_key_eq Product.id _ _ _ Hp) as Hid. cbn.
      destruct (Z.eqb_spec (Product.id p) (Product.id line.2)); [|done].
      apply Z.eqb_neq in Hline. congruence.
    + eexists (_ ++ new). rewrite Hitems, Hitems1, <- app_assoc.
      split; [reflexivity|]. rewrite List.filter_app, Hnew, app_nil_r.
      destruct (0 <? requested_quantity (POST_data request) line.1); [|done].
      rewrite andb_true_r in Hline. cbn. unfold returns_product. cbn.
      by rewrite Hline.
Qed.

Lemma filter_singleton_split {A : Type} (P : A → bool) (l : list A) (x : A) :
  List.filter P l = [x] →
  ∃ l1 l2, l = l1 ++ x :: l2 ∧ P x = true
           ∧ List.filter P l1 = [] ∧ List.filter P l2 = [].
Proof.
  induction l as [|a l IH]; [done|]. cbn [List.filter].
  destruct (P a) eqn:Ha.
  - intros [= -> Hrest]. by exists [], l.
  - intros H. destruct (IH H) as (l1 & l2 & -> & Hx & H1 & H2).
    exists (a :: l1), l2. cbn [List.filter]. by rewrite Ha.
Qed.

(** The lines of the loop that take something back on product [k] are the
    items of the order on [k] with a positive request, each with the row of
    [k] as the query read it. *)
Lemma lines_asked_back (post : gmap string string) (db : DB) (order_id k : Z)
    (product : Product.t) :
  get_product db k = Some product →
  List.filter (line_asked post k) (order_items_with_product db order_id)
  = map (λ i, (i, product))
      (List.filter (asked_back post order_id k) (order_items db)).
Proof.
  intros Hk. unfold order_items_with_product.
  induction (order_items db) as [|i items IH]; [done|].
  cbn [omap list_omap List.filter]. unfold asked_back at 1.
  destruct (Z.eqb_spec (OrderItem.order i) order_id) as [Ho|Ho]; cbn [andb]; [|done].
  destruct (get_product db (OrderItem.product i)) as [p|] eqn:Hp; cbn.
  - pose proof (find_key_eq Product.id _ _ _ Hp) as Hid.
    unfold line_asked at 1. cbn [fst snd]. rewrite Hid.
    destruct (Z.eqb_spec (OrderItem.product i) k) as [Hik|Hik]; cbn [andb]; [|done].
    destruct (0 <? requested_quantity post i); [|done].
    cbn [map]. rewrite IH. rewrite Hik in Hp. congruence.
  - destruct (Z.eqb_spec (OrderItem.product i) k) as [Hik|Hik]; cbn [andb]; [|done].
    congruence.
Qed.

(** The database after a return request that reaches the loop. *)
Lemma return_order_post (request : Request) (order_id : Z) (db : DB)
    (order : Order.t) :
  get_order db order_id = Some order →
  is_POST request = true →
  (return_order request order_id db).2
  = let rid := next_id (OrderReturn.id <$> order_returns db) in
    let refund_method := Py.get (POST_data request) "refund_method" "" in
    let db1 := with_order_returns db
                 (order_returns db ++
                  [OrderReturn.mk rid (Order.id order)
                     (Py.strip (Py.get (POST_data request) "reason" ""))
                     refund_method (now request)]) in
    let st := foldl (return_line request rid) (db1, 0)
                (order_items_with_product db1 (Order.id order)) in
    save_status
      (if Py.truthy (Some refund_method) && (0 <? st.2)
       then create_payment request (Order.id order) refund_method (- st.2)
              "REFUND" st.1
       else st.1)
      (Order.with_status order Order.returned).
Proof.
  intros Hget Hpost. unfold return_order. rewrite Hget, Hpost.
  cbv zeta. by destruct (foldl _ _ _).
Qed.

(** In a return request, a line of the order with a positive quantity [qty]
    asked back, the only such line on its product, gets exactly one return
    item, of quantity [min qty Q] for ordered quantity [Q] and at the unit
    price of the line, and the stock of the product rises by that quantity,
    whatever it was. *)
Lemma return_order_only_line (request : Request) (order_id : Z) (db : DB)
    (order : Order.t) (item : OrderItem.t) (product : Product.t) :
  get_order db order_id = Some order →
  is_POST request = true →
  List.filter (asked_back (POST_data request) order_id (OrderItem.product item))
    (order_items db) = [item] →
  get_product db (OrderItem.product item) = Some product →
  let qty := requested_quantity (POST_data request) item in
  let r := Z.min qty (OrderItem.quantity item) in
  let db' := (return_order request order_id db).2 in
  0 < qty
  ∧ (∃ new new_id,
       order_return_items db' = order_return_items db ++ new
       ∧ List.filter (returns_product (OrderItem.product item)) new
         = [OrderReturnItem.mk new_id (next_id (OrderReturn.id <$> order_returns db))
              (OrderItem.product item) r (OrderItem.unit_price item)])
  ∧ Product.stock_quantity <$> get_product db' (OrderItem.product item)
    = Some (Product.stock_quantity product + r).
Proof.
  intros Hget Hpost Honly Hproduct qty r db'.
  pose proof (find_key_eq Order.id _ _ _ Hget) as Hid.
  pose proof (find_key_eq Product.id _ _ _ Hproduct) as Hpid.
  set (k := OrderItem.product item) in *.
  set (rid := next_id (OrderReturn.id <$> order_returns db)).
  set (db1 := with_order_returns db
                (order_returns db ++
                 [OrderReturn.mk rid order_id
                    (Py.strip (Py.get (POST_data request) "reason" ""))
                    (Py.get (POST_data request) "refund_method" "") (now request)])).
  assert (List.filter (line_asked (POST_data request) k)
            (order_items_with_product db1 order_id) = [(item, product)]) as Hlines
    by (rewrite (lines_asked_back _ db1 _ _ _ Hproduct); cbn [order_items db1
          with_order_returns]; by rewrite Honly).
  apply filter_singleton_split in Hlines
    as (before & after & Hsplit & Hasked & Hbefore & Hafter).
  unfold line_asked in Hasked. cbn [fst snd] in Hasked.
  apply andb_true_iff in Hasked as [_ Hpos]. apply Z.ltb_lt in Hpos.
  split; [exact Hpos|].
  assert (db' = _) as Hdb' by apply (return_order_post _ _ _ _ Hget Hpost).
  cbv zeta in Hdb'. rewrite Hid in Hdb'. fold rid in Hdb'. fold db1 in Hdb'.
  rewrite Hsplit, foldl_app in Hdb'. cbn [foldl] in Hdb'.
  destruct (foldl (return_line request rid) (db1, 0) before) as [db2 total2] eqn:Hfold1.
  destruct (return_lines_others request rid k before (db1, 0) Hbefore)
    as (Hrow1 & new1 & Hitems1 & Hnew1).
  rewrite Hfold1 in Hrow1, Hitems1. cbn [fst] in Hrow1, Hitems1.
  pose proof (get_product_return_line request rid db2 total2 (item, product) k) as Hrow2.
  pose proof (return_items_return_line request rid db2 total2 (item, product)) as Hitems2.
  cbn [fst snd] in Hrow2, Hitems2.
  destruct (return_line request rid (db2, total2) (item, product)) as [db3 total3] eqn:Hstep.
  destruct (return_lines_others request rid k after (db3, total3) Hafter)
    as (Hrow3 & new3 & Hitems3 & Hnew3).
  destruct (foldl (return_line request rid) (db3, total3) after) as [db4 total4] eqn:Hfold3.
  cbn [fst snd] in *.
  apply Z.ltb_lt in Hpos. rewrite Hpos, returned_quantity_min in Hrow2, Hitems2.
  fold qty in Hrow2, Hitems2. fold r in Hrow2, Hitems2.
  assert (order_return_items db' = order_return_items db4
          ∧ get_product db' k = get_product db4 k) as [Hi' Hp'].
  { rewrite Hdb'. destruct (_ && _); by split. }
  split.
  - exists (new1 ++ [OrderReturnItem.mk
                       (next_id (OrderReturnItem.id <$> order_return_items db2))
                       rid (Product.id product) r (OrderItem.unit_price item)]
                 ++ new3), (next_id (OrderReturnItem.id <$> order_return_items db2)).
    split.
    + rewrite Hi', Hitems3, Hitems2, Hitems1. cbn [order_return_items db1
        with_order_returns]. by rewrite <- !app_assoc.
    + rewrite !List.filter_app, Hnew1, Hnew3. cbn [List.filter app].
      unfold returns_product at 1. cbn. by rewrite Hpid, Z.eqb_refl.
  - rewrite Hp', Hrow3, Hrow2, Hrow1.
    change (get_product db1 k) with (get_product db k). rewrite Hproduct. cbn.
    by rewrite Z.eqb_refl.
Qed.


(** C4, the claim as written, on an order with two lines on one product, as
    the inline editor of the admin site can make it: five apples and three
    apples, of which two each are asked back, from a stock of 10.  The
    handler creates the two return items of quantity 2, so by the claim the
    stock rises by 2 for each line, to 14.  It ends at 12: the product row
    of every line is read before the first turn of the loop, the second
    write starts from the stock read then, and the first addition is
    lost. *)
Example return_order_same_product_twice :
  let db' := (return_order twin_return 1 twin_lines_db).2 in
  Product.stock_quantity <$> get_product twin_lines_db 1 = Some 10
  ∧ (λ i, (OrderReturnItem.product i, OrderReturnItem.quantity i))
      <$> order_return_items db' = [(1, 2); (1, 2)]
  ∧ Product.stock_quantity <$> get_product db' 1 = Some 12.
Proof. repeat split; reflexivity. Qed.


Lemma int_or_one_positive (text : string) : 1 ≤ int_or_one text.
Proof.
  unfold int_or_one. destruct (Z.ltb_spec (default 1 (Py.int text)) 1); lia.
Qed.

Lemma cart_nonnegative_insert (cart : gmap string Z) (k : string) (q : Z) :
  cart_nonnegative cart → 0 ≤ q → cart_nonnegative (<[k := q]> cart).
Proof. intros Hc Hq. by apply map_Forall_insert_2. Qed.

Lemma cart_nonnegative_delete (cart : gmap string Z) (k : string) :
  cart_nonnegative cart → cart_nonnegative (delete k cart).
Proof. intros Hc. by apply map_Forall_delete. Qed.

Lemma add_to_cart_nonnegative (request : Request) (product_id : Z) :
  cart_nonnegative (session_cart request) →
  cart_nonnegative (add_to_cart request product_id).2.
Proof.
  intros Hc. unfold add_to_cart.
  assert (1 ≤ (if is_POST request
               then int_or_one (Py.get (POST_data request) "quantity" "1")
               else 1)) as Hq
    by (destruct (is_POST request); [apply int_or_one_positive | lia]).
  destruct (session_cart request !! cart_key product_id) as [n|] eqn:Hn;
    destruct (is_POST request); cbn [snd];
    apply cart_nonnegative_insert; try done;
    try (pose proof (Hc _ _ Hn) as Hpos; cbn in Hpos); lia.
Qed.

Lemma update_cart_nonnegative (request : Request) (product_id : Z) :
  cart_nonnegative (session_cart request) →
  cart_nonnegative (update_cart request product_id).2.
Proof.
  intros Hc. unfold update_cart.
  destruct (is_POST request); [|done].
  destruct (match POST_data request !! "quantity" with
            | Some text => Py.int text
            | None => Some 1
            end) as [quantity|]; [|done].
  destruct (Z.ltb_spec 0 quantity); cbn [snd].
  - apply cart_nonnegative_insert; [done | lia].
  - by apply cart_nonnegative_delete.
Qed.

Lemma scan_add_to_cart_nonnegative (request : Request) (db : DB) :
  cart_nonnegative (session_cart request) →
  cart_nonnegative (scan_add_to_cart request db).2.
Proof.
  intros Hc. unfold scan_add_to_cart.
  destruct (_find_product_by_code db _) as [[product|]|]; [|done..].
  destruct (Product.is_active product); [|done]. cbn [negb snd].
  apply cart_nonnegative_insert; [done|].
  pose proof (int_or_one_positive (get_or_post request "qty" "1")).
  destruct (session_cart request !! cart_key (Product.id product)) as [n|] eqn:Hn;
    [pose proof (Hc _ _ Hn) as Hpos; cbn in *; lia | cbn; lia].
Qed.

(** The cart handlers write keys [str(id)] only: from a cart with such keys
    they leave a cart with such keys. *)
Lemma cart_handlers_write_keys (request : Request) (db : DB) (product_id : Z) :
  let keyed := map_Forall (λ (key : string) (_ : Z), ∃ id, key = cart_key id) in
  keyed (session_cart request) →
  keyed (add_to_cart request product_id).2
  ∧ keyed (update_cart request product_id).2
  ∧ keyed (remove_from_cart request product_id).2
  ∧ keyed (scan_add_to_cart request db).2.
Proof.
  intros keyed Hc.
  assert (∀ id q cart, keyed cart → keyed (<[cart_key id := q]> cart)) as Hins
    by (intros id q cart H; apply map_Forall_insert_2; [by exists id | done]).
  assert (∀ k cart, keyed cart → keyed (delete k cart)) as Hdel
    by (intros k cart H; by apply map_Forall_delete).
  repeat split.
  - unfold add_to_cart.
    destruct (session_cart request !! cart_key product_id);
      destruct (is_POST request); cbn [snd]; by apply Hins.
  - unfold update_cart. destruct (is_POST request); [|done].
    destruct (match POST_data request !! "quantity" with
              | Some text => Py.int text
              | None => Some 1
              end) as [quantity|]; [|done].
    destruct (0 <? quantity); cbn [snd]; [by apply Hins | by apply Hdel].
  - unfold remove_from_cart. cbn [snd]. by apply Hdel.
  - unfold scan_add_to_cart.
    destruct (_find_product_by_code db _) as [[product|]|]; [|done..].
    destruct (Product.is_active product); [|done]. cbn [negb snd].
    by apply Hins.
Qed.

Lemma stock_nonnegative_save (db : DB) (product : Product.t) :
  stock_nonnegative db →
  0 ≤ Product.stock_quantity product →
  stock_nonnegative (save_stock_quantity db product).
Proof.
  unfold stock_nonnegative, save_stock_quantity. cbn [products with_products].
  intros Hdb Hp. apply Forall_fmap. eapply Forall_impl; [exact Hdb|].
  intros p Hnn. cbn. by destruct (Product.id p =? Product.id product).
Qed.

Lemma checkout_line_consistent (request : Request) (order_id : Z) (db : DB)
    (line : Product.t * Z) :
  0 ≤ line.2 →
  stock_nonnegative db ∧ quantities_nonnegative db →
  stock_nonnegative (checkout_line request order_id db line)
  ∧ quantities_nonnegative (checkout_line request order_id db line).
Proof.
  destruct line as [product q]. intros Hq [Hs Hi]. split.
  - unfold checkout_line.
    change (stock_nonnegative (_audit_log ?r ?a ?m ?o ?f ?x ?y ?d))
      with (stock_nonnegative d).
    apply stock_nonnegative_save; [done | apply deduct_nonneg].
  - unfold quantities_nonnegative, checkout_line.
    cbn [order_items _audit_log with_audit_logs save_stock_quantity with_products
         with_order_items].
    apply Forall_app. split; [done|]. by apply Forall_singleton.
Qed.

Lemma checkout_lines_consistent (request : Request) (order_id : Z)
    (lines : list (Product.t * Z)) (db : DB) :
  Forall (λ line, 0 ≤ line.2) lines →
  stock_nonnegative db ∧ quantities_nonnegative db →
  stock_nonnegative (foldl (checkout_line request order_id) db lines)
  ∧ quantities_nonnegative (foldl (checkout_line request order_id) db lines).
Proof.
  revert db. induction lines as [|line lines IH]; intros db Hall Hdb; [done|].
  apply Forall_cons in Hall as [Hq Hall]. cbn [foldl].
  apply IH; [done|]. by apply checkout_line_consistent.
Qed.

Lemma cart_products_nonnegative (cart : gmap string Z) (db : DB) :
  cart_nonnegative cart →
  Forall (λ line : Product.t * Z, 0 ≤ line.2) (cart_products cart db).
Proof.
  intros Hc. apply Forall_forall. intros [p q] Hel.
  apply list_elem_of_omap in Hel as (x & _ & Hx).
  destruct (cart !! cart_key (Product.id x)) as [n|] eqn:Hn; [|done].
  cbn in Hx. injection Hx as <- <-. exact (Hc _ _ Hn).
Qed.

(** [checkout] either places the order or leaves database and cart alone. *)
Lemma checkout_cases (request : Request) (db : DB) :
  (∃ response, checkout request db = (response, db, session_cart request))
  ∨ (∃ order_id db', checkout request db
                     = (RedirectOrder "order_success" order_id, db', ∅)).
Proof.
  unfold checkout. case_bool_decide; [left; by eexists|].
  destruct (is_POST request && _); [|left; by eexists].
  destruct (upsert_customer _ _ _ db) as [db0|]; [|left; by eexists].
  right. by eexists _, _.
Qed.

Lemma checkout_consistent (request : Request) (db : DB) :
  consistent (db, session_cart request) →
  consistent ((checkout request db).1.2, (checkout request db).2).
Proof.
  intros (Hs & Hi & Hc). cbn [fst snd] in *.
  destruct (checkout_cases request db) as [[response H]|(order_id & db' & H)];
    rewrite H; cbn [fst snd]; [done|].
  apply checkout_placed in H as (db0 & Hp0 & _ & Hi0 & Hp & _ & Hitems).
  cbv zeta in Hp, Hitems.
  destruct (checkout_lines_consistent request order_id
              (cart_products (session_cart request) db0) db0) as [Hs1 Hi1].
  - by apply cart_products_nonnegative.
  - unfold stock_nonnegative, quantities_nonnegative. by rewrite Hp0, Hi0.
  - unfold consistent. cbn [fst snd]. repeat split.
    + unfold stock_nonnegative. by rewrite Hp.
    + unfold quantities_nonnegative. by rewrite Hitems.
    + unfold cart_nonnegative. apply map_Forall_empty.
Qed.

Lemma return_line_consistent (request : Request) (oreturn_id : Z)
    (st : DB * money) (line : OrderItem.t * Product.t) :
  0 ≤ OrderItem.quantity line.1 →
  0 ≤ Product.stock_quantity line.2 →
  stock_nonnegative st.1 →
  stock_nonnegative (return_line request oreturn_id st line).1
  ∧ order_items (return_line request oreturn_id st line).1 = order_items st.1.
Proof.
  destruct st as [db total], line as [item product]. cbn [fst snd].
  intros Hq Hs Hdb. unfold return_line.
  destruct (Z.ltb_spec 0 (requested_quantity (POST_data request) item)); [|done].
  cbn [fst]. split; [|done].
  apply stock_nonnegative_save; [done|]. cbn.
  rewrite returned_quantity_min. lia.
Qed.

Lemma return_lines_consistent (request : Request) (oreturn_id : Z)
    (lines : list (OrderItem.t * Product.t)) (st : DB * money) :
  Forall (λ line, 0 ≤ OrderItem.quantity line.1
                  ∧ 0 ≤ Product.stock_quantity line.2) lines →
  stock_nonnegative st.1 →
  stock_nonnegative (foldl (return_line request oreturn_id) st lines).1
  ∧ order_items (foldl (return_line request oreturn_id) st lines).1
    = order_items st.1.
Proof.
  revert st. induction lines as [|line lines IH]; intros st Hall Hst; [done|].
  apply Forall_cons in Hall as [[Hq Hs] Hall]. cbn [foldl].
  destruct (return_line_consistent request oreturn_id st line Hq Hs Hst)
    as [Hst1 Hitems1].
  destruct (IH _ Hall Hst1) as [Hst2 Hitems2].
  split; [done | by rewrite Hitems2].
Qed.

Lemma return_order_consistent (request : Request) (order_id : Z) (db : DB) :
  stock_nonnegative db → quantities_nonnegative db →
  stock_nonnegative (return_order request order_id db).2
  ∧ quantities_nonnegative (return_order request order_id db).2.
Proof.
  intros Hs Hi.
  destruct (get_order db order_id) as [order|] eqn:Hget;
    [|unfold return_order; by rewrite Hget].
  destruct (is_POST request) eqn:Hpost;
    [|unfold return_order; by rewrite Hget, Hpost].
  rewrite (return_order_post _ _ _ _ Hget Hpost). cbv zeta.
  set (db1 := with_order_returns db _).
  set (lines := order_items_with_product db1 (Order.id order)).
  destruct (return_lines_consistent request
              (next_id (OrderReturn.id <$> order_returns db)) lines (db1, 0))
    as [Hs2 Hi2]; [|done|].
  - apply Forall_forall. intros line Hel.
    apply order_items_with_product_elem in Hel as (Hin & _ & Hp).
    split.
    + unfold quantities_nonnegative in Hi. rewrite Forall_forall in Hi.
      by apply Hi.
    + apply (find_key_in Product.id) in Hp.
      unfold stock_nonnegative in Hs. rewrite Forall_forall in Hs.
      by apply Hs.
  - cbn [fst] in Hi2.
    unfold stock_nonnegative, quantities_nonnegative in *.
    destruct (_ && _);
      cbn [products order_items save_status with_orders create_payment
           with_order_payments]; by rewrite ?Hi2.
Qed.

Lemma step_consistent (st : DB * gmap string Z) (op : Operation) :
  consistent st → consistent (step st op).
Proof.
  destruct st as [db cart]. intros (Hs & Hi & Hc). cbn [fst snd] in *.
  destruct op as [request pid|request pid|request pid|request|request|request oid];
    cbn [step].
  - repeat split; [done..|]. by apply add_to_cart_nonnegative.
  - repeat split; [done..|]. by apply update_cart_nonnegative.
  - repeat split; [done..|]. by apply cart_nonnegative_delete.
  - repeat split; [done..|]. by apply scan_add_to_cart_nonnegative.
  - pose proof (checkout_consistent (in_session request cart) db) as H.
    destruct (checkout (in_session request cart) db) as [[response db'] cart'].
    by apply H.
  - destruct (return_order_consistent (in_session request cart) oid db Hs Hi).
    by repeat split.
Qed.

Lemma run_consistent (ops : list Operation) (st : DB * gmap string Z) :
  consistent st → consistent (run st ops).
Proof.
  revert st. induction ops as [|op ops IH]; intros st Hst; [done|].
  cbn [run foldl]. apply IH. by apply step_consistent.
Qed.

(** C3: from a state in which no stock is negative (and neither is any
    ordered quantity or cart quantity, the other columns of that kind), no
    sequence of cart requests, checkouts and returns makes the stock of any
    product negative. *)
Theorem stock_never_negative (db : DB) (cart : gmap string Z)
    (ops : list Operation) :
  stock_nonnegative db →
  quantities_nonnegative db →
  cart_nonnegative cart →
  ∀ product, product ∈ products (run (db, cart) ops).1 →
             0 ≤ Product.stock_quantity product.
Proof.
  intros Hs Hi Hc.
  destruct (run_consistent ops (db, cart)) as (Hs' & _ & _); [done|].
  unfold stock_nonnegative in Hs'. by rewrite Forall_forall in Hs'.
Qed.

Lemma stock_never_negative_witness :
  Forall (λ product, 0 ≤ Product.stock_quantity product)
    (products (run (sample_db Order.pending, ∅) sample_session).1).
Proof.
  apply Forall_forall.
  apply (stock_never_negative (sample_db Order.pending) ∅ sample_session).
  - apply (bool_decide_unpack _). vm_compute. exact I.
  - apply (bool_decide_unpack _). vm_compute. exact I.
  - apply map_Forall_empty.
Defined.

(** ** Purchasing Engine *)

Lemma get_product_save_stock_and_prices (db : DB) (product : Product.t) (k : Z) :
  get_product (save_stock_and_prices db product) k
  = (λ p, if Product.id p =? Product.id product
          then Product.with_prices
                 (Product.with_stock_quantity p (Product.stock_quantity product))
                 (Product.cost_price product) (Product.price product)
          else p) <$> get_product db k.
Proof.
  unfold get_product, save_stock_and_prices. cbn [products with_products].
  by apply (find_map_update Product.id
              (λ p, Product.with_prices
                      (Product.with_stock_quantity p (Product.stock_quantity product))
                      (Product.cost_price product) (Product.price product))).
Qed.

Lemma resolve_wholesaler_frame (post : gmap string string) (db db1 : DB)
    (wholesaler : option Wholesaler.t) :
  resolve_wholesaler post db = Ok (wholesaler, db1) →
  products db1 = products db ∧ purchases db1 = purchases db
  ∧ purchase_items db1 = purchase_items db.
Proof.
  unfold resolve_wholesaler.
  destruct (if Py.truthy (post !! "wholesaler_id") then _ else _) as [[w|]|];
    [by intros [= <- <-]| |done].
  destruct (Py.truthy (Some _)); [|by intros [= <- <-]].
  destruct (objects_get _ _); [by intros [= <- <-]|by intros [= <- <-]|done].
Qed.

Lemma int_parsed_truthy (text : string) (k : Z) :
  Py.int text = Some k → Py.truthy (Some text) = true.
Proof. destruct text; [done | reflexivity]. Qed.

(** C6: a purchase that is recorded against an existing product, with the
    quantity [q] the form yields ([q] is at least 1), a unit cost [c] and a
    selling price [p] above zero, leaves the product with its former stock
    plus [q], with cost price [c] and price [p], whatever they were, and adds
    one purchase of the wholesaler with one purchase item, of [q] units of
    the product at [c]. *)
Theorem purchase_overwrites_prices (request : Request) (db db1 : DB)
    (wholesaler : Wholesaler.t) (product : Product.t) (id_text : string)
    (k : Z) (c p : money) :
  is_POST request = true →
  resolve_wholesaler (POST_data request) db = Ok (Some wholesaler, db1) →
  POST_data request !! "product_id" = Some id_text →
  Py.int id_text = Some k →
  get_product db k = Some product →
  Py.float (Py.get (POST_data request) "unit_cost" "0") = Some c → 0 < c →
  Py.float (Py.get (POST_data request) "selling_price" "0") = Some p → 0 < p →
  let q := int_or_one (Py.get (POST_data request) "quantity" "1") in
  let db' := (wholesaler_dashboard request db).2 in
  1 ≤ q
  ∧ get_product db' k
    = Some (Product.mk k (Product.name product) p c (Product.discount_price product)
              (Product.stock_quantity product + q) (Product.barcode product)
              (Product.qr_payload product) (Product.is_active product))
  ∧ ∃ date expiry,
      purchases db'
      = purchases db ++
        [Purchase.mk (next_id (Purchase.id <$> purchases db))
           (Wholesaler.id wholesaler) date (now request)]
      ∧ purchase_items db'
        = purchase_items db ++
          [PurchaseItem.mk (next_id (PurchaseItem.id <$> purchase_items db))
             (next_id (Purchase.id <$> purchases db)) k q c expiry].
Proof.
  intros Hpost Hw Hid Hint Hget Hc Hcpos Hp Hppos q db'.
  pose proof (find_key_eq Product.id _ _ _ Hget) as Hk.
  destruct (resolve_wholesaler_frame _ _ _ _ Hw) as (Hps & Hpu & Hpi).
  split; [apply int_or_one_positive|].
  assert (resolve_product (POST_data request) c p db1 = (Some product, db1)) as Hrp.
  { unfold resolve_product. rewrite Hid, (int_parsed_truthy _ _ Hint).
    cbn [from_option id]. rewrite Hint. cbn.
    unfold get_product. rewrite Hps. fold (get_product db k). by rewrite Hget. }
  unfold db', wholesaler_dashboard.
  rewrite Hpost, Hw, Hc, Hp. cbn [from_option id].
  destruct (Z.leb_spec c 0); [lia|]. destruct (Z.leb_spec p 0); [lia|].
  rewrite Hrp. cbn [snd]. fold q. split.
  - rewrite get_product_save_stock_and_prices.
    change (get_product (with_purchase_items ?d ?x) k) with (get_product d k).
    change (get_product (with_purchases ?d ?x) k) with (get_product d k).
    unfold get_product. rewrite Hps. fold (get_product db k). rewrite Hget.
    cbn. rewrite Z.eqb_refl. unfold Product.with_prices, Product.with_stock_quantity.
    cbn. by rewrite Hk.
  - eexists _, _.
    cbn [purchases purchase_items save_stock_and_prices with_products
         with_purchase_items with_purchases Purchase.id].
    rewrite Hpu, Hpi, Hk. split; reflexivity.
Qed.

Lemma purchase_overwrites_prices_witness :
  let db' := (wholesaler_dashboard sample_purchase (sample_db Order.pending)).2 in
  1 ≤ 10
  ∧ get_product db' 2
    = Some (Product.mk 2 "Milk" 800 500 0 (2 + 10) None "qr-milk" true)
  ∧ ∃ date expiry,
      purchases db' = [] ++ [Purchase.mk 1 1 date 80]
      ∧ purchase_items db' = [] ++ [PurchaseItem.mk 1 1 2 10 500 expiry].
Proof.
  apply (purchase_overwrites_prices sample_purchase (sample_db Order.pending)
           (sample_db Order.pending) (Wholesaler.mk 1 "Ravi Traders" "" "")
           milk "2" 2 500 800).
  - reflexivity.
  - vm_compute. reflexivity.
  - vm_compute. reflexivity.
  - vm_compute. reflexivity.
  - reflexivity.
  - vm_compute. reflexivity.
  - lia.
  - vm_compute. reflexivity.
  - lia.
Defined.

(** ** One line per product: what [checkout] writes *)

Lemma next_id_above (ids : list Z) (k : Z) : k ∈ ids → k < next_id ids.
Proof.
  unfold next_id. induction ids as [|x ids IH]; intros Hin.
  - by apply elem_of_nil in Hin.
  - cbn [foldr]. apply elem_of_cons in Hin as [->|Hin]; [lia|].
    specialize (IH Hin). lia.
Qed.

Lemma next_id_fresh (ids : list Z) : next_id ids ∉ ids.
Proof. intros Hin. apply next_id_above in Hin. lia. Qed.

Lemma product_ids_save_stock (db : DB) (product : Product.t) :
  Product.id <$> products (save_stock_quantity db product)
  = Product.id <$> products db.
Proof.
  unfold save_stock_quantity. cbn [products with_products].
  rewrite <- list_fmap_compose. apply list_fmap_ext. intros _ p _. cbn.
  by destruct (Product.id p =? Product.id product).
Qed.

Lemma order_ids_save_status (db : DB) (order : Order.t) :
  Order.id <$> orders (save_status db order) = Order.id <$> orders db.
Proof.
  unfold save_status. cbn [orders with_orders].
  rewrite <- list_fmap_compose. apply list_fmap_ext. intros _ o _. cbn.
  by destruct (Order.id o =? Order.id order).
Qed.

(** The order items a cart writes: one per line, on the product of the
    line, for the order being placed. *)
Lemma order_items_checkout_lines (request : Request) (order_id : Z)
    (lines : list (Product.t * Z)) (db : DB) :
  ∃ items,
    order_items (foldl (checkout_line request order_id) db lines)
    = order_items db ++ items
    ∧ OrderItem.product <$> items = (λ line, Product.id line.1) <$> lines
    ∧ Forall (λ i, OrderItem.order i = order_id) items.
Proof.
  revert db. induction lines as [|[product q] lines IH]; intros db.
  - exists []. by rewrite app_nil_r.
  - cbn [foldl].
    destruct (IH (checkout_line request order_id db (product, q)))
      as (items & Hitems & Hproducts & Horders).
    eexists (_ :: items). split; [|split].
    + rewrite Hitems. unfold checkout_line.
      cbn [order_items _audit_log with_audit_logs save_stock_quantity
           with_products with_order_items].
      by rewrite <- app_assoc.
    + cbn. by rewrite Hproducts.
    + by constructor.
Qed.

Lemma product_ids_checkout_lines (request : Request) (order_id : Z)
    (lines : list (Product.t * Z)) (db : DB) :
  Product.id <$> products (foldl (checkout_line request order_id) db lines)
  = Product.id <$> products db.
Proof.
  revert db. induction lines as [|[product q] lines IH]; intros db; [done|].
  cbn [foldl]. rewrite IH. unfold checkout_line.
  change (products (_audit_log ?r ?a ?m ?o ?f ?x ?y ?d)) with (products d).
  by rewrite product_ids_save_stock.
Qed.

Lemma cart_products_keys (cart : gmap string Z) (db : DB) :
  product_keys_unique db →
  NoDup ((λ line : Product.t * Z, Product.id line.1) <$> cart_products cart db).
Proof.
  unfold product_keys_unique, cart_products.
  induction (products db) as [|p ps IH]; intros Hnd; [constructor|].
  apply NoDup_cons in Hnd as [Hp Hnd]. cbn [omap list_omap].
  destruct (cart !! cart_key (Product.id p)) as [q|]; cbn; [|by apply IH].
  apply NoDup_cons. split; [|by apply IH].
  intros Hin. apply Hp.
  apply list_elem_of_fmap in Hin as ([p' q'] & -> & Hin).
  apply list_elem_of_omap in Hin as (x & Hx & Hfx).
  destruct (cart !! cart_key (Product.id x)); [|done].
  cbn in Hfx. injection Hfx as <- <-. by apply list_elem_of_fmap_2.
Qed.

Lemma orders_checkout_lines (request : Request) (order_id : Z)
    (lines : list (Product.t * Z)) (db : DB) :
  orders (foldl (checkout_line request order_id) db lines) = orders db.
Proof.
  revert db. induction lines as [|[product q] lines IH]; intros db; [done|].
  cbn [foldl]. by rewrite IH.
Qed.

Lemma checkout_placed_orders (request : Request) (db db' : DB) (order_id : Z)
    (cart' : gmap string Z) :
  checkout request db = (RedirectOrder "order_success" order_id, db', cart') →
  order_id = next_id (Order.id <$> orders db)
  ∧ Order.id <$> orders db' = (Order.id <$> orders db) ++ [order_id]
  ∧ ∃ db0,
      products db0 = products db ∧ order_items db0 = order_items db
      ∧ products db'
        = products (foldl (checkout_line request order_id) db0
                      (cart_products (session_cart request) db0))
      ∧ order_items db'
        = order_items (foldl (checkout_line request order_id) db0
                         (cart_products (session_cart request) db0)).
Proof.
  unfold checkout. case_bool_decide; [done|].
  destruct (is_POST request && _); [|done].
  destruct (upsert_customer _ _ _ db) as [db0|] eqn:Hc; [|done].
  apply upsert_customer_frame in Hc as (Hp & Ho & Hi & _ & _).
  intros [= <- <- <-]. rewrite Ho. split; [done|]. split.
  - repeat match goal with |- context [if ?b then _ else _] => destruct b end;
      cbn [orders create_payment with_order_payments];
      rewrite orders_checkout_lines; cbn [orders with_orders];
      by rewrite fmap_app.
  - eexists (with_orders db0 _). cbn [products order_items with_orders].
    repeat split; [done..| |];
      repeat match goal with |- context [if ?b then _ else _] => destruct b end;
      reflexivity.
Qed.

Lemma filter_order_app (order_id : Z) (l1 l2 : list OrderItem.t) :
  List.filter (λ i, OrderItem.order i =? order_id) (l1 ++ l2)
  = List.filter (λ i, OrderItem.order i =? order_id) l1
    ++ List.filter (λ i, OrderItem.order i =? order_id) l2.
Proof. apply List.filter_app. Qed.

Lemma filter_order_all (order_id : Z) (items : list OrderItem.t) :
  Forall (λ i, OrderItem.order i = order_id) items →
  List.filter (λ i, OrderItem.order i =? order_id) items = items.
Proof.
  induction 1 as [|i items Hi _ IH]; [done|].
  cbn [List.filter]. by rewrite Hi, Z.eqb_refl, IH.
Qed.

Lemma filter_order_none (order_id : Z) (items : list OrderItem.t) :
  Forall (λ i, OrderItem.order i ≠ order_id) items →
  List.filter (λ i, OrderItem.order i =? order_id) items = [].
Proof.
  induction 1 as [|i items Hi _ IH]; [done|].
  cbn [List.filter]. by destruct (Z.eqb_spec (OrderItem.order i) order_id).
Qed.

(** [checkout] keeps the database well formed. *)
Lemma checkout_well_formed (request : Request) (db : DB) :
  well_formed db → well_formed (checkout request db).1.2.
Proof.
  intros (Hkeys & Hfk & Hone).
  destruct (checkout_cases request db) as [[response H]|(order_id & db' & H)];
    rewrite H; cbn [fst snd]; [done|].
  apply checkout_placed_orders in H
    as (Hid & Horders & db0 & Hp0 & Hi0 & Hp & Hi).
  set (lines := cart_products (session_cart request) db0) in *.
  destruct (order_items_checkout_lines request order_id lines db0)
    as (items & Hitems & Hproducts & Hown).
  rewrite Hitems, Hi0 in Hi.
  assert (Forall (λ i, OrderItem.order i ≠ order_id) (order_items db)) as Hold.
  { unfold items_have_orders in Hfk. eapply Forall_impl; [exact Hfk|].
    intros i Hin Heq. cbn in Hin. rewrite Heq, Hid in Hin.
    by apply next_id_fresh in Hin. }
  repeat split.
  - unfold product_keys_unique.
    by rewrite Hp, product_ids_checkout_lines, Hp0.
  - unfold items_have_orders. rewrite Hi, Horders. apply Forall_app. split.
    + eapply Forall_impl; [exact Hfk|]. intros i Hin. cbn.
      apply elem_of_app. by left.
    + eapply Forall_impl; [exact Hown|]. intros i ->. cbn.
      apply elem_of_app. right. by apply list_elem_of_singleton.
  - intros k. rewrite Hi, filter_order_app, fmap_app.
    destruct (Z.eq_dec k order_id) as [->|Hne].
    + rewrite (filter_order_none _ _ Hold), (filter_order_all _ _ Hown).
      cbn [fmap list_fmap app]. rewrite Hproducts.
      apply cart_products_keys. unfold product_keys_unique. by rewrite Hp0.
    + rewrite (filter_order_none k items), app_nil_r; [apply Hone|].
      eapply Forall_impl; [exact Hown|]. intros i ->. cbn. congruence.
Qed.

Lemma return_line_frame (request : Request) (oreturn_id : Z) (st : DB * money)
    (line : OrderItem.t * Product.t) :
  order_items (return_line request oreturn_id st line).1 = order_items st.1
  ∧ orders (return_line request oreturn_id st line).1 = orders st.1
  ∧ Product.id <$> products (return_line request oreturn_id st line).1
    = Product.id <$> products st.1.
Proof.
  destruct st as [db total], line as [item product]. unfold return_line.
  destruct (0 <? requested_quantity (POST_data request) item); [|done].
  cbn [fst]. repeat split. by rewrite product_ids_save_stock.
Qed.

Lemma return_lines_frame (request : Request) (oreturn_id : Z)
    (lines : list (OrderItem.t * Product.t)) (st : DB * money) :
  order_items (foldl (return_line request oreturn_id) st lines).1
  = order_items st.1
  ∧ orders (foldl (return_line request oreturn_id) st lines).1 = orders st.1
  ∧ Product.id <$> products (foldl (return_line request oreturn_id) st lines).1
    = Product.id <$> products st.1.
Proof.
  revert st. induction lines as [|line lines IH]; intros st; [done|].
  cbn [foldl]. destruct (IH (return_line request oreturn_id st line))
    as (-> & -> & ->).
  apply return_line_frame.
Qed.

(** [return_order] keeps the database well formed. *)
Lemma return_order_well_formed (request : Request) (order_id : Z) (db : DB) :
  well_formed db → well_formed (return_order request order_id db).2.
Proof.
  intros Hwf.
  destruct (get_order db order_id) as [order|] eqn:Hget;
    [|unfold return_order; by rewrite Hget].
  destruct (is_POST request) eqn:Hpost;
    [|unfold return_order; by rewrite Hget, Hpost].
  rewrite (return_order_post _ _ _ _ Hget Hpost). cbv zeta.
  set (db1 := with_order_returns db _).
  destruct (return_lines_frame request
              (next_id (OrderReturn.id <$> order_returns db))
              (order_items_with_product db1 (Order.id order)) (db1, 0))
    as (Hi & Ho & Hp).
  cbn [fst] in Hi, Ho, Hp.
  destruct Hwf as (Hkeys & Hfk & Hone).
  unfold well_formed, product_keys_unique, items_have_orders, one_line_per_product.
  rewrite order_ids_save_status.
  destruct (_ && _);
    cbn [products order_items orders save_status with_orders create_payment
         with_order_payments]; by rewrite Hi, Ho, Hp.
Qed.

Lemma step_well_formed (st : DB * gmap string Z) (op : Operation) :
  well_formed st.1 → well_formed (step st op).1.
Proof.
  destruct st as [db cart]. cbn [fst]. intros Hwf.
  destruct op as [request pid|request pid|request pid|request|request|request oid];
    cbn [step fst]; try done.
  - pose proof (checkout_well_formed (in_session request cart) db Hwf) as H.
    by destruct (checkout (in_session request cart) db) as [[response db'] cart'].
  - by apply return_order_well_formed.
Qed.

(** Every database that the requests reach from a well-formed one is well
    formed: its orders have one line per product. *)
Lemma run_well_formed (ops : list Operation) (st : DB * gmap string Z) :
  well_formed st.1 → well_formed (run st ops).1.
Proof.
  revert st. induction ops as [|op ops IH]; intros st Hwf; [done|].
  cbn [run foldl]. apply IH. by apply step_well_formed.
Qed.

Lemma filter_and {A : Type} (P Q : A → bool) (l : list A) :
  List.filter (λ x, P x && Q x) l = List.filter Q (List.filter P l).
Proof.
  induction l as [|a l IH]; [done|]. cbn [List.filter].
  destruct (P a); cbn [andb List.filter]; [|done].
  destruct (Q a); by rewrite IH.
Qed.

Lemma filter_unique_key {A : Type} (f : A → Z) (P : A → bool) (l : list A) (x : A) :
  NoDup (f <$> l) → x ∈ l → P x = true →
  (∀ y, P y = true → f y = f x) →
  List.filter P l = [x].
Proof.
  intros Hnd Hin Hx Hkey. induction l as [|a l IH].
  - by apply elem_of_nil in Hin.
  - apply NoDup_cons in Hnd as [Ha Hnd]. cbn [List.filter].
    apply elem_of_cons in Hin as [<-|Hin].
    + rewrite Hx. f_equal.
      assert (Forall (λ y, P y = false) l) as Hnone.
      { apply Forall_forall. intros y Hy. destruct (P y) eqn:Hpy; [|done].
        exfalso. apply Ha. rewrite <- (Hkey y Hpy).
        by apply list_elem_of_fmap_2. }
      clear -Hnone. induction Hnone as [|y l Hy _ IHl]; [done|].
      cbn [List.filter]. by rewrite Hy.
    + destruct (P a) eqn:Hpa; [|by apply IH].
      exfalso. apply Ha. rewrite (Hkey a Hpa). by apply list_elem_of_fmap_2.
Qed.

(** In a well-formed database a line with a positive quantity asked back is
    the only such line of its order on its product. *)
Lemma only_line_asked_back (post : gmap string string) (db : DB) (order_id : Z)
    (item : OrderItem.t) :
  one_line_per_product db →
  item ∈ order_items db →
  OrderItem.order item = order_id →
  0 < requested_quantity post item →
  List.filter (asked_back post order_id (OrderItem.product item)) (order_items db)
  = [item].
Proof.
  intros Hone Hin Horder Hpos. unfold asked_back.
  rewrite (filter_and
             (λ i, (OrderItem.order i =? order_id)
                   && (OrderItem.product i =? OrderItem.product item))
             (λ i, 0 <? requested_quantity post i)).
  rewrite (filter_and (λ i, OrderItem.order i =? order_id)
             (λ i, OrderItem.product i =? OrderItem.product item)).
  rewrite <- (filter_and (λ i, OrderItem.product i =? OrderItem.product item)
                (λ i, 0 <? requested_quantity post i)).
  apply (filter_unique_key OrderItem.product); [apply Hone| | |].
  - apply list_elem_of_In, List.filter_In. split; [by apply list_elem_of_In|].
    by apply Z.eqb_eq.
  - rewrite Z.eqb_refl. by apply Z.ltb_lt.
  - intros y Hy. apply andb_true_iff in Hy as [Hy _]. by apply Z.eqb_eq.
Qed.

(** Where the claim on returns holds: in a database whose orders have one
    line per product, as [checkout] writes them, a return request with a
    positive quantity [qty] asked back for a line of the order creates
    exactly one return item for it, of quantity [min qty Q] for ordered
    quantity [Q] and at the unit price of the line, and the stock of the
    product rises by exactly that quantity, whatever it was. *)
Theorem return_order_restores_stock (request : Request) (order_id : Z) (db : DB)
    (order : Order.t) (item : OrderItem.t) (product : Product.t) :
  one_line_per_product db →
  get_order db order_id = Some order →
  is_POST request = true →
  item ∈ order_items db →
  OrderItem.order item = order_id →
  get_product db (OrderItem.product item) = Some product →
  let qty := requested_quantity (POST_data request) item in
  let r := Z.min qty (OrderItem.quantity item) in
  let db' := (return_order request order_id db).2 in
  0 < qty →
  (∃ new new_id,
     order_return_items db' = order_return_items db ++ new
     ∧ List.filter (returns_product (OrderItem.product item)) new
       = [OrderReturnItem.mk new_id (next_id (OrderReturn.id <$> order_returns db))
            (OrderItem.product item) r (OrderItem.unit_price item)])
  ∧ Product.stock_quantity <$> get_product db' (OrderItem.product item)
    = Some (Product.stock_quantity product + r).
Proof.
  intros Hone Hget Hpost Hin Horder Hproduct qty r db' Hpos.
  pose proof (only_line_asked_back _ _ _ _ Hone Hin Horder Hpos) as Honly.
  destruct (return_order_only_line request order_id db order item product
              Hget Hpost Honly Hproduct) as (_ & Hitems & Hstock).
  by split.
Qed.

Lemma sample_db_one_line (status : Order.status_t) :
  one_line_per_product (sample_db status).
Proof.
  intros k. destruct (Z.eq_dec k 1) as [->|Hne].
  - apply (bool_decide_unpack _). vm_compute. exact I.
  - rewrite filter_order_none; [constructor|].
    cbn. repeat constructor; cbn; congruence.
Qed.

Lemma return_order_restores_stock_witness :
  let db := sample_db Order.pending in
  let db' := (return_order sample_return 1 db).2 in
  (∃ new new_id,
     order_return_items db' = [] ++ new
     ∧ List.filter (returns_product 1) new
       = [OrderReturnItem.mk new_id 1 1 (Z.min 7 5) 1000])
  ∧ Product.stock_quantity <$> get_product db' 1 = Some (10 + Z.min 7 5).
Proof.
  apply (return_order_restores_stock sample_return 1 (sample_db Order.pending)
           (Order.mk 1 "Asha" "98" "Pune" 10 10 Order.pending)
           (OrderItem.mk 1 1 1 5 1000 100) apple).
  - apply sample_db_one_line.
  - reflexivity.
  - reflexivity.
  - apply elem_of_cons. by left.
  - reflexivity.
  - reflexivity.
  - vm_compute. reflexivity.
Defined.

(** So in every database that the requests reach from a well-formed one, the
    return of a line restores the stock by the quantity taken back. *)
Corollary return_order_restores_stock_reached (ops : list Operation)
    (st : DB * gmap string Z) (request : Request) (order_id : Z)
    (order : Order.t) (item : OrderItem.t) (product : Product.t) :
  well_formed st.1 →
  let db := (run st ops).1 in
  get_order db order_id = Some order →
  is_POST request = true →
  item ∈ order_items db →
  OrderItem.order item = order_id →
  0 < requested_quantity (POST_data request) item →
  get_product db (OrderItem.product item) = Some product →
  Product.stock_quantity
    <$> get_product (return_order request order_id db).2 (OrderItem.product item)
  = Some (Product.stock_quantity product
          + Z.min (requested_quantity (POST_data request) item)
              (OrderItem.quantity item)).
Proof.
  intros Hwf db Hget Hpost Hin Horder Hpos Hproduct.
  destruct (run_well_formed ops st Hwf) as (_ & _ & Hone).
  apply (return_order_only_line request order_id db order item product
           Hget Hpost (only_line_asked_back _ _ _ _ Hone Hin Horder Hpos) Hproduct).
Qed.

(** ** [int(str(n))]: the key of the cart names its product *)

Lemma pretty_N_go_app (x : N) (s : string) :
  pretty_N_go x s = pretty_N_go x "" +:+ s.
Proof.
  revert s. induction (N.lt_wf_0 x) as [x _ IH]; intros s.
  assert (x = 0 ∨ 0 < x)%N as [->|Hx] by lia.
  - by rewrite !pretty_N_go_0.
  - assert (x `div` 10 < x)%N as Hlt by (by apply N.div_lt).
    rewrite !(pretty_N_go_step x) by done.
    rewrite (IH _ Hlt (String _ s)), (IH _ Hlt (String _ "")).
    generalize (pretty_N_go (x `div` 10) ""). intros t.
    induction t as [|c t IHt]; [done|].
    change (String c (t +:+ String (pretty_N_char (x `mod` 10)) s)
            = String c ((t +:+ String (pretty_N_char (x `mod` 10)) "") +:+ s)).
    by rewrite IHt.
Qed.

Lemma list_ascii_of_string_app (s1 s2 : string) :
  list_ascii_of_string (s1 +:+ s2)
  = list_ascii_of_string s1 ++ list_ascii_of_string s2.
Proof. induction s1 as [|c s1 IH]; simpl; [done | by f_equal]. Qed.

Lemma byte_code (a : ascii) : Py.byte (Py.code a) = a.
Proof.
  unfold Py.byte, Py.code. by rewrite Nat2Z.id, ascii_nat_embedding.
Qed.

(** An ASCII byte is a character of its own, whatever follows it. *)
Lemma decode_cons_ascii (a : ascii) (l : list ascii) :
  Py.code a < 128 → Py.decode (a :: l) = Py.code a :: Py.decode l.
Proof.
  intros Ha.
  assert (Py.escaped (Py.code a) = Py.code a) as Hesc.
  { unfold Py.escaped. by destruct (Z.ltb_spec (Py.code a) 128); [|lia]. }
  assert (∀ b, Py.two_bytes (Py.code a) b = None) as H2.
  { intros b. unfold Py.two_bytes.
    by destruct (Z.leb_spec 194 (Py.code a)); [lia|]. }
  assert (∀ b c, Py.three_bytes (Py.code a) b c = None) as H3.
  { intros b c. unfold Py.three_bytes.
    by destruct (Z.leb_spec 224 (Py.code a)); [lia|]. }
  assert (∀ b c d, Py.four_bytes (Py.code a) b c d = None) as H4.
  { intros b c d. unfold Py.four_bytes.
    by destruct (Z.leb_spec 240 (Py.code a)); [lia|]. }
  destruct l as [|a1 [|a2 [|a3 l]]].
  - change (Py.decode [a]) with [Py.escaped (Py.code a)]. by rewrite Hesc.
  - change (Py.decode [a; a1])
      with (match Py.two_bytes (Py.code a) (Py.code a1) with
            | Some cp => [cp]
            | None => Py.escaped (Py.code a) :: Py.decode [a1]
            end).
    by rewrite H2, Hesc.
  - change (Py.decode [a; a1; a2])
      with (match Py.two_bytes (Py.code a) (Py.code a1) with
            | Some cp => cp :: Py.decode [a2]
            | None =>
                match Py.three_bytes (Py.code a) (Py.code a1) (Py.code a2) with
                | Some cp => [cp]
                | None => Py.escaped (Py.code a) :: Py.decode [a1; a2]
                end
            end).
    by rewrite H2, H3, Hesc.
  - change (Py.decode (a :: a1 :: a2 :: a3 :: l))
      with (match Py.two_bytes (Py.code a) (Py.code a1) with
            | Some cp => cp :: Py.decode (a2 :: a3 :: l)
            | None =>
                match Py.three_bytes (Py.code a) (Py.code a1) (Py.code a2) with
                | Some cp => cp :: Py.decode (a3 :: l)
                | None =>
                    match Py.four_bytes (Py.code a) (Py.code a1) (Py.code a2)
                            (Py.code a3) with
                    | Some cp => cp :: Py.decode l
                    | None =>
                        Py.escaped (Py.code a) :: Py.decode (a1 :: a2 :: a3 :: l)
                    end
                end
            end).
    by rewrite H2, H3, H4, Hesc.
Qed.

(** A text of ASCII characters has one character for each of its bytes. *)
Lemma decode_ascii (l : list ascii) :
  Forall (λ a, Py.code a < 128) l → Py.decode l = map Py.code l.
Proof.
  induction 1 as [|a l Ha _ IH]; [done|].
  by rewrite decode_cons_ascii, IH.
Qed.

Lemma encode_ascii (l : list ascii) :
  Forall (λ a, Py.code a < 128) l → Py.encode (map Py.code l) = l.
Proof.
  induction 1 as [|a l Ha _ IH]; [done|].
  unfold Py.encode in *. cbn [map List.flat_map]. rewrite IH.
  unfold Py.encode_char. destruct (Z.ltb_spec (Py.code a) 128); [|lia].
  by rewrite byte_code.
Qed.

Lemma digit_pretty_N_char (k : N) :
  (k < 10)%N →
  let c := Py.code (pretty_N_char k) in
  c < 128
  ∧ Py.digit c = Some (Z.of_N k)
  ∧ Py.is_space c = false ∧ Py.is_number_space c = false
  ∧ (c =? 95) = false ∧ (c =? 45) = false ∧ (c =? 43) = false.
Proof.
  intros Hk.
  assert (k = 0 ∨ k = 1 ∨ k = 2 ∨ k = 3 ∨ k = 4 ∨ k = 5 ∨ k = 6 ∨ k = 7
          ∨ k = 8 ∨ k = 9)%N as Hcases by lia.
  repeat destruct Hcases as [->|Hcases]; try subst k; by vm_compute.
Qed.

(** A character that [int()] reads as a digit of its number. *)
Lemma digits_from_digits (l : list Z) (acc : Z) :
  Forall (λ c, is_Some (Py.digit c) ∧ (c =? 95) = false) l →
  Py.digits_from acc false l
  = Some (foldl (λ a c, 10 * a + default 0 (Py.digit c)) acc l).
Proof.
  revert acc. induction l as [|c l IH]; intros acc Hall; [done|].
  apply Forall_cons in Hall as [[[d Hd] Hu] Hall].
  cbn [Py.digits_from foldl]. rewrite Hu, Hd. cbn. by apply IH.
Qed.

Lemma pretty_N_go_digits (x : N) :
  let bytes := list_ascii_of_string (pretty_N_go x "") in
  let l := map Py.code bytes in
  Forall (λ a, Py.code a < 128) bytes
  ∧ Forall (λ c, is_Some (Py.digit c) ∧ (c =? 95) = false) l
  ∧ Forall (λ c, Py.is_space c = false ∧ Py.is_number_space c = false
                 ∧ (c =? 45) = false ∧ (c =? 43) = false) l
  ∧ foldl (λ a c, 10 * a + default 0 (Py.digit c)) 0 l = Z.of_N x.
Proof.
  induction (N.lt_wf_0 x) as [x _ IH].
  assert (x = 0 ∨ 0 < x)%N as [->|Hx] by lia.
  - rewrite pretty_N_go_0. cbn. by repeat split.
  - cbv zeta. rewrite (pretty_N_go_step x), pretty_N_go_app by done.
    rewrite list_ascii_of_string_app. cbn [list_ascii_of_string].
    rewrite map_app. cbn [map].
    destruct (IH (x `div` 10)%N) as (Ha & Hd & Hs & Hv); [by apply N.div_lt|].
    destruct (digit_pretty_N_char (x `mod` 10)%N)
      as (Hc0 & Hc1 & Hc2 & Hc3 & Hc4 & Hc5 & Hc6); [by apply N.mod_lt|].
    cbv zeta in *. repeat split.
    + apply Forall_app. split; [done|]. by apply Forall_singleton.
    + apply Forall_app. split; [done|]. apply Forall_singleton.
      split; [by eexists | done].
    + apply Forall_app. split; [done|]. by apply Forall_singleton.
    + rewrite foldl_app. cbn [foldl]. rewrite Hv, Hc1. cbn.
      rewrite (N.div_mod x 10) at 3 by done. lia.
Qed.

Lemma lstrip_no_space (space : Z → bool) (l : list Z) :
  match l with c :: _ => space c = false | [] => True end →
  Py.lstrip space l = l.
Proof. destruct l as [|c l]; [done|]. cbn. by intros ->. Qed.

Lemma strip_list_no_space (space : Z → bool) (l : list Z) :
  Forall (λ c, space c = false) l → Py.strip_list space l = l.
Proof.
  intros Hall. unfold Py.strip_list.
  rewrite (lstrip_no_space space l) by (destruct Hall; done).
  rewrite lstrip_no_space, rev_involutive; [done|].
  apply Forall_rev in Hall. by destruct Hall.
Qed.

Lemma int_pretty_N_go (x : N) :
  (0 < x)%N →
  Py.int (pretty_N_go x "") = Some (Z.of_N x)
  ∧ Py.int ("-" +:+ pretty_N_go x "") = Some (- Z.of_N x).
Proof.
  intros Hx. destruct (pretty_N_go_digits x) as (Ha & Hd & Hs & Hv).
  cbv zeta in *.
  assert (list_ascii_of_string (pretty_N_go x "") ≠ []) as Hne.
  { rewrite pretty_N_go_step, pretty_N_go_app by done.
    rewrite list_ascii_of_string_app. intros Heq.
    by apply app_eq_nil in Heq as [_ Heq]. }
  unfold Py.int, Py.chars.
  change (list_ascii_of_string ("-" +:+ pretty_N_go x ""))
    with ("-"%char :: list_ascii_of_string (pretty_N_go x "")).
  rewrite !decode_ascii
    by (try (apply Forall_cons; split; [by vm_compute|]); exact Ha).
  cbn [map].
  remember (list_ascii_of_string (pretty_N_go x "")) as bytes eqn:Hbytes.
  destruct bytes as [|a bytes]; [done|]. cbn [map] in *.
  pose proof Hd as Hd'. pose proof Hs as Hs'.
  apply Forall_cons in Hd' as [[_ Hu] _].
  apply Forall_cons in Hs' as [(_ & _ & Hminus & Hplus) _].
  pose proof (digits_from_digits _ 0 Hd) as Hdig. rewrite Hv in Hdig.
  assert (Forall (λ c, Py.is_number_space c = false)
            (Py.code a :: map Py.code bytes)) as Hns
    by (eapply Forall_impl; [exact Hs | by intros ? (? & ? & _)]).
  split.
  - rewrite (strip_list_no_space _ _ Hns).
    cbn [Py.signed]. rewrite Hminus, Hplus. cbn [Py.digits]. rewrite Hu.
    by rewrite Hdig.
  - rewrite strip_list_no_space
      by (apply Forall_cons; split; [reflexivity | exact Hns]).
    change (Py.signed (Py.code "-"%char :: Py.code a :: map Py.code bytes))
      with (true, Py.code a :: map Py.code bytes).
    cbn [Py.digits]. rewrite Hu. by rewrite Hdig.
Qed.

(** [int(str(n)) = n] for every integer [n]. *)
Lemma int_pretty (n : Z) : Py.int (pretty n) = Some n.
Proof.
  destruct n as [|p|p].
  - reflexivity.
  - unfold pretty, pretty_Z, pretty, pretty_positive, pretty, pretty_N.
    destruct (decide (N.pos p = 0%N)); [done|].
    by destruct (int_pretty_N_go (N.pos p)).
  - unfold pretty, pretty_Z, pretty, pretty_positive, pretty, pretty_N.
    destruct (decide (N.pos p = 0%N)); [done|].
    by destruct (int_pretty_N_go (N.pos p)).
Qed.

(** [int()] and [str.strip()] on texts that are not ASCII: the
    Arabic-Indic digit three is a digit; a no-break space is white space for
    both; the file separator (character 28) is white space for
    [str.strip()] and not for [int()]. *)
Example int_and_strip_of_texts :
  Py.int "٣" = Some 3
  ∧ Py.int "-١٢" = Some (-12)
  ∧ Py.int (String (Py.byte 194) (String (Py.byte 160) "2")) = Some 2
  ∧ Py.strip (String (Py.byte 194) (String (Py.byte 160) "2")) = "2"%string
  ∧ Py.strip (String (Py.byte 28) "2") = "2"%string
  ∧ Py.int (String (Py.byte 28) "2") = None
  ∧ Py.int "1_000" = Some 1000
  ∧ Py.int "²" = None
  ∧ Py.strip " é " = "é"%string.
Proof. repeat split; vm_compute; reflexivity. Qed.

(** ** Cart Session: what the handlers do to the lines *)

Lemma cart_key_inj (a b : Z) : cart_key a = cart_key b → a = b.
Proof. apply (inj pretty). Qed.

(** X1: [add_to_cart] adds to the line of the product the quantity of the
    form when it is a number of at least 1, and one unit otherwise (a GET, no
    number, or a number below 1); it starts the line when there is none and
    leaves the lines of all other products as they are.  The quantity is a
    text within the limit of the interpreter on the digits of a number. *)
Theorem add_to_cart_accumulates (request : Request) (product_id : Z) :
  Py.within_limit (Py.get (POST_data request) "quantity" "1") →
  let cart := session_cart request in
  let cart' := (add_to_cart request product_id).2 in
  let added :=
    match (if is_POST request
           then Py.int (Py.get (POST_data request) "quantity" "1")
           else None) with
    | Some n => Z.max n 1
    | None => 1
    end in
  cart' !! cart_key product_id
  = Some (default 0 (cart !! cart_key product_id) + added)
  ∧ ∀ other, other ≠ product_id →
             cart' !! cart_key other = cart !! cart_key other.
Proof.
  intros _. cbv zeta. unfold add_to_cart.
  set (qty := if is_POST request then _ else 1).
  assert (qty = match (if is_POST request
                       then Py.int (Py.get (POST_data request) "quantity" "1")
                       else None) with
                | Some n => Z.max n 1
                | None => 1
                end) as <-.
  { unfold qty, int_or_one. destruct (is_POST request); [|done].
    destruct (Py.int _) as [n|]; cbn; [|done].
    destruct (Z.ltb_spec n 1); lia. }
  split.
  - destruct (session_cart request !! cart_key product_id) as [n|];
      destruct (is_POST request); cbn [snd]; by rewrite lookup_insert_eq.
  - intros other Hne.
    assert (cart_key product_id ≠ cart_key other) as Hk
      by (intros H; by apply cart_key_inj in H).
    destruct (session_cart request !! cart_key product_id) as [n|];
      destruct (is_POST request); cbn [snd]; by rewrite lookup_insert_ne.
Qed.

Lemma add_to_cart_accumulates_witness :
  let request := post_request {[ "quantity" := "٣" ]} {[ "1" := 2 ]} 20 in
  let cart := session_cart request in
  let cart' := (add_to_cart request 1).2 in
  let added :=
    match (if is_POST request
           then Py.int (Py.get (POST_data request) "quantity" "1")
           else None) with
    | Some n => Z.max n 1
    | None => 1
    end in
  cart' !! cart_key 1 = Some (default 0 (cart !! cart_key 1) + added)
  ∧ ∀ other, other ≠ 1 → cart' !! cart_key other = cart !! cart_key other.
Proof.
  apply (add_to_cart_accumulates
           (post_request {[ "quantity" := "٣" ]} {[ "1" := 2 ]} 20) 1).
  unfold Py.within_limit, Py.max_str_digits. vm_compute. lia.
Defined.

(** Three units written with the Arabic-Indic digit are three units: the
    line of two becomes a line of five.  A quantity of zero, or one that is
    no number, adds one unit. *)
Example add_to_cart_of_digits :
  (add_to_cart (post_request {[ "quantity" := "٣" ]} {[ "1" := 2 ]} 20) 1).2
  = {[ "1" := 5 ]}
  ∧ (add_to_cart (post_request {[ "quantity" := "0" ]} {[ "1" := 2 ]} 20) 1).2
    = {[ "1" := 3 ]}
  ∧ (add_to_cart (post_request {[ "quantity" := "three" ]} {[ "1" := 2 ]} 20) 1).2
    = {[ "1" := 3 ]}.
Proof. repeat split; vm_compute; reflexivity. Qed.

(** X2: [update_cart] with a quantity that is not positive does what
    [remove_from_cart] does; with a positive quantity it sets the line to
    that quantity, whatever the line held, and touches no other line. *)
Theorem update_cart_sets_or_removes (request : Request) (product_id : Z)
    (text : string) (quantity : Z) :
  is_POST request = true →
  POST_data request !! "quantity" = Some text →
  Py.int text = Some quantity →
  (quantity ≤ 0 →
   update_cart request product_id = remove_from_cart request product_id
   ∧ (update_cart request product_id).2 !! cart_key product_id = None)
  ∧ (0 < quantity →
     (update_cart request product_id).2 !! cart_key product_id = Some quantity)
  ∧ ∀ other, other ≠ product_id →
             (update_cart request product_id).2 !! cart_key other
             = session_cart request !! cart_key other.
Proof.
  intros Hpost Hq Hint. unfold update_cart, remove_from_cart.
  rewrite Hpost, Hq, Hint. repeat split.
  - destruct (Z.ltb_spec 0 quantity); [lia | done].
  - destruct (Z.ltb_spec 0 quantity); [lia|]. cbn [snd]. apply lookup_delete_eq.
  - intros Hpos. destruct (Z.ltb_spec 0 quantity); [|lia]. cbn [snd].
    apply lookup_insert_eq.
  - intros other Hne.
    assert (cart_key product_id ≠ cart_key other) as Hk
      by (intros H; by apply cart_key_inj in H).
    destruct (0 <? quantity); cbn [snd];
      [by rewrite lookup_insert_ne | by rewrite lookup_delete_ne].
Qed.

Lemma update_cart_sets_or_removes_witness :
  let request := post_request {[ "quantity" := "0" ]} {[ "1" := 3; "2" := 1 ]} 50 in
  (0 ≤ 0 →
   update_cart request 1 = remove_from_cart request 1
   ∧ (update_cart request 1).2 !! cart_key 1 = None)
  ∧ (0 < 0 → (update_cart request 1).2 !! cart_key 1 = Some 0)
  ∧ ∀ other, other ≠ 1 →
             (update_cart request 1).2 !! cart_key other
             = session_cart request !! cart_key other.
Proof.
  apply (update_cart_sets_or_removes
           (post_request {[ "quantity" := "0" ]} {[ "1" := 3; "2" := 1 ]} 50)
           1 "0" 0); reflexivity.
Defined.

Lemma cart_positive_insert (cart : gmap string Z) (k : string) (q : Z) :
  cart_positive cart → 1 ≤ q → cart_positive (<[k := q]> cart).
Proof. intros Hc Hq. by apply map_Forall_insert_2. Qed.

Lemma add_to_cart_positive (request : Request) (product_id : Z) :
  cart_positive (session_cart request) →
  cart_positive (add_to_cart request product_id).2.
Proof.
  intros Hc. unfold add_to_cart.
  assert (1 ≤ (if is_POST request
               then int_or_one (Py.get (POST_data request) "quantity" "1")
               else 1)) as Hq
    by (destruct (is_POST request); [apply int_or_one_positive | lia]).
  destruct (session_cart request !! cart_key product_id) as [n|] eqn:Hn;
    destruct (is_POST request); cbn [snd];
    apply cart_positive_insert; try done;
    try (pose proof (Hc _ _ Hn) as Hpos; cbn in Hpos); lia.
Qed.

Lemma update_cart_positive (request : Request) (product_id : Z) :
  cart_positive (session_cart request) →
  cart_positive (update_cart request product_id).2.
Proof.
  intros Hc. unfold update_cart.
  destruct (is_POST request); [|done].
  destruct (match POST_data request !! "quantity" with
            | Some text => Py.int text
            | None => Some 1
            end) as [quantity|]; [|done].
  destruct (Z.ltb_spec 0 quantity); cbn [snd].
  - apply cart_positive_insert; [done | lia].
  - by apply map_Forall_delete.
Qed.

Lemma scan_add_to_cart_positive (request : Request) (db : DB) :
  cart_positive (session_cart request) →
  cart_positive (scan_add_to_cart request db).2.
Proof.
  intros Hc. unfold scan_add_to_cart.
  destruct (_find_product_by_code db _) as [[product|]|]; [|done..].
  destruct (Product.is_active product); [|done]. cbn [negb snd].
  apply cart_positive_insert; [done|].
  pose proof (int_or_one_positive (get_or_post request "qty" "1")).
  destruct (session_cart request !! cart_key (Product.id product)) as [n|] eqn:Hn;
    [pose proof (Hc _ _ Hn) as Hpos; cbn in *; lia | cbn; lia].
Qed.

Lemma step_cart_positive (st : DB * gmap string Z) (op : Operation) :
  cart_positive st.2 → cart_positive (step st op).2.
Proof.
  destruct st as [db cart]. cbn [snd]. intros Hc.
  destruct op as [request pid|request pid|request pid|request|request|request oid];
    cbn [step snd].
  - by apply add_to_cart_positive.
  - by apply update_cart_positive.
  - by apply map_Forall_delete.
  - by apply scan_add_to_cart_positive.
  - destruct (checkout_cases (in_session request cart) db)
      as [[response H]|(order_id & db' & H)]; rewrite H; [done|].
    apply map_Forall_empty.
  - done.
Qed.

(** X3: no request to the cart handlers, to [checkout] or to [return_order]
    puts a quantity below 1 into the cart: from a cart whose lines all ask
    for at least one unit (the empty cart of a new session is one), every
    cart that a sequence of requests reaches is such a cart. *)
Theorem cart_stays_positive (db : DB) (cart : gmap string Z)
    (ops : list Operation) :
  cart_positive cart →
  ∀ key quantity, (run (db, cart) ops).2 !! key = Some quantity → 1 ≤ quantity.
Proof.
  intros Hc.
  assert (cart_positive (run (db, cart) ops).2) as H; [|exact H].
  change cart with (db, cart).2 in Hc. generalize dependent (db, cart).
  induction ops as [|op ops IH]; intros st Hst; [done|].
  cbn [run foldl]. apply IH. by apply step_cart_positive.
Qed.

Lemma cart_stays_positive_witness :
  Forall (λ line : string * Z, 1 ≤ line.2)
    (map_to_list (run (sample_db Order.pending, ∅) (take 3 sample_session)).2).
Proof.
  apply Forall_forall. intros [key quantity] Hline.
  apply elem_of_map_to_list in Hline.
  apply (cart_stays_positive (sample_db Order.pending) ∅ (take 3 sample_session)
           (map_Forall_empty _) key quantity Hline).
Defined.

(** ** Code lookup *)

Lemma objects_get_got {A : Type} (lookup : A → bool) (rows : list A) (a : A) :
  objects_get lookup rows = Got a → a ∈ rows ∧ lookup a = true.
Proof.
  unfold objects_get. destruct (List.filter lookup rows) as [|x [|y l]] eqn:Hf;
    [done| |done].
  intros [= <-].
  assert (In x (List.filter lookup rows)) as Hin by (rewrite Hf; by left).
  apply List.filter_In in Hin as [Hin Hx]. split; [by apply list_elem_of_In | done].
Qed.

Lemma objects_get_none {A : Type} (lookup : A → bool) (rows : list A) :
  objects_get lookup rows = DoesNotExist → ∀ a, a ∈ rows → lookup a = false.
Proof.
  unfold objects_get. destruct (List.filter lookup rows) as [|x [|y l]] eqn:Hf;
    [|done..].
  intros _ a Hin. destruct (lookup a) eqn:Ha; [|done].
  assert (In a (List.filter lookup rows)) as Hin'
    by (apply List.filter_In; split; [by apply list_elem_of_In | done]).
  by rewrite Hf in Hin'.
Qed.

(** X4: what [_find_product_by_code] answers to a code within the limit of
    the interpreter on the digits of a number.  A product it returns is a
    row of the table that answers to the stripped code by its barcode, by
    its QR payload or by its number; when it returns none, the code is blank
    or no row answers to it in any of the three ways. *)
Theorem find_product_by_code_sound (db : DB) (code : string) :
  Py.within_limit code →
  let c := Py.strip code in
  match _find_product_by_code db code with
  | Ok (Some p) =>
      c ≠ ""%string ∧ p ∈ products db
      ∧ (has_barcode c p || has_qr_payload c p || has_id c p = true)
  | Ok None =>
      c = ""%string
      ∨ ∀ p, p ∈ products db →
             has_barcode c p || has_qr_payload c p || has_id c p = false
  | Err _ => c ≠ ""%string
  end.
Proof.
  intros _. cbv zeta. unfold _find_product_by_code.
  destruct (String.eqb_spec (Py.strip code) "") as [Hblank|Hc]; [by left|].
  destruct (objects_get _ (products db)) as [p| |] eqn:Hbar.
  - apply objects_get_got in Hbar as [Hin Hp]. repeat split; [done..|].
    unfold has_barcode. by rewrite Hp.
  - pose proof (objects_get_none _ _ Hbar) as Hnobar.
    destruct (objects_get (λ p, String.eqb (Product.qr_payload p) _) (products db))
      as [p| |] eqn:Hqr.
    + apply objects_get_got in Hqr as [Hin Hp]. repeat split; [done..|].
      unfold has_qr_payload. rewrite Hp. by rewrite orb_true_r.
    + pose proof (objects_get_none _ _ Hqr) as Hnoqr.
      destruct (Py.int (Py.strip code)) as [pid|] eqn:Hint.
      * destruct (get_product db pid) as [p|] eqn:Hp.
        -- repeat split; [done|by apply (find_key_in Product.id) in Hp|].
           unfold has_id. rewrite Hint.
           rewrite (find_key_eq Product.id _ _ _ Hp), Z.eqb_refl.
           by rewrite orb_true_r.
        -- right. intros p Hin. unfold has_barcode, has_qr_payload, has_id.
           rewrite (Hnobar p Hin), (Hnoqr p Hin), Hint. cbn.
           destruct (Z.eqb_spec (Product.id p) pid) as [Heq|]; [|done].
           unfold get_product in Hp.
           assert ((Product.id p =? pid) = false) as Hnone
             by (apply (find_none _ _ Hp p); by apply list_elem_of_In).
           apply Z.eqb_neq in Hnone. done.
      * right. intros p Hin. unfold has_barcode, has_qr_payload, has_id.
        by rewrite (Hnobar p Hin), (Hnoqr p Hin), Hint.
    + done.
  - done.
Qed.

Lemma find_product_by_code_sound_witness :
  let c := Py.strip padded_code in
  match _find_product_by_code coded_db padded_code with
  | Ok (Some p) =>
      c ≠ ""%string ∧ p ∈ products coded_db
      ∧ (has_barcode c p || has_qr_payload c p || has_id c p = true)
  | Ok None =>
      c = ""%string
      ∨ ∀ p, p ∈ products coded_db →
             has_barcode c p || has_qr_payload c p || has_id c p = false
  | Err _ => c ≠ ""%string
  end.
Proof.
  apply (find_product_by_code_sound coded_db padded_code).
  unfold Py.within_limit, Py.max_str_digits. vm_compute. lia.
Defined.

(** The code [2] between two no-break spaces is the code [2]: the apple
    carries it as its barcode. *)
Example find_product_by_padded_code :
  Py.strip padded_code = "2"%string
  ∧ _find_product_by_code coded_db padded_code
    = Ok (Some (Product.mk 1 "Apple" 1000 600 100 10 (Some "2") "tea" true)).
Proof. split; vm_compute; reflexivity. Qed.

Lemma filter_only {A : Type} (lookup : A → bool) (rows : list A) (i : nat) (a : A) :
  rows !! i = Some a → lookup a = true →
  (∀ j b, rows !! j = Some b → lookup b = true → j = i) →
  List.filter lookup rows = [a].
Proof.
  revert i. induction rows as [|x rows IH]; intros i Hi Ha Honly; [done|].
  cbn [List.filter]. destruct i as [|i].
  - cbn in Hi. injection Hi as ->. rewrite Ha. f_equal.
    assert (∀ b, b ∈ rows → lookup b = false) as Hnone.
    { intros b Hb. destruct (lookup b) eqn:Hlb; [|done].
      apply list_elem_of_lookup in Hb as [j Hj].
      by specialize (Honly (S j) b Hj Hlb). }
    clear -Hnone. induction rows as [|y rows IH]; [done|].
    cbn [List.filter]. rewrite (Hnone y) by (by left).
    apply IH. intros b Hb. apply Hnone. by right.
  - destruct (lookup x) eqn:Hx; [by specialize (Honly 0%nat x eq_refl Hx)|].
    apply (IH i); [done..|].
    intros j b Hj Hb. by specialize (Honly (S j) b Hj Hb) as [= ->].
Qed.

(** X5: a code that is the barcode of a product finds that product, also
    when the same code is the QR payload or the number of other products:
    the barcode is tried first. *)
Theorem find_product_prefers_barcode (db : DB) (code : string) (i : nat)
    (p : Product.t) :
  barcodes_unique db →
  products db !! i = Some p →
  Product.barcode p = Some (Py.strip code) →
  Py.strip code ≠ ""%string →
  _find_product_by_code db code = Ok (Some p).
Proof.
  intros Huniq Hi Hbar Hc. unfold _find_product_by_code.
  destruct (String.eqb_spec (Py.strip code) ""); [done|].
  unfold objects_get at 1.
  rewrite (filter_only _ (products db) i p); [done..| |].
  - by rewrite Hbar, String.eqb_refl.
  - intros j q Hj Hq. destruct (Product.barcode q) as [b|] eqn:Hb; [|done].
    apply String.eqb_eq in Hq as ->. by apply (Huniq j i q p (Py.strip code)).
Qed.

Lemma coded_db_barcodes_unique : barcodes_unique coded_db.
Proof.
  intros i j p q b Hi Hj Hp Hq.
  destruct i as [|[|[|i]]], j as [|[|[|j]]]; cbn in Hi, Hj;
    try done; simplify_eq; cbn in *; congruence.
Qed.

Lemma find_product_prefers_barcode_witness :
  _find_product_by_code coded_db " tea "
  = Ok (Some (Product.mk 2 "Milk" 300 200 0 0 (Some "tea") "qr-milk" true))
  ∧ _find_product_by_code coded_db "2"
    = Ok (Some (Product.mk 1 "Apple" 1000 600 100 10 (Some "2") "tea" true)).
Proof.
  split.
  - apply (find_product_prefers_barcode coded_db " tea " 1%nat);
      [apply coded_db_barcodes_unique | reflexivity | reflexivity | ].
    vm_compute. discriminate.
  - apply (find_product_prefers_barcode coded_db "2" 0%nat);
      [apply coded_db_barcodes_unique | reflexivity | reflexivity | ].
    vm_compute. discriminate.
Defined.

(** [str(n)] is a text of ASCII characters without white space. *)
Lemma pretty_plain (n : Z) :
  Forall (λ a, Py.code a < 128 ∧ Py.is_space (Py.code a) = false)
    (list_ascii_of_string (pretty n)).
Proof.
  assert (∀ x, Forall (λ a, Py.code a < 128 ∧ Py.is_space (Py.code a) = false)
                 (list_ascii_of_string (pretty_N_go x ""))) as Hgo.
  { intros x. destruct (pretty_N_go_digits x) as (Ha & _ & Hs & _).
    cbv zeta in *. apply Forall_fmap in Hs.
    apply Forall_forall. intros a Hin. rewrite Forall_forall in Ha, Hs.
    split; [by apply Ha|]. by destruct (Hs a Hin). }
  destruct n as [|p|p]; [by repeat constructor| |].
  - unfold pretty, pretty_Z, pretty, pretty_positive, pretty, pretty_N.
    destruct (decide (N.pos p = 0%N)); [done|]. apply Hgo.
  - unfold pretty, pretty_Z, pretty, pretty_positive, pretty, pretty_N.
    destruct (decide (N.pos p = 0%N)); [done|].
    change (list_ascii_of_string ("-" +:+ pretty_N_go (N.pos p) ""))
      with ("-"%char :: list_ascii_of_string (pretty_N_go (N.pos p) "")).
    apply Forall_cons. split; [by vm_compute|]. apply Hgo.
Qed.

Lemma strip_pretty (n : Z) : Py.strip (pretty n) = pretty n.
Proof.
  pose proof (pretty_plain n) as Hplain.
  assert (Forall (λ a, Py.code a < 128) (list_ascii_of_string (pretty n)))
    as Hascii by (eapply Forall_impl; [exact Hplain | by intros ? (? & _)]).
  unfold Py.strip, Py.chars. rewrite (decode_ascii _ Hascii).
  rewrite strip_list_no_space.
  - rewrite (encode_ascii _ Hascii). apply string_of_list_ascii_of_string.
  - apply Forall_fmap. eapply Forall_impl; [exact Hplain | by intros ? (_ & ?)].
Qed.

Lemma pretty_not_blank (n : Z) : pretty n ≠ ""%string.
Proof.
  intros H. pose proof (int_pretty n) as Hint. by rewrite H in Hint.
Qed.

(** X6: the number of a product, written as [str] writes it, finds the
    product when no product has that text as barcode or QR payload:
    [int(str(id))] is [id]. *)
Theorem find_product_by_number (db : DB) (k : Z) (p : Product.t) :
  get_product db k = Some p →
  (∀ q, q ∈ products db →
        has_barcode (pretty k) q = false ∧ has_qr_payload (pretty k) q = false) →
  _find_product_by_code db (pretty k) = Ok (Some p).
Proof.
  intros Hget Hnone. unfold _find_product_by_code.
  rewrite strip_pretty.
  destruct (String.eqb_spec (pretty k) ""); [by apply pretty_not_blank in e|].
  assert (∀ lookup : Product.t → bool,
            (∀ q, q ∈ products db → lookup q = false) →
            objects_get lookup (products db) = DoesNotExist) as Hget_none.
  { intros lookup Hl. unfold objects_get.
    destruct (List.filter lookup (products db)) as [|x l] eqn:Hf; [done|].
    assert (In x (List.filter lookup (products db))) as Hin
      by (rewrite Hf; by left).
    apply List.filter_In in Hin as [Hin Hx].
    apply list_elem_of_In in Hin. by rewrite (Hl x Hin) in Hx. }
  rewrite (Hget_none (λ q, match Product.barcode q with
                           | Some b => String.eqb b (pretty k)
                           | None => false
                           end)) by (intros q Hq; by apply Hnone).
  rewrite (Hget_none (λ q, String.eqb (Product.qr_payload q) (pretty k)))
    by (intros q Hq; by apply Hnone).
  by rewrite int_pretty, Hget.
Qed.

Lemma find_product_by_number_witness :
  _find_product_by_code coded_db (pretty 3)
  = Ok (Some (Product.mk 3 "Tea" 500 300 0 4 None "" false)).
Proof.
  apply (find_product_by_number coded_db 3); [reflexivity|].
  intros q Hq.
  repeat (apply elem_of_cons in Hq as [->|Hq]; [by vm_compute|]).
  by apply elem_of_nil in Hq.
Defined.

(** ** Scanning stock in, and sold-out products *)

(** A product found by a code is a row of the product table. *)
Lemma find_product_by_code_in (db : DB) (code : string) (p : Product.t) :
  _find_product_by_code db code = Ok (Some p) → p ∈ products db.
Proof.
  unfold _find_product_by_code.
  destruct (String.eqb (Py.strip code) ""); [done|].
  destruct (objects_get _ (products db)) as [q| |] eqn:Hbar; [| |done].
  { intros [= <-]. by apply objects_get_got in Hbar as [Hin _]. }
  destruct (objects_get (λ p, String.eqb (Product.qr_payload p) _) (products db))
    as [q| |] eqn:Hqr; [| |done].
  { intros [= <-]. by apply objects_get_got in Hqr as [Hin _]. }
  destruct (Py.int (Py.strip code)) as [pid|]; [|done].
  intros [= Hp]. by apply (find_key_in Product.id) in Hp.
Qed.

(** After the update of the sold-out products, a product without stock is
    inactive. *)
Lemma deactivate_sold_out_inactive (db : DB) (p : Product.t) :
  p ∈ products (deactivate_sold_out db) →
  Product.stock_quantity p = 0 → Product.is_active p = false.
Proof.
  unfold deactivate_sold_out. cbn [products with_products].
  intros Hin Hstock. apply list_elem_of_fmap in Hin as (q & -> & _).
  destruct (Z.eqb_spec (Product.stock_quantity q) 0) as [Hz|Hz],
           (Product.is_active q) eqn:Ha; cbn in *; congruence.
Qed.

(** X7: a stock scan that finds its product raises the stock of the product
    by the delta of the request, and by one when the delta is no number or is
    below 1: it never lowers a stock.  It appends one audit entry, the stock
    change from the old to the new stock. *)
Theorem scan_stock_increment_raises (request : Request) (db : DB)
    (product : Product.t) :
  _find_product_by_code db (get_or_post request "code" "") = Ok (Some product) →
  let db' := (scan_stock_increment request db).2 in
  let delta := int_or_one (get_or_post request "delta" "1") in
  let s := Product.stock_quantity product in
  1 ≤ delta
  ∧ Product.stock_quantity <$> get_product db' (Product.id product)
    = Some (s + delta)
  ∧ (∀ k, k ≠ Product.id product → get_product db' k = get_product db k)
  ∧ audit_logs db'
    = audit_logs db ++
      [AuditLog.mk (next_id (AuditLog.id <$> audit_logs db)) (user request)
         AuditLog.stock_change "Product" (Product.id product) "stock_quantity"
         (pretty s) (pretty (s + delta)) (now request)].
Proof.
  intros Hfind. cbv zeta. unfold scan_stock_increment. rewrite Hfind. cbn [snd].
  split; [apply int_or_one_positive|].
  pose proof (find_product_by_code_in _ _ _ Hfind) as Hin.
  repeat split.
  - change (get_product (_audit_log ?r ?a ?m ?o ?f ?x ?y ?d) ?k)
      with (get_product d k).
    rewrite get_product_save_stock.
    apply list_elem_of_In in Hin.
    destruct (get_product db (Product.id product)) as [row|] eqn:Hrow.
    + cbn. rewrite (find_key_eq Product.id _ _ _ Hrow), Z.eqb_refl. done.
    + unfold get_product in Hrow.
      pose proof (find_none _ _ Hrow product Hin) as Hno. cbn in Hno.
      by rewrite Z.eqb_refl in Hno.
  - intros k Hk.
    change (get_product (_audit_log ?r ?a ?m ?o ?f ?x ?y ?d) ?k)
      with (get_product d k).
    rewrite get_product_save_stock.
    destruct (get_product db k) as [row|] eqn:Hrow; [|done]. cbn.
    rewrite (find_key_eq Product.id _ _ _ Hrow).
    destruct (Z.eqb_spec k (Product.id product)); [done | done].
Qed.

Lemma scan_stock_increment_raises_witness :
  let request :=
    mkRequest GET {[ "code" := "890"; "delta" := "-4" ]} ∅ ∅ (Some 1) 90 in
  let db := sample_db Order.pending in
  let db' := (scan_stock_increment request db).2 in
  let delta := int_or_one (get_or_post request "delta" "1") in
  let s := Product.stock_quantity apple in
  1 ≤ delta
  ∧ Product.stock_quantity <$> get_product db' (Product.id apple)
    = Some (s + delta)
  ∧ (∀ k, k ≠ Product.id apple → get_product db' k = get_product db k)
  ∧ audit_logs db'
    = audit_logs db ++
      [AuditLog.mk (next_id (AuditLog.id <$> audit_logs db)) (user request)
         AuditLog.stock_change "Product" (Product.id apple) "stock_quantity"
         (pretty s) (pretty (s + delta)) (now request)].
Proof.
  apply (scan_stock_increment_raises
           (mkRequest GET {[ "code" := "890"; "delta" := "-4" ]} ∅ ∅ (Some 1) 90)
           (sample_db Order.pending) apple).
  vm_compute. reflexivity.
Defined.

(** The scan of the barcode of the apples with a delta of -4 adds one apple
    to the ten in stock. *)
Example scan_stock_increment_negative_delta :
  Product.stock_quantity
    <$> products
          (scan_stock_increment
             (mkRequest GET {[ "code" := "890"; "delta" := "-4" ]} ∅ ∅ (Some 1) 90)
             (sample_db Order.pending)).2
  = [11; 2].
Proof. vm_compute. reflexivity. Qed.

(** X8: loading the dashboard takes every sold-out product off the shelf
    and changes nothing else: afterwards no active product is without stock,
    a product is active exactly when it was active and had stock, the other
    columns of the products, the orders and their items are what they were,
    and loading the dashboard again changes nothing. *)
Theorem shop_dashboard_deactivates_sold_out (db : DB) :
  let db' := (shop_dashboard db).2 in
  Forall (λ p, Product.is_active p = true → Product.stock_quantity p ≠ 0)
    (products db')
  ∧ products db'
    = (λ p, Product.mk (Product.id p) (Product.name p) (Product.price p)
              (Product.cost_price p) (Product.discount_price p)
              (Product.stock_quantity p) (Product.barcode p)
              (Product.qr_payload p)
              (Product.is_active p && negb (Product.stock_quantity p =? 0)))
        <$> products db
  ∧ (shop_dashboard db').2 = db'
  ∧ orders db' = orders db ∧ order_items db' = order_items db
  ∧ audit_logs db' = audit_logs db.
Proof.
  cbv zeta. unfold shop_dashboard. cbn [snd].
  split.
  { apply Forall_forall. intros p Hin Ha Hs.
    rewrite (deactivate_sold_out_inactive _ _ Hin Hs) in Ha. done. }
  unfold deactivate_sold_out. cbn [products with_products orders order_items
    audit_logs].
  repeat split.
  - apply list_fmap_ext. intros _ p _.
    destruct p as [i n pr c d s b q a]. cbn.
    destruct (Z.eqb_spec s 0) as [Hz|Hz], a; by cbn.
  - f_equal. rewrite map_map. apply map_ext. intros p.
    destruct p as [i n pr c d s b q a]. cbn.
    destruct (Z.eqb_spec s 0) as [Hz|Hz], a; cbn; try done;
      destruct (Z.eqb_spec s 0); by cbn.
Qed.

(** X9: after the dashboard was loaded, no scan puts a sold-out product
    into the cart: the scan that finds a product without stock leaves the
    cart as it is. *)
Theorem sold_out_product_is_not_scanned (request : Request) (db : DB)
    (product : Product.t) :
  let db' := (shop_dashboard db).2 in
  _find_product_by_code db' (get_or_post request "code" "") = Ok (Some product) →
  Product.stock_quantity product = 0 →
  scan_add_to_cart request db' = (Redirect "product_list", session_cart request).
Proof.
  cbv zeta. intros Hfind Hstock.
  pose proof (find_product_by_code_in _ _ _ Hfind) as Hin.
  unfold shop_dashboard in Hin. cbn [snd] in Hin.
  pose proof (deactivate_sold_out_inactive _ _ Hin Hstock) as Hinactive.
  unfold scan_add_to_cart. by rewrite Hfind, Hinactive.
Qed.

Lemma sold_out_product_is_not_scanned_witness :
  let request := mkRequest GET {[ "code" := "tea"; "qty" := "2" ]} ∅ {[ "1" := 1 ]} None 90 in
  scan_add_to_cart request (shop_dashboard coded_db).2
  = (Redirect "product_list", session_cart request).
Proof.
  apply (sold_out_product_is_not_scanned
           (mkRequest GET {[ "code" := "tea"; "qty" := "2" ]} ∅ {[ "1" := 1 ]} None 90)
           coded_db (Product.mk 2 "Milk" 300 200 0 0 (Some "tea") "qr-milk" false)).
  - vm_compute. reflexivity.
  - reflexivity.
Defined.

(** ** Checkout: the order records the cart *)

Lemma find_app_first {A : Type} (f : A → bool) (l1 l2 : list A) :
  find f (l1 ++ l2)
  = match find f l1 with Some x => Some x | None => find f l2 end.
Proof.
  induction l1 as [|x l1 IH]; [done|]. cbn. by destruct (f x).
Qed.

(** The items a run of checkout lines appends: one per line, in the order of
    the lines, each with the quantity of the cart and the price and discount
    the product had when the loop began. *)
Lemma order_items_checkout_snapshot (request : Request) (order_id : Z)
    (lines : list (Product.t * Z)) (db : DB) :
  ∃ items,
    order_items (foldl (checkout_line request order_id) db lines)
    = order_items db ++ items
    ∧ Forall2 (λ i line,
                 OrderItem.order i = order_id
                 ∧ OrderItem.product i = Product.id line.1
                 ∧ OrderItem.quantity i = line.2
                 ∧ OrderItem.unit_price i = Product.price line.1
                 ∧ OrderItem.discount_amount i = Product.discount_price line.1)
        items lines.
Proof.
  revert db. induction lines as [|[product q] lines IH]; intros db.
  - exists []. by rewrite app_nil_r.
  - cbn [foldl].
    destruct (IH (checkout_line request order_id db (product, q)))
      as (items & Hitems & Hall).
    eexists (_ :: items). split.
    + rewrite Hitems. unfold checkout_line.
      cbn [order_items _audit_log with_audit_logs save_stock_quantity
           with_products with_order_items].
      by rewrite <- app_assoc.
    + by constructor.
Qed.

(** The context of [cart_summary], without the loop: one entry per product
    of the cart, and the sum of the subtotals. *)
Lemma cart_summary_unfold (request : Request) (db : DB) :
  cart_summary request db
  = ((λ line : Product.t * Z,
        mkCartItem line.1 line.2
          ((Product.price line.1 - Product.discount_price line.1) * line.2)
          (Product.price line.1 - Product.discount_price line.1)
          (Product.discount_price line.1))
       <$> cart_products (session_cart request) db,
     sum_of (λ line : Product.t * Z,
               (Product.price line.1 - Product.discount_price line.1) * line.2)
       (cart_products (session_cart request) db)).
Proof.
  unfold cart_summary.
  generalize (cart_products (session_cart request) db). intros lines.
  assert (∀ (acc : list CartItem) (total : money),
            foldl (λ '(cart_items, total_amount) '(product, quantity),
                     let price := Product.price product
                                  - Product.discount_price product in
                     let subtotal := price * quantity in
                     (cart_items ++
                      [mkCartItem product quantity subtotal price
                         (Product.discount_price product)],
                      total_amount + subtotal))
              (acc, total) lines
            = (acc ++ ((λ line : Product.t * Z,
                          mkCartItem line.1 line.2
                            ((Product.price line.1 - Product.discount_price line.1)
                             * line.2)
                            (Product.price line.1 - Product.discount_price line.1)
                            (Product.discount_price line.1)) <$> lines),
               total + sum_of (λ line : Product.t * Z,
                                 (Product.price line.1
                                  - Product.discount_price line.1) * line.2)
                         lines)) as H.
  { induction lines as [|[p q] lines IH]; intros acc total.
    - cbn. by rewrite app_nil_r, Z.add_0_r.
    - cbn [foldl]. rewrite IH. cbn [fmap list_fmap sum_of fst snd].
      rewrite <- app_assoc. f_equal. lia. }
  by rewrite H.
Qed.

(** What a placed order wrote: the new order row, and the items of the
    lines of the cart after the items there were. *)
Lemma checkout_placed_rows (request : Request) (db db' : DB) (order_id : Z)
    (cart' : gmap string Z) :
  checkout request db = (RedirectOrder "order_success" order_id, db', cart') →
  cart' = ∅
  ∧ order_id = next_id (Order.id <$> orders db)
  ∧ (∃ name phone address,
       POST_data request !! "name" = Some name
       ∧ POST_data request !! "phone" = Some phone
       ∧ POST_data request !! "address" = Some address
       ∧ orders db'
         = orders db ++ [Order.mk order_id name phone address (now request)
                           (now request) Order.pending])
  ∧ ∃ db0,
      order_items db'
      = order_items (foldl (checkout_line request order_id) db0
                       (cart_products (session_cart request) db))
      ∧ order_items db0 = order_items db.
Proof.
  unfold checkout. case_bool_decide; [done|].
  destruct (is_POST request); [|done]. cbn [andb].
  destruct (POST_data request !! "name") as [name|] eqn:Hname; [|done].
  destruct (POST_data request !! "phone") as [phone|] eqn:Hphone;
    [|by rewrite andb_false_r].
  destruct (POST_data request !! "address") as [address|] eqn:Haddress;
    [|by rewrite andb_false_r].
  destruct (_ && _ && _); [|done].
  cbn [from_option id].
  destruct (upsert_customer _ _ _ db) as [db0|] eqn:Hc; [|done].
  apply upsert_customer_frame in Hc as (Hp & Ho & Hi & _ & _).
  intros [= <- <- <-]. rewrite Ho. repeat split.
  - exists name, phone, address. repeat split.
    repeat match goal with |- context [if ?b then _ else _] => destruct b end;
      cbn [orders create_payment with_order_payments];
      by rewrite orders_checkout_lines.
  - eexists (with_orders db0 _). cbn [order_items with_orders]. split; [|done].
    assert (cart_products (session_cart request) (with_orders db0
              (orders db ++ [Order.mk (next_id (Order.id <$> orders db)) name
                               phone address (now request) (now request)
                               Order.pending]))
            = cart_products (session_cart request) db) as <-.
    { unfold cart_products. cbn [products with_orders]. by rewrite Hp. }
    repeat match goal with |- context [if ?b then _ else _] => destruct b end;
      reflexivity.
Qed.

(** X10: a placed order records the cart as the cart page showed it.  The
    new order is pending and carries the name of the form; its items are the
    entries of [cart_summary], with the same product, quantity, price after
    discount and subtotal; and its total is the total of the cart.  The
    database needs no item that points to an order that does not exist. *)
Theorem checkout_records_cart (request : Request) (db db' : DB) (order_id : Z)
    (cart' : gmap string Z) :
  items_have_orders db →
  checkout request db = (RedirectOrder "order_success" order_id, db', cart') →
  ∃ order,
    get_order db' order_id = Some order
    ∧ Order.status order = Order.pending
    ∧ POST_data request !! "name" = Some (Order.customer_name order)
    ∧ Forall2 (λ i c,
                 OrderItem.product i = Product.id (item_product c)
                 ∧ OrderItem.quantity i = item_quantity c
                 ∧ OrderItem.unit_price i - OrderItem.discount_amount i
                   = item_unit_price c
                 ∧ OrderItem.discount_amount i = item_discount c
                 ∧ OrderItem.subtotal i = item_subtotal c)
        (List.filter (λ i, OrderItem.order i =? order_id) (order_items db'))
        (cart_summary request db).1
    ∧ total_amount db' order = (cart_summary request db).2.
Proof.
  intros Hfk Hplaced.
  apply checkout_placed_rows in Hplaced
    as (_ & Hid & (name & phone & address & Hname & _ & _ & Horders)
        & db0 & Hitems & Hi0).
  destruct (order_items_checkout_snapshot request order_id
              (cart_products (session_cart request) db) db0)
    as (items & Happ & Hall).
  rewrite Happ, Hi0 in Hitems.
  assert (Forall (λ i, OrderItem.order i ≠ order_id) (order_items db)) as Hold.
  { eapply Forall_impl; [exact Hfk|].
    intros i Hin Heq. cbn in Hin. rewrite Heq, Hid in Hin.
    by apply next_id_fresh in Hin. }
  assert (List.filter (λ i, OrderItem.order i =? order_id) (order_items db')
          = items) as Hmine.
  { rewrite Hitems, filter_order_app, (filter_order_none _ _ Hold).
    apply filter_order_all. eapply Forall2_Forall_l; [exact Hall|].
    apply Forall_true. by intros line i (-> & _). }
  exists (Order.mk order_id name phone address (now request) (now request)
            Order.pending).
  split; [|split; [done|split; [done|]]].
  { unfold get_order. rewrite Horders, find_app_first.
    destruct (find _ (orders db)) as [o|] eqn:Ho.
    - pose proof (find_key_eq Order.id _ _ _ Ho) as Hk.
      apply (find_key_in Order.id) in Ho.
      exfalso. apply (next_id_fresh (Order.id <$> orders db)).
      rewrite <- Hid, <- Hk. by apply list_elem_of_fmap_2.
    - cbn. by rewrite Z.eqb_refl. }
  unfold total_amount. cbn [Order.id]. rewrite Hmine, cart_summary_unfold.
  cbn [fst snd]. clear -Hall. split.
  - induction Hall as [|i [p q] items lines (_ & Hp & Hq & Hu & Hd) _ IH];
      [constructor|].
    cbn [fmap list_fmap]. constructor; [|exact IH].
    cbn in *. unfold OrderItem.subtotal. rewrite Hp, Hq, Hu, Hd. done.
  - induction Hall as [|i [p q] items lines (_ & Hp & Hq & Hu & Hd) _ IH];
      [done|].
    cbn [sum_of]. rewrite IH. cbn in *. unfold OrderItem.subtotal.
    by rewrite Hq, Hu, Hd.
Qed.

Lemma checkout_records_cart_witness :
  ∃ order,
    get_order (checkout sample_checkout (sample_db Order.pending)).1.2 2
    = Some order
    ∧ Order.status order = Order.pending
    ∧ POST_data sample_checkout !! "name" = Some (Order.customer_name order)
    ∧ Forall2 (λ i c,
                 OrderItem.product i = Product.id (item_product c)
                 ∧ OrderItem.quantity i = item_quantity c
                 ∧ OrderItem.unit_price i - OrderItem.discount_amount i
                   = item_unit_price c
                 ∧ OrderItem.discount_amount i = item_discount c
                 ∧ OrderItem.subtotal i = item_subtotal c)
        (List.filter (λ i, OrderItem.order i =? 2)
           (order_items (checkout sample_checkout (sample_db Order.pending)).1.2))
        (cart_summary sample_checkout (sample_db Order.pending)).1
    ∧ total_amount (checkout sample_checkout (sample_db Order.pending)).1.2 order
      = (cart_summary sample_checkout (sample_db Order.pending)).2.
Proof.
  apply (checkout_records_cart sample_checkout (sample_db Order.pending)
           (checkout sample_checkout (sample_db Order.pending)).1.2 2 ∅).
  - apply (bool_decide_unpack _). vm_compute. exact I.
  - vm_compute. reflexivity.
Defined.

(** The cart of twelve apples and one bottle of milk comes to 111.00, and
    so does the order placed from it, though only ten apples were in stock. *)
Example checkout_total_of_sample :
  (cart_summary sample_checkout (sample_db Order.pending)).2 = 11100
  ∧ total_amount (checkout sample_checkout (sample_db Order.pending)).1.2
      (Order.mk 2 "Asha" "98" "Pune" 50 50 Order.pending) = 11100.
Proof. vm_compute. done. Qed.

(** ** Checkout: payments and the customer *)


Lemma truthy_named (x : option string) :
  Py.truthy x = true → ∃ s, x = Some s ∧ s ≠ ""%string.
Proof.
  destruct x as [s|]; [|done]. cbn. intros H. exists s. split; [done|].
  intros ->. done.
Qed.



(** The sample checkout records its one cash payment of 111.00. *)
Example checkout_payments_of_sample :
  order_payments (checkout sample_checkout (sample_db Order.pending)).1.2
  = [OrderPayment.mk 1 2 "cash" 11100 "" 50].
Proof. vm_compute. reflexivity. Qed.

Lemma filter_map_commute {A : Type} (P : A → bool) (f : A → A) (l : list A) :
  (∀ a, a ∈ l → P (f a) = P a) →
  List.filter P (map f l) = map f (List.filter P l).
Proof.
  induction l as [|a l IH]; intros H; [done|].
  cbn [map List.filter]. rewrite H by (by left).
  rewrite IH by (intros b Hb; apply H; by right).
  by destruct (P a).
Qed.

Lemma map_id_on {A : Type} (f : A → A) (l : list A) :
  (∀ a, a ∈ l → f a = a) → map f l = l.
Proof.
  induction l as [|a l IH]; intros H; [done|].
  cbn [map]. rewrite H by (by left). f_equal. apply IH.
  intros b Hb. apply H. by right.
Qed.

Lemma customers_checkout_lines (request : Request) (order_id : Z)
    (lines : list (Product.t * Z)) (db : DB) :
  customers (foldl (checkout_line request order_id) db lines) = customers db.
Proof.
  revert db. induction lines as [|[product q] lines IH]; intros db; [done|].
  cbn [foldl]. by rewrite IH.
Qed.

(** After [get_or_create] and the update of the found customer, with a phone
    and an address that are not blank: one customer has the name, with that
    phone and address, and the customers of other names are as before. *)
Lemma upsert_customer_one (name phone address : string) (db db0 : DB) :
  NoDup (Customer.id <$> customers db) →
  phone ≠ ""%string → address ≠ ""%string →
  upsert_customer name phone address db = Ok db0 →
  (∃ c, List.filter (λ c, String.eqb (Customer.name c) name) (customers db0) = [c]
        ∧ Customer.phone c = phone ∧ Customer.address c = address)
  ∧ List.filter (λ c, negb (String.eqb (Customer.name c) name)) (customers db0)
    = List.filter (λ c, negb (String.eqb (Customer.name c) name)) (customers db)
  ∧ (List.length (customers db0) ≤ List.length (customers db) + 1)%nat.
Proof.
  intros Hnd Hphone Haddress. unfold upsert_customer, objects_get.
  destruct (List.filter _ (customers db)) as [|customer [|]] eqn:Hf; [| |done].
  - intros [= <-]. cbn [customers with_customers].
    rewrite !List.filter_app, Hf. cbn. rewrite String.eqb_refl. cbn.
    rewrite app_nil_r, length_app. cbn. repeat split; [by eexists|lia].
  - assert (In customer (List.filter (λ c, String.eqb (Customer.name c) name)
                           (customers db))) as Hin by (rewrite Hf; by left).
    apply filter_In in Hin as [Hin Hname]. apply list_elem_of_In in Hin.
    apply String.eqb_eq in Hname.
    assert (Py.truthy (Some phone) = true) as ->.
    { cbn. by destruct (String.eqb_spec phone ""). }
    assert (Py.truthy (Some address) = true) as ->.
    { cbn. by destruct (String.eqb_spec address ""). }
    cbn [andb].
    assert (∀ c, c ∈ customers db → Customer.id c = Customer.id customer →
                 c = customer) as Hkey.
    { intros c Hc Heq.
      apply list_elem_of_lookup in Hc as [i Hi].
      apply list_elem_of_lookup in Hin as [j Hj].
      assert (i = j) as ->; [|congruence].
      eapply NoDup_lookup; [exact Hnd| |];
        rewrite list_lookup_fmap; [by rewrite Hi|by rewrite Hj, Heq]. }
    destruct (_ || _) eqn:Hchanged; intros [= <-].
    + unfold save_customer. cbn [customers with_customers Customer.id].
      rewrite !filter_map_commute, Hf.
      * cbn [map Customer.id]. rewrite Z.eqb_refl. split; [|split].
        -- eexists. split; [done|]. cbn.
           split.
           ++ destruct (String.eqb_spec (Customer.phone customer) phone);
                by cbn.
           ++ destruct (String.eqb_spec (Customer.address customer) address);
                by cbn.
        -- apply map_id_on. intros c Hc.
           apply list_elem_of_In, filter_In in Hc as [Hc Hn].
           apply list_elem_of_In in Hc.
           destruct (Z.eqb_spec (Customer.id c) (Customer.id customer)) as [He|];
             [|done].
           rewrite (Hkey c Hc He), Hname, String.eqb_refl in Hn. done.
        -- by rewrite length_map; lia.
      * intros c Hc.
        destruct (Z.eqb_spec (Customer.id c) (Customer.id customer)) as [He|];
          [|done].
        by rewrite (Hkey c Hc He).
      * intros c Hc.
        destruct (Z.eqb_spec (Customer.id c) (Customer.id customer)) as [He|];
          [|done].
        by rewrite (Hkey c Hc He).
    + rewrite Hf. apply orb_false_iff in Hchanged as [Hp Ha].
      apply negb_false_iff, String.eqb_eq in Hp.
      apply negb_false_iff, String.eqb_eq in Ha.
      repeat split; [by eexists|lia].
Qed.

(** X12: a placed order leaves exactly one customer with the name of the
    form, and that customer has the phone and the address of the form: a
    customer is created when none has the name, and the one that has it gets
    the phone and address of the order.  The customers of other names are
    as before.  The numbers of the customers are taken to be distinct. *)
Theorem checkout_keeps_customer (request : Request) (db db' : DB)
    (order_id : Z) (cart' : gmap string Z) :
  NoDup (Customer.id <$> customers db) →
  checkout request db = (RedirectOrder "order_success" order_id, db', cart') →
  ∃ name customer,
    POST_data request !! "name" = Some name
    ∧ List.filter (λ c, String.eqb (Customer.name c) name) (customers db')
      = [customer]
    ∧ POST_data request !! "phone" = Some (Customer.phone customer)
    ∧ POST_data request !! "address" = Some (Customer.address customer)
    ∧ List.filter (λ c, negb (String.eqb (Customer.name c) name)) (customers db')
      = List.filter (λ c, negb (String.eqb (Customer.name c) name)) (customers db)
    ∧ (List.length (customers db') ≤ List.length (customers db) + 1)%nat.
Proof.
  intros Hnd. unfold checkout. case_bool_decide; [done|].
  destruct (is_POST request); [|done]. cbn [andb].
  destruct (Py.truthy (POST_data request !! "name")) eqn:Hn; [|done].
  destruct (Py.truthy (POST_data request !! "phone")) eqn:Hp; [|done].
  destruct (Py.truthy (POST_data request !! "address")) eqn:Ha; [|done].
  apply truthy_named in Hn as (name & -> & _).
  apply truthy_named in Hp as (phone & -> & Hphone).
  apply truthy_named in Ha as (address & -> & Haddress).
  cbn [andb from_option id].
  destruct (upsert_customer _ _ _ db) as [db0|] eqn:Hc; [|done].
  apply (upsert_customer_one _ _ _ _ _ Hnd Hphone Haddress) in Hc
    as ((c & Hone & <- & <-) & Hothers & Hlen).
  intros [= <- <- <-].
  exists name, c.
  repeat match goal with |- context [if ?b then _ else _] => destruct b end;
    cbn [customers create_payment with_order_payments];
    rewrite customers_checkout_lines; cbn [customers with_orders];
    done.
Qed.

Lemma checkout_keeps_customer_witness :
  ∃ name customer,
    POST_data sample_checkout !! "name" = Some name
    ∧ List.filter (λ c, String.eqb (Customer.name c) name)
        (customers (checkout sample_checkout (sample_db Order.pending)).1.2)
      = [customer]
    ∧ POST_data sample_checkout !! "phone" = Some (Customer.phone customer)
    ∧ POST_data sample_checkout !! "address" = Some (Customer.address customer)
    ∧ List.filter (λ c, negb (String.eqb (Customer.name c) name))
        (customers (checkout sample_checkout (sample_db Order.pending)).1.2)
      = List.filter (λ c, negb (String.eqb (Customer.name c) name))
          (customers (sample_db Order.pending))
    ∧ (List.length
         (customers (checkout sample_checkout (sample_db Order.pending)).1.2)
       ≤ List.length (customers (sample_db Order.pending)) + 1)%nat.
Proof.
  apply (checkout_keeps_customer sample_checkout (sample_db Order.pending)
           (checkout sample_checkout (sample_db Order.pending)).1.2 2 ∅).
  - apply (bool_decide_unpack _). vm_compute. exact I.
  - vm_compute. reflexivity.
Defined.

(** ** Returns: the return items and the refund *)

(** What the loop of [return_order] writes: one return item for each line
    with a positive quantity asked back, in the order of the lines, and the
    running refund grows by the subtotals of these items. *)
Lemma return_lines_items (request : Request) (oreturn_id : Z)
    (lines : list (OrderItem.t * Product.t)) (st : DB * money) :
  ∃ items,
    order_return_items (foldl (return_line request oreturn_id) st lines).1
    = order_return_items st.1 ++ items
    ∧ Forall2 (λ i line,
                 OrderReturnItem.order_return i = oreturn_id
                 ∧ OrderReturnItem.product i = Product.id line.2
                 ∧ OrderReturnItem.quantity i
                   = Z.min (requested_quantity (POST_data request) line.1)
                       (OrderItem.quantity line.1)
                 ∧ OrderReturnItem.unit_price i = OrderItem.unit_price line.1)
        items
        (List.filter (λ line, 0 <? requested_quantity (POST_data request) line.1)
           lines)
    ∧ (foldl (return_line request oreturn_id) st lines).2
      = st.2 + sum_of OrderReturnItem.subtotal items
    ∧ order_payments (foldl (return_line request oreturn_id) st lines).1
      = order_payments st.1
    ∧ order_returns (foldl (return_line request oreturn_id) st lines).1
      = order_returns st.1.
Proof.
  revert st. induction lines as [|[item product] lines IH]; intros [db total].
  - exists []. cbn. rewrite app_nil_r. repeat split; [constructor|lia].
  - cbn [foldl List.filter fst].
    destruct (return_line request oreturn_id (db, total) (item, product))
      as [db1 total1] eqn:Hstep.
    destruct (IH (db1, total1)) as (items & Hitems & Hall & Htotal & Hpay & Hret).
    unfold return_line in Hstep. cbn [fst snd] in *.
    destruct (Z.ltb_spec 0 (requested_quantity (POST_data request) item))
      as [Hpos|Hnone]; injection Hstep as <- <-.
    + cbn [order_return_items save_stock_quantity with_products
           with_order_return_items order_payments order_returns] in *.
      eexists (_ :: items). rewrite Hitems, Htotal, <- app_assoc.
      split; [reflexivity|]. split; [|split; [|done]].
      * constructor; [|exact Hall]. cbn. repeat split.
        unfold returned_quantity.
        destruct (Z.ltb_spec (OrderItem.quantity item)
                    (requested_quantity (POST_data request) item)); lia.
      * cbn [sum_of]. unfold OrderReturnItem.subtotal at 2.
        cbn [OrderReturnItem.unit_price OrderReturnItem.quantity]. lia.
    + exists items. by rewrite Hitems, Htotal.
Qed.

(** X13: a return request on an order writes one return, with the reason
    stripped of blanks; one return item for each line of the order with a
    positive quantity asked back, of the quantity asked or the quantity
    ordered if that is less, at the unit price of the line; and, when a
    refund method is named and something is refunded, one payment of minus
    the sum of the subtotals of these return items.  The refund is at the
    unit price: the discount the order had is not taken off. *)
Theorem return_order_refund (request : Request) (order_id : Z) (db : DB)
    (order : Order.t) :
  get_order db order_id = Some order →
  is_POST request = true →
  let db' := (return_order request order_id db).2 in
  let refund_method := Py.get (POST_data request) "refund_method" "" in
  let rid := next_id (OrderReturn.id <$> order_returns db) in
  ∃ items,
    order_returns db'
    = order_returns db ++
      [OrderReturn.mk rid order_id
         (Py.strip (Py.get (POST_data request) "reason" "")) refund_method
         (now request)]
    ∧ order_return_items db' = order_return_items db ++ items
    ∧ Forall2 (λ i line,
                 OrderReturnItem.order_return i = rid
                 ∧ OrderReturnItem.product i = Product.id line.2
                 ∧ OrderReturnItem.quantity i
                   = Z.min (requested_quantity (POST_data request) line.1)
                       (OrderItem.quantity line.1)
                 ∧ OrderReturnItem.unit_price i = OrderItem.unit_price line.1)
        items
        (List.filter (λ line, 0 <? requested_quantity (POST_data request) line.1)
           (order_items_with_product db order_id))
    ∧ order_payments db'
      = order_payments db ++
        if negb (String.eqb refund_method "")
           && (0 <? sum_of OrderReturnItem.subtotal items)
        then [OrderPayment.mk (next_id (OrderPayment.id <$> order_payments db))
                order_id refund_method
                (- sum_of OrderReturnItem.subtotal items) "REFUND" (now request)]
        else [].
Proof.
  intros Hget Hpost. cbv zeta.
  rewrite (return_order_post _ _ _ _ Hget Hpost). cbv zeta.
  rewrite (find_key_eq Order.id _ _ _ Hget).
  set (db1 := with_order_returns db _).
  change (order_items_with_product db1 order_id)
    with (order_items_with_product db order_id).
  destruct (return_lines_items request
              (next_id (OrderReturn.id <$> order_returns db))
              (order_items_with_product db order_id) (db1, 0))
    as (items & Hitems & Hall & Htotal & Hpay & Hret).
  cbn [fst snd] in *. rewrite Z.add_0_l in Htotal.
  exists items. unfold save_status.
  cbn [order_returns order_return_items order_payments with_orders].
  rewrite Htotal. cbn [Py.truthy].
  destruct (negb _ && _);
    cbn [order_returns order_return_items order_payments create_payment
         with_order_payments];
    rewrite Hitems, Hpay, Hret; subst db1;
    cbn [order_returns order_return_items order_payments with_order_returns];
    [done|]. by rewrite app_nil_r.
Qed.

Lemma return_order_refund_witness :
  let request := sample_return in
  let db := sample_db Order.completed in
  let db' := (return_order request 1 db).2 in
  let refund_method := Py.get (POST_data request) "refund_method" "" in
  let rid := next_id (OrderReturn.id <$> order_returns db) in
  ∃ items,
    order_returns db'
    = order_returns db ++
      [OrderReturn.mk rid 1
         (Py.strip (Py.get (POST_data request) "reason" "")) refund_method
         (now request)]
    ∧ order_return_items db' = order_return_items db ++ items
    ∧ Forall2 (λ i line,
                 OrderReturnItem.order_return i = rid
                 ∧ OrderReturnItem.product i = Product.id line.2
                 ∧ OrderReturnItem.quantity i
                   = Z.min (requested_quantity (POST_data request) line.1)
                       (OrderItem.quantity line.1)
                 ∧ OrderReturnItem.unit_price i = OrderItem.unit_price line.1)
        items
        (List.filter (λ line, 0 <? requested_quantity (POST_data request) line.1)
           (order_items_with_product db 1))
    ∧ order_payments db'
      = order_payments db ++
        if negb (String.eqb refund_method "")
           && (0 <? sum_of OrderReturnItem.subtotal items)
        then [OrderPayment.mk (next_id (OrderPayment.id <$> order_payments db))
                1 refund_method
                (- sum_of OrderReturnItem.subtotal items) "REFUND" (now request)]
        else [].
Proof.
  apply (return_order_refund sample_return 1 (sample_db Order.completed)
           (Order.mk 1 "Asha" "98" "Pune" 10 10 Order.completed)).
  - reflexivity.
  - reflexivity.
Defined.

(** The return of the five apples of the sample order, sold at 10.00 less
    a discount of 1.00 each, so for 45.00, refunds 50.00 in cash. *)
Example return_order_refund_of_sample :
  order_payments returned_db = [OrderPayment.mk 1 1 "cash" (-5000) "REFUND" 60]
  ∧ order_return_items returned_db = [OrderReturnItem.mk 1 1 1 5 1000]
  ∧ OrderItem.subtotal <$> order_items (sample_db Order.completed)
    = [4500; 600].
Proof. vm_compute. done. Qed.

(** ** Returns: nothing limits them to what was bought *)

(** A return request changes no order item, and leaves the order it is on
    in the table, marked as returned. *)
Lemma return_order_keeps_items (request : Request) (order_id : Z) (db : DB)
    (order : Order.t) :
  get_order db order_id = Some order →
  is_POST request = true →
  order_items (return_order request order_id db).2 = order_items db
  ∧ get_order (return_order request order_id db).2 order_id
    = Some (Order.with_status order Order.returned)
  ∧ List.length (order_returns (return_order request order_id db).2)
    = S (List.length (order_returns db)).
Proof.
  intros Hget Hpost.
  rewrite (return_order_post _ _ _ _ Hget Hpost). cbv zeta.
  set (db1 := with_order_returns db _).
  destruct (return_lines_frame request
              (next_id (OrderReturn.id <$> order_returns db))
              (order_items_with_product db1 (Order.id order)) (db1, 0))
    as (Hi & Ho & _).
  destruct (return_lines_items request
              (next_id (OrderReturn.id <$> order_returns db))
              (order_items_with_product db1 (Order.id order)) (db1, 0))
    as (items & _ & _ & _ & _ & Hr).
  cbn [fst] in Hi, Ho, Hr. split; [|split].
  - destruct (_ && _);
      cbn [order_items save_status with_orders create_payment
           with_order_payments]; by rewrite Hi.
  - rewrite get_order_save_status.
    assert (∀ d, orders d = orders db → get_order d order_id = Some order) as H.
    { intros d Hd. unfold get_order. by rewrite Hd. }
    rewrite H.
    + cbn. rewrite (find_key_eq Order.id _ _ _ Hget).
      by rewrite Z.eqb_refl.
    + destruct (_ && _); cbn [orders create_payment with_order_payments];
        by rewrite Ho.
  - destruct (_ && _);
      cbn [order_returns save_status with_orders create_payment
           with_order_payments]; rewrite Hr; subst db1;
      cbn [order_returns with_order_returns]; rewrite length_app; cbn; lia.
Qed.

(** X14: an order that was returned can be returned again.  The handler
    does not look at the status of the order nor at the returns it already
    has: the same return request sent a second time is carried out like the
    first, and the stock of the product of a line has then risen by twice
    the quantity taken back, which can be more than was ever ordered. *)
Theorem return_order_twice (request : Request) (order_id : Z) (db : DB)
    (order : Order.t) (item : OrderItem.t) (product : Product.t) :
  one_line_per_product db →
  get_order db order_id = Some order →
  is_POST request = true →
  item ∈ order_items db →
  OrderItem.order item = order_id →
  get_product db (OrderItem.product item) = Some product →
  0 < requested_quantity (POST_data request) item →
  let r := Z.min (requested_quantity (POST_data request) item)
             (OrderItem.quantity item) in
  let db1 := (return_order request order_id db).2 in
  let db2 := (return_order request order_id db1).2 in
  Order.status <$> get_order db1 order_id = Some Order.returned
  ∧ Product.stock_quantity <$> get_product db1 (OrderItem.product item)
    = Some (Product.stock_quantity product + r)
  ∧ Product.stock_quantity <$> get_product db2 (OrderItem.product item)
    = Some (Product.stock_quantity product + 2 * r)
  ∧ List.length (order_returns db2) = (List.length (order_returns db) + 2)%nat.
Proof.
  intros Hone Hget Hpost Hin Horder Hproduct Hpos. cbv zeta.
  pose proof (only_line_asked_back _ _ _ _ Hone Hin Horder Hpos) as Honly.
  destruct (return_order_only_line request order_id db order item product
              Hget Hpost Honly Hproduct) as (_ & _ & Hstock).
  cbv zeta in Hstock.
  destruct (return_order_keeps_items request order_id db order Hget Hpost)
    as (Hitems & Hget1 & Hlen1).
  set (db1 := (return_order request order_id db).2) in *.
  destruct (get_product db1 (OrderItem.product item)) as [product1|] eqn:Hp1;
    [|done].
  injection Hstock as Hstock.
  rewrite <- Hitems in Honly.
  destruct (return_order_only_line request order_id db1 _ item product1
              Hget1 Hpost Honly Hp1) as (_ & _ & Hstock2).
  cbv zeta in Hstock2.
  split; [by rewrite Hget1|]. split; [cbn; by rewrite Hstock|].
  split; [rewrite Hstock2, Hstock; f_equal; lia|].
  destruct (return_order_keeps_items request order_id db1 _ Hget1 Hpost)
    as (_ & _ & ->).
  rewrite Hlen1. lia.
Qed.

Lemma return_order_twice_witness :
  let request := sample_return in
  let db := sample_db Order.pending in
  let item := OrderItem.mk 1 1 1 5 1000 100 in
  let r := Z.min (requested_quantity (POST_data request) item)
             (OrderItem.quantity item) in
  let db1 := (return_order request 1 db).2 in
  let db2 := (return_order request 1 db1).2 in
  Order.status <$> get_order db1 1 = Some Order.returned
  ∧ Product.stock_quantity <$> get_product db1 (OrderItem.product item)
    = Some (Product.stock_quantity apple + r)
  ∧ Product.stock_quantity <$> get_product db2 (OrderItem.product item)
    = Some (Product.stock_quantity apple + 2 * r)
  ∧ List.length (order_returns db2) = (List.length (order_returns db) + 2)%nat.
Proof.
  apply (return_order_twice sample_return 1 (sample_db Order.pending)
           (Order.mk 1 "Asha" "98" "Pune" 10 10 Order.pending)
           (OrderItem.mk 1 1 1 5 1000 100) apple).
  - apply sample_db_one_line.
  - reflexivity.
  - reflexivity.
  - apply elem_of_cons. by left.
  - reflexivity.
  - reflexivity.
  - vm_compute. reflexivity.
Defined.

(** Returned twice, the five apples of the sample order leave twenty apples
    in a stock that held ten. *)
Example return_order_twice_of_sample :
  Product.stock_quantity
    <$> products (return_order sample_return 1 returned_db).2 = [20; 2].
Proof. vm_compute. reflexivity. Qed.

(** ** Reporting: windows and completed orders *)

Lemma sum_of_filter_split {A : Type} (f : A → Z) (P P1 P2 : A → bool)
    (l : list A) :
  (∀ x, P x = P1 x || P2 x) → (∀ x, P1 x && P2 x = false) →
  sum_of f (List.filter P l)
  = sum_of f (List.filter P1 l) + sum_of f (List.filter P2 l).
Proof.
  intros Hor Hdisjoint. induction l as [|x l IH]; [done|].
  cbn [List.filter]. rewrite Hor. specialize (Hdisjoint x).
  destruct (P1 x), (P2 x); cbn [orb sum_of]; try done; lia.
Qed.

Lemma in_window_split (a b c t : datetime) :
  a ≤ b → b ≤ c →
  in_window a c t = in_window a b t || in_window b c t
  ∧ in_window a b t && in_window b c t = false.
Proof.
  intros Hab Hbc. unfold in_window.
  destruct (Z.leb_spec a t), (Z.ltb_spec t c), (Z.ltb_spec t b),
           (Z.leb_spec b t); cbn; split; try done; lia.
Qed.

Lemma date_of_mono (a b : datetime) : a ≤ b → date_of a ≤ date_of b.
Proof. intros H. unfold date_of. by apply Z.div_le_mono. Qed.

(** X15: the report adds up over time.  For moments [a ≤ b ≤ c], each of
    the five figures of [sales_stats] for the window from [a] to [c] is the
    sum of the figures for the windows from [a] to [b] and from [b] to [c]:
    no order, return, purchase or expense is counted twice or left out at
    the boundary, the start of a window being inside it and its end
    outside. *)
Theorem sales_stats_additive (db : DB) (a b c : datetime) :
  a ≤ b → b ≤ c →
  revenue (sales_stats db a c)
  = revenue (sales_stats db a b) + revenue (sales_stats db b c)
  ∧ profit (sales_stats db a c)
    = profit (sales_stats db a b) + profit (sales_stats db b c)
  ∧ spent (sales_stats db a c)
    = spent (sales_stats db a b) + spent (sales_stats db b c)
  ∧ expenses_total (sales_stats db a c)
    = expenses_total (sales_stats db a b) + expenses_total (sales_stats db b c)
  ∧ net_profit (sales_stats db a c)
    = net_profit (sales_stats db a b) + net_profit (sales_stats db b c).
Proof.
  intros Hab Hbc.
  assert (∀ f, sum_of f (sold_items db a c)
               = sum_of f (sold_items db a b) + sum_of f (sold_items db b c))
    as Hsold.
  { intros f. unfold sold_items. apply sum_of_filter_split; intros i;
      destruct (get_order db (OrderItem.order i)) as [o|]; try done;
      unfold counted_order;
      destruct (in_window_split a b c (Order.created_at o) Hab Hbc)
        as [Hor Hd]; rewrite ?Hor; revert Hd;
      generalize (in_window a b (Order.created_at o)),
                 (in_window b c (Order.created_at o)),
                 (Order.status_eqb (Order.status o) Order.completed
                  || Order.status_eqb (Order.status o) Order.returned);
      by intros [] [] []. }
  assert (∀ f, sum_of f (returned_items db a c)
               = sum_of f (returned_items db a b)
                 + sum_of f (returned_items db b c)) as Hret.
  { intros f. unfold returned_items. apply sum_of_filter_split; intros i;
      destruct (find _ (order_returns db)) as [r|]; try done;
      by destruct (in_window_split a b c (OrderReturn.created_at r) Hab Hbc). }
  unfold sales_stats. cbn [revenue profit spent expenses_total net_profit].
  rewrite !Hsold, !Hret.
  assert (sum_of (λ i, PurchaseItem.unit_cost i * PurchaseItem.quantity i)
            (List.filter
               (λ i, match find (λ p, Purchase.id p =? PurchaseItem.purchase i)
                             (purchases db) with
                     | Some p => in_window a c (Purchase.date p)
                     | None => false
                     end) (purchase_items db))
          = sum_of (λ i, PurchaseItem.unit_cost i * PurchaseItem.quantity i)
              (List.filter
                 (λ i, match find (λ p, Purchase.id p =? PurchaseItem.purchase i)
                               (purchases db) with
                       | Some p => in_window a b (Purchase.date p)
                       | None => false
                       end) (purchase_items db))
            + sum_of (λ i, PurchaseItem.unit_cost i * PurchaseItem.quantity i)
                (List.filter
                   (λ i, match find (λ p, Purchase.id p =? PurchaseItem.purchase i)
                                 (purchases db) with
                         | Some p => in_window b c (Purchase.date p)
                         | None => false
                         end) (purchase_items db))) as ->.
  { apply sum_of_filter_split; intros i;
      destruct (find _ (purchases db)) as [p|]; try done;
      by destruct (in_window_split a b c (Purchase.date p) Hab Hbc). }
  assert (sum_of Expense.amount
            (List.filter (λ e, in_window (date_of a) (date_of c) (Expense.date e))
               (expenses db))
          = sum_of Expense.amount
              (List.filter (λ e, in_window (date_of a) (date_of b) (Expense.date e))
                 (expenses db))
            + sum_of Expense.amount
                (List.filter
                   (λ e, in_window (date_of b) (date_of c) (Expense.date e))
                   (expenses db))) as ->.
  { apply sum_of_filter_split; intros e;
      by destruct (in_window_split (date_of a) (date_of b) (date_of c)
                     (Expense.date e) (date_of_mono _ _ Hab)
                     (date_of_mono _ _ Hbc)). }
  repeat split; lia.
Qed.

Lemma sales_stats_additive_witness :
  revenue (sales_stats returned_db 0 100)
  = revenue (sales_stats returned_db 0 50) + revenue (sales_stats returned_db 50 100)
  ∧ profit (sales_stats returned_db 0 100)
    = profit (sales_stats returned_db 0 50) + profit (sales_stats returned_db 50 100)
  ∧ spent (sales_stats returned_db 0 100)
    = spent (sales_stats returned_db 0 50) + spent (sales_stats returned_db 50 100)
  ∧ expenses_total (sales_stats returned_db 0 100)
    = expenses_total (sales_stats returned_db 0 50)
      + expenses_total (sales_stats returned_db 50 100)
  ∧ net_profit (sales_stats returned_db 0 100)
    = net_profit (sales_stats returned_db 0 50)
      + net_profit (sales_stats returned_db 50 100).
Proof.
  apply (sales_stats_additive returned_db 0 50 100); lia.
Defined.

(** The order of the sample, created at 10, and its return, created at 60,
    fall into different halves of the window: 56.00 and -50.00. *)
Example sales_stats_halves :
  revenue (sales_stats returned_db 0 50) = 5600
  ∧ revenue (sales_stats returned_db 50 100) = -5000.
Proof. split; reflexivity. Qed.

Lemma sum_of_filter_when {A : Type} (f : A → Z) (P : A → bool) (w : bool)
    (l : list A) :
  sum_of f (List.filter (λ x, P x && w) l)
  = if w then sum_of f (List.filter P l) else 0.
Proof.
  destruct w.
  - f_equal. apply List.filter_ext. intros x. apply andb_true_r.
  - induction l as [|x l IH]; [done|]. cbn [List.filter].
    by rewrite andb_false_r.
Qed.

(** X16: completing an order puts it into the report at the time it was
    created.  When an order that is neither completed nor returned is marked
    completed, the revenue of a window rises by the sum of
    [unit_price * quantity] of the items of the order if the order was
    created in the window, and by nothing otherwise, whenever the order is
    completed; the profit rises by the margins of these items; money spent
    and expenses stay. *)
Theorem mark_order_completed_counts (request : Request) (order_id : Z)
    (db : DB) (order : Order.t) (a b : datetime) :
  get_order db order_id = Some order →
  Order.status order ≠ Order.completed →
  Order.status order ≠ Order.returned →
  let db' := (mark_order_completed request order_id db).2 in
  let mine :=
    List.filter (λ i, OrderItem.order i =? order_id) (order_items db) in
  let created := in_window a b (Order.created_at order) in
  revenue (sales_stats db' a b)
  = revenue (sales_stats db a b)
    + (if created
       then sum_of (λ i, OrderItem.unit_price i * OrderItem.quantity i) mine
       else 0)
  ∧ profit (sales_stats db' a b)
    = profit (sales_stats db a b)
      + (if created
         then sum_of (λ i, margin db (OrderItem.product i)
                             (OrderItem.unit_price i) (OrderItem.quantity i)) mine
         else 0)
  ∧ spent (sales_stats db' a b) = spent (sales_stats db a b)
  ∧ expenses_total (sales_stats db' a b) = expenses_total (sales_stats db a b).
Proof.
  intros Hget Hnc Hnr. cbv zeta.
  pose proof (find_key_eq Order.id _ _ _ Hget) as Hid.
  unfold mark_order_completed. rewrite Hget.
  destruct (Order.status_eqb (Order.status order) Order.completed) eqn:Hst;
    [by apply status_eqb_eq in Hst|].
  cbn [negb snd].
  set (row := Order.with_updated_at _ _).
  assert (∀ f, sum_of f (sold_items (save_order db row) a b)
               = sum_of f (sold_items db a b)
                 + sum_of f (List.filter
                               (λ i, (OrderItem.order i =? order_id)
                                     && in_window a b (Order.created_at order))
                               (order_items db))) as Hsold.
  { intros f. unfold sold_items. cbn [order_items save_order with_orders].
    apply sum_of_filter_split; intros i; rewrite ?get_order_save_order.
    - destruct (Z.eqb_spec (OrderItem.order i) order_id) as [->|Hne].
      + rewrite Hget. cbn [fmap option_fmap option_map andb orb].
        cbn [Order.id row Order.with_updated_at Order.with_status].
        rewrite Hid, Z.eqb_refl. unfold counted_order.
        cbn [Order.status Order.created_at].
        destruct (Order.status order); cbn; try done.
        all: by destruct (in_window a b _).
      + cbn [andb]. rewrite orb_false_r.
        destruct (get_order db (OrderItem.order i)) as [o|] eqn:Ho; [|done].
        pose proof (find_key_eq Order.id _ _ _ Ho) as Hk. cbn.
        rewrite Hid. destruct (Z.eqb_spec (Order.id o) order_id); [lia|done].
    - destruct (Z.eqb_spec (OrderItem.order i) order_id) as [->|Hne];
        [|by rewrite andb_false_r].
      rewrite Hget. unfold counted_order.
      destruct (Order.status order); try done. }
  unfold sales_stats.
  cbn [revenue profit spent expenses_total].
  change (returned_items (save_order db row) a b) with (returned_items db a b).
  rewrite !Hsold, !sum_of_filter_when.
  repeat split.
  - destruct (in_window a b _); lia.
  - unfold margin. change (get_product (save_order db row)) with (get_product db).
    destruct (in_window a b _); lia.
Qed.

Lemma mark_order_completed_counts_witness :
  let db := sample_db Order.pending in
  let db' := (mark_order_completed (post_request ∅ ∅ 50) 1 db).2 in
  let mine := List.filter (λ i, OrderItem.order i =? 1) (order_items db) in
  let created :=
    in_window 0 20
      (Order.created_at (Order.mk 1 "Asha" "98" "Pune" 10 10 Order.pending)) in
  revenue (sales_stats db' 0 20)
  = revenue (sales_stats db 0 20)
    + (if created
       then sum_of (λ i, OrderItem.unit_price i * OrderItem.quantity i) mine
       else 0)
  ∧ profit (sales_stats db' 0 20)
    = profit (sales_stats db 0 20)
      + (if created
         then sum_of (λ i, margin db (OrderItem.product i)
                             (OrderItem.unit_price i) (OrderItem.quantity i)) mine
         else 0)
  ∧ spent (sales_stats db' 0 20) = spent (sales_stats db 0 20)
  ∧ expenses_total (sales_stats db' 0 20) = expenses_total (sales_stats db 0 20).
Proof.
  apply (mark_order_completed_counts (post_request ∅ ∅ 50) 1
           (sample_db Order.pending)
           (Order.mk 1 "Asha" "98" "Pune" 10 10 Order.pending) 0 20);
    [reflexivity|discriminate|discriminate].
Defined.

(** The sample order, created at 10 and completed at 50, brings its 56.00
    into the window that holds 10, and nothing into the window that holds
    50. *)
Example mark_order_completed_counts_of_sample :
  revenue (sales_stats (mark_order_completed (post_request ∅ ∅ 50) 1
                          (sample_db Order.pending)).2 0 20) = 5600
  ∧ revenue (sales_stats (mark_order_completed (post_request ∅ ∅ 50) 1
                            (sample_db Order.pending)).2 20 100) = 0.
Proof. split; reflexivity. Qed.

(** ** Purchasing: rejected forms and new products *)

(** The wholesaler of a purchase is one of the table, or is appended to it. *)
Lemma resolve_wholesaler_rows (post : gmap string string) (db db1 : DB)
    (wholesaler : Wholesaler.t) :
  resolve_wholesaler post db = Ok (Some wholesaler, db1) →
  (db1 = db ∧ wholesaler ∈ wholesalers db)
  ∨ (wholesalers db1 = wholesalers db ++ [wholesaler]
     ∧ Wholesaler.name wholesaler
       = Py.strip (Py.get_or post "wholesaler_name" "")
     ∧ Forall (λ w, Wholesaler.name w ≠ Wholesaler.name wholesaler)
         (wholesalers db)).
Proof.
  unfold resolve_wholesaler.
  destruct (if Py.truthy (post !! "wholesaler_id") then _ else _)
    as [[w|]|] eqn:Hid; [| |done].
  - intros [= <- <-]. left. split; [done|].
    destruct (Py.truthy (post !! "wholesaler_id")); [|done].
    unfold get_by_id_text in Hid. destruct (Py.int _) as [k|]; [|done].
    injection Hid as Hid. by apply (find_key_in Wholesaler.id) in Hid.
  - destruct (Py.truthy (Some _)); [|done].
    destruct (objects_get _ _) as [w| |] eqn:Hget; [| |done].
    + intros [= <- <-]. left. split; [done|].
      by apply objects_get_got in Hget as [Hin _].
    + intros [= <- <-]. right. cbn. repeat split.
      apply Forall_forall. intros w Hin Heq.
      pose proof (objects_get_none _ _ Hget w Hin) as Hno. cbn in Hno.
      by rewrite Heq, String.eqb_refl in Hno.
Qed.

(** X17: a purchase form with a unit cost or a selling price that is not
    above zero is turned away after the wholesaler was looked up: no
    product, purchase or purchase item is written or changed, but a
    wholesaler that was named and not yet known has been added all the
    same. *)
Theorem purchase_rejected (request : Request) (db db1 : DB)
    (wholesaler : Wholesaler.t) (c : money) :
  is_POST request = true →
  resolve_wholesaler (POST_data request) db = Ok (Some wholesaler, db1) →
  Py.float (Py.get (POST_data request) "unit_cost" "0") = Some c →
  (c ≤ 0
   ∨ ∃ p, Py.float (Py.get (POST_data request) "selling_price" "0") = Some p
          ∧ p ≤ 0) →
  wholesaler_dashboard request db = (Redirect "wholesaler_dashboard", db1)
  ∧ products db1 = products db
  ∧ purchases db1 = purchases db
  ∧ purchase_items db1 = purchase_items db
  ∧ (wholesalers db1 = wholesalers db
     ∨ wholesalers db1 = wholesalers db ++ [wholesaler]).
Proof.
  intros Hpost Hw Hc Hbad.
  destruct (resolve_wholesaler_frame _ _ _ _ Hw) as (Hps & Hpu & Hpi).
  split; [|split; [done|split; [done|split; [done|]]]].
  - unfold wholesaler_dashboard. rewrite Hpost, Hw, Hc. cbn [from_option id].
    destruct (Z.leb_spec c 0) as [|Hcpos]; [done|].
    destruct Hbad as [|(p & -> & Hp)]; [lia|]. cbn [from_option id].
    by destruct (Z.leb_spec p 0); [|lia].
  - destruct (resolve_wholesaler_rows _ _ _ _ Hw) as [[-> _]|[Hrows _]];
      [by left|by right].
Qed.

Lemma purchase_rejected_witness :
  let request :=
    post_request {[ "wholesaler_name" := " Ravi Traders "; "product_id" := "2";
                    "unit_cost" := "5"; "selling_price" := "-8" ]} ∅ 80 in
  let db := sample_db Order.pending in
  wholesaler_dashboard request db = (Redirect "wholesaler_dashboard", db)
  ∧ products db = products db
  ∧ purchases db = purchases db
  ∧ purchase_items db = purchase_items db
  ∧ (wholesalers db = wholesalers db
     ∨ wholesalers db = wholesalers db ++ [Wholesaler.mk 1 "Ravi Traders" "" ""]).
Proof.
  apply (purchase_rejected
           (post_request {[ "wholesaler_name" := " Ravi Traders ";
                            "product_id" := "2";
                            "unit_cost" := "5"; "selling_price" := "-8" ]} ∅ 80)
           (sample_db Order.pending) (sample_db Order.pending)
           (Wholesaler.mk 1 "Ravi Traders" "" "") 500).
  - reflexivity.
  - vm_compute. reflexivity.
  - vm_compute. reflexivity.
  - right. exists (-800). split; [vm_compute; reflexivity | lia].
Defined.

(** A form that names an unknown wholesaler and no cost leaves the new
    wholesaler behind. *)
Example purchase_rejected_adds_wholesaler :
  wholesalers
    (wholesaler_dashboard
       (post_request {[ "wholesaler_name" := "Gopal"; "wholesaler_phone" := "77";
                        "product_id" := "2"; "unit_cost" := "0";
                        "selling_price" := "8" ]} ∅ 80)
       (sample_db Order.pending)).2
  = [Wholesaler.mk 1 "Ravi Traders" "" ""; Wholesaler.mk 2 "Gopal" "77" ""].
Proof. vm_compute. reflexivity. Qed.

(** X18: a purchase that names no product of the table but a new product
    name creates the product and stocks it in the same request.  The product
    is appended with the stripped name, the selling price and unit cost of
    the form, no discount, no barcode, the quantity of the form as its stock,
    and active; no other product changes. *)
Theorem purchase_creates_product (request : Request) (db db1 : DB)
    (wholesaler : Wholesaler.t) (c p : money) :
  is_POST request = true →
  resolve_wholesaler (POST_data request) db = Ok (Some wholesaler, db1) →
  Py.truthy (POST_data request !! "product_id") = false →
  Py.strip (Py.get_or (POST_data request) "new_product_name" "") ≠ ""%string →
  Py.float (Py.get (POST_data request) "unit_cost" "0") = Some c → 0 < c →
  Py.float (Py.get (POST_data request) "selling_price" "0") = Some p → 0 < p →
  let q := int_or_one (Py.get (POST_data request) "quantity" "1") in
  let db' := (wholesaler_dashboard request db).2 in
  1 ≤ q
  ∧ products db'
    = products db ++
      [Product.mk (next_id (Product.id <$> products db))
         (Py.strip (Py.get_or (POST_data request) "new_product_name" ""))
         p c 0 q None "" true]
  ∧ ∃ date expiry,
      purchase_items db'
      = purchase_items db ++
        [PurchaseItem.mk (next_id (PurchaseItem.id <$> purchase_items db))
           (next_id (Purchase.id <$> purchases db))
           (next_id (Product.id <$> products db)) q c expiry]
      ∧ purchases db'
        = purchases db ++
          [Purchase.mk (next_id (Purchase.id <$> purchases db))
             (Wholesaler.id wholesaler) date (now request)].
Proof.
  intros Hpost Hw Hid Hname Hc Hcpos Hp Hppos q db'.
  destruct (resolve_wholesaler_frame _ _ _ _ Hw) as (Hps & Hpu & Hpi).
  split; [apply int_or_one_positive|].
  unfold db', wholesaler_dashboard.
  rewrite Hpost, Hw, Hc, Hp. cbn [from_option id].
  destruct (Z.leb_spec c 0); [lia|]. destruct (Z.leb_spec p 0); [lia|].
  unfold resolve_product. rewrite Hid.
  assert (Py.truthy (Some (Py.strip (Py.get_or (POST_data request)
                                       "new_product_name" ""))) = true) as ->.
  { cbn. by destruct (String.eqb_spec
                        (Py.strip (Py.get_or (POST_data request)
                                     "new_product_name" "")) ""). }
  cbn [snd]. fold q. split.
  - cbn [products save_stock_and_prices with_products with_purchase_items
         with_purchases Product.id Product.stock_quantity Product.cost_price
         Product.price Product.with_prices Product.with_stock_quantity].
    rewrite map_app, Hps. f_equal.
    + apply map_id_on. intros row Hin.
      destruct (Z.eqb_spec (Product.id row)
                  (next_id (Product.id <$> products db))) as [Heq|]; [|done].
      exfalso. apply (next_id_fresh (Product.id <$> products db)).
      rewrite <- Heq. by apply list_elem_of_fmap_2.
    + cbn. rewrite Z.eqb_refl. reflexivity.
  - eexists _, _.
    cbn [purchases purchase_items save_stock_and_prices with_products
         with_purchase_items with_purchases Purchase.id Product.id].
    rewrite Hpu, Hpi, Hps. split; reflexivity.
Qed.

Lemma purchase_creates_product_witness :
  let request :=
    post_request {[ "wholesaler_id" := "1"; "new_product_name" := " Tea ";
                    "quantity" := "6"; "unit_cost" := "40";
                    "selling_price" := "55.50" ]} ∅ 80 in
  let db := sample_db Order.pending in
  let q := int_or_one (Py.get (POST_data request) "quantity" "1") in
  let db' := (wholesaler_dashboard request db).2 in
  1 ≤ q
  ∧ products db'
    = products db ++
      [Product.mk (next_id (Product.id <$> products db))
         (Py.strip (Py.get_or (POST_data request) "new_product_name" ""))
         5550 4000 0 q None "" true]
  ∧ ∃ date expiry,
      purchase_items db'
      = purchase_items db ++
        [PurchaseItem.mk (next_id (PurchaseItem.id <$> purchase_items db))
           (next_id (Purchase.id <$> purchases db))
           (next_id (Product.id <$> products db)) q 4000 expiry]
      ∧ purchases db'
        = purchases db ++
          [Purchase.mk (next_id (Purchase.id <$> purchases db))
             (Wholesaler.id (Wholesaler.mk 1 "Ravi Traders" "" "")) date
             (now request)].
Proof.
  apply (purchase_creates_product
           (post_request {[ "wholesaler_id" := "1"; "new_product_name" := " Tea ";
                            "quantity" := "6"; "unit_cost" := "40";
                            "selling_price" := "55.50" ]} ∅ 80)
           (sample_db Order.pending) (sample_db Order.pending)
           (Wholesaler.mk 1 "Ravi Traders" "" "") 4000 5550).
  - reflexivity.
  - vm_compute. reflexivity.
  - reflexivity.
  - vm_compute. discriminate.
  - vm_compute. reflexivity.
  - lia.
  - vm_compute. reflexivity.
  - lia.
Defined.

(** Six packets of tea, bought at 40.00 to be sold at 55.50, become the
    third product of the shop. *)
Example purchase_creates_tea :
  products
    (wholesaler_dashboard
       (post_request {[ "wholesaler_id" := "1"; "new_product_name" := " Tea ";
                        "quantity" := "6"; "unit_cost" := "40";
                        "selling_price" := "55.50" ]} ∅ 80)
       (sample_db Order.pending)).2
  = [apple; milk; Product.mk 3 "Tea" 5550 4000 0 6 None "" true].
Proof. vm_compute. reflexivity. Qed.

(** ** Credit list: what is outstanding, and who owes it *)

Lemma total_outstanding_app (l1 l2 : list CreditEntry.t) :
  total_outstanding (l1 ++ l2) = total_outstanding l1 + total_outstanding l2.
Proof. unfold total_outstanding. by rewrite List.filter_app, sum_of_app. Qed.

Lemma filter_none {A : Type} (P : A → bool) (l : list A) :
  (∀ x, x ∈ l → P x = false) → List.filter P l = [].
Proof.
  induction l as [|a l IH]; intros H; [done|].
  cbn [List.filter]. rewrite H by (by left). apply IH.
  intros x Hx. apply H. by right.
Qed.

Lemma total_outstanding_one (c : CreditEntry.t) :
  total_outstanding [c]
  = if CreditEntry.is_paid c then 0 else CreditEntry.amount c.
Proof.
  unfold total_outstanding. cbn. destruct (CreditEntry.is_paid c); cbn; lia.
Qed.

Lemma outstanding_of_snoc (k : Z) (credits : list CreditEntry.t)
    (c : CreditEntry.t) :
  outstanding_of k (credits ++ [c])
  = outstanding_of k credits
    + if negb (CreditEntry.is_paid c) && (CreditEntry.customer c =? k)
      then CreditEntry.amount c else 0.
Proof.
  unfold outstanding_of. rewrite List.filter_app, total_outstanding_app.
  f_equal. cbn [List.filter].
  destruct (CreditEntry.customer c =? k); unfold total_outstanding; cbn;
    [|by rewrite andb_false_r].
  destruct (CreditEntry.is_paid c); cbn; lia.
Qed.

Lemma add_to_total_keys (key : Z) (amount : money) (rows : list (Z * money)) :
  rows.*1 ⊆ (add_to_total key amount rows).*1
  ∧ key ∈ (add_to_total key amount rows).*1
  ∧ (NoDup rows.*1 → NoDup (add_to_total key amount rows).*1)
  ∧ (∀ k, k ∈ (add_to_total key amount rows).*1 → k = key ∨ k ∈ rows.*1).
Proof.
  induction rows as [|[k total] rows (IHsub & IHin & IHnd & IHback)].
  - cbn. repeat split.
    + apply list_subseteq_nil.
    + by apply list_elem_of_singleton.
    + intros _. apply NoDup_singleton.
    + intros k Hk. left. by apply list_elem_of_singleton in Hk.
  - cbn [add_to_total]. destruct (Z.eqb_spec k key) as [->|Hne].
    + cbn. repeat split; [done|by left|done|]. intros k Hk. by right.
    + cbn. repeat split.
      * intros x Hx. apply elem_of_cons in Hx as [->|Hx]; [by left|].
        right. by apply IHsub.
      * by right.
      * intros Hnd. apply NoDup_cons in Hnd as [Hk Hnd]. apply NoDup_cons.
        split; [|by apply IHnd]. intros Hin.
        destruct (IHback _ Hin); [congruence|done].
      * intros x Hx. apply elem_of_cons in Hx as [->|Hx]; [right; by left|].
        destruct (IHback _ Hx); [by left|right; by right].
Qed.

Lemma add_to_total_sum (key : Z) (amount : money) (rows : list (Z * money)) :
  sum_of snd (add_to_total key amount rows) = sum_of snd rows + amount.
Proof.
  induction rows as [|[k total] rows IH]; [cbn; lia|].
  cbn [add_to_total]. destruct (k =? key); cbn [sum_of snd]; lia.
Qed.

(** The rows after one more unpaid entry, when each row held what its
    customer owed before. *)
Lemma add_to_total_rows (c : CreditEntry.t) (seen : list CreditEntry.t)
    (rows : list (Z * money)) :
  CreditEntry.is_paid c = false →
  NoDup rows.*1 →
  Forall (λ row, row.2 = outstanding_of row.1 seen) rows →
  (CreditEntry.customer c ∉ rows.*1 →
   outstanding_of (CreditEntry.customer c) seen = 0) →
  Forall (λ row, row.2 = outstanding_of row.1 (seen ++ [c]))
    (add_to_total (CreditEntry.customer c) (CreditEntry.amount c) rows).
Proof.
  intros Hunpaid. induction rows as [|[k total] rows IH]; intros Hnd Hall Hnew.
  - cbn. constructor; [|constructor]. cbn.
    rewrite outstanding_of_snoc, Hunpaid, Z.eqb_refl, Hnew; [done|].
    apply not_elem_of_nil.
  - cbn in Hnd. apply NoDup_cons in Hnd as [Hk Hnd].
    apply Forall_cons in Hall as [Hrow Hall]. cbn in Hrow.
    cbn [add_to_total]. destruct (Z.eqb_spec k (CreditEntry.customer c)) as [->|Hne].
    + constructor.
      * cbn. by rewrite outstanding_of_snoc, Hunpaid, Z.eqb_refl, Hrow.
      * apply Forall_forall. intros [k' t'] Hin.
        rewrite Forall_forall in Hall. rewrite (Hall _ Hin). cbn.
        rewrite outstanding_of_snoc.
        destruct (Z.eqb_spec (CreditEntry.customer c) k') as [Heq|];
          [|rewrite andb_false_r; lia].
        exfalso. apply Hk. rewrite Heq.
        by apply (list_elem_of_fmap_2 fst _ (k', t')).
    + constructor.
      * cbn. rewrite outstanding_of_snoc, Hrow.
        destruct (Z.eqb_spec (CreditEntry.customer c) k); [congruence|].
        rewrite andb_false_r. lia.
      * apply IH; [done..|]. intros Hnot. apply Hnew. cbn.
        intros Hin. apply elem_of_cons in Hin as [Heq|Hin]; [congruence|done].
Qed.

Lemma by_customer_snoc (credits : list CreditEntry.t) (c : CreditEntry.t) :
  by_customer (credits ++ [c])
  = if CreditEntry.is_paid c then by_customer credits
    else add_to_total (CreditEntry.customer c) (CreditEntry.amount c)
           (by_customer credits).
Proof. unfold by_customer. by rewrite foldl_app. Qed.

Lemma by_customer_sum (credits : list CreditEntry.t) :
  sum_of snd (by_customer credits) = total_outstanding credits.
Proof.
  induction credits as [|c credits IH] using rev_ind; [done|].
  rewrite by_customer_snoc, total_outstanding_app, total_outstanding_one.
  destruct (CreditEntry.is_paid c); [lia|].
  by rewrite add_to_total_sum, IH.
Qed.

(** X19: the reminder rows of the credit list.  The loop of [credit_list]
    makes one row for every customer that has an unpaid entry and for no
    other, no customer twice; the total of a row is what that customer still
    owes, the sum of the amounts of the unpaid entries of the customer; and
    the totals of the rows add up to [total_outstanding]. *)
Theorem by_customer_totals (credits : list CreditEntry.t) :
  NoDup (by_customer credits).*1
  ∧ Forall (λ row, row.2 = outstanding_of row.1 credits) (by_customer credits)
  ∧ (∀ k, k ∈ (by_customer credits).*1
          ↔ ∃ c, c ∈ credits ∧ CreditEntry.is_paid c = false
                 ∧ CreditEntry.customer c = k)
  ∧ sum_of snd (by_customer credits) = total_outstanding credits.
Proof.
  induction credits as [|c credits (IHnd & IHall & IHkeys & IHsum)]
    using rev_ind.
  - cbn. repeat split; [constructor|constructor| |].
    + intros Hk. by apply elem_of_nil in Hk.
    + intros (c & Hc & _). by apply elem_of_nil in Hc.
  - rewrite by_customer_snoc, total_outstanding_app.
    destruct (CreditEntry.is_paid c) eqn:Hpaid.
    + split; [done|]. split; [|split].
      * eapply Forall_impl; [exact IHall|]. intros row ->.
        rewrite outstanding_of_snoc, Hpaid. cbn. lia.
      * intros k. rewrite IHkeys. split.
        -- intros (x & Hx & Hu & Hk). exists x. split; [|done].
           apply elem_of_app. by left.
        -- intros (x & Hx & Hu & Hk). exists x. split; [|done].
           apply elem_of_app in Hx as [Hx|Hx]; [done|].
           apply list_elem_of_singleton in Hx. congruence.
      * rewrite IHsum, total_outstanding_one, Hpaid. lia.
    + destruct (add_to_total_keys (CreditEntry.customer c) (CreditEntry.amount c)
                  (by_customer credits)) as (Hsub & Hin & Hnd & Hback).
      split; [by apply Hnd|]. split; [|split].
      * apply add_to_total_rows; [done..|]. intros Hnot.
        unfold outstanding_of, total_outstanding.
        rewrite <- filter_and.
        assert (List.filter
                  (λ x, negb (CreditEntry.is_paid x)
                        && (CreditEntry.customer x =? CreditEntry.customer c))
                  credits = []) as Hnone.
        { apply filter_none. intros x Hx.
          destruct (CreditEntry.is_paid x) eqn:Hxp; [done|].
          destruct (Z.eqb_spec (CreditEntry.customer x) (CreditEntry.customer c))
            as [Heq|]; [|done].
          exfalso. apply Hnot. apply IHkeys. by exists x. }
        erewrite List.filter_ext; [by rewrite Hnone|].
        intros x. cbn. apply andb_comm.
      * intros k. split.
        -- intros Hk. destruct (Hback _ Hk) as [->|Hold].
           ++ exists c. split; [|done]. apply elem_of_app. right.
              by apply list_elem_of_singleton.
           ++ apply IHkeys in Hold as (x & Hx & Hu & Hxk). exists x.
              split; [|done]. apply elem_of_app. by left.
        -- intros (x & Hx & Hu & Hk).
           apply elem_of_app in Hx as [Hx|Hx].
           ++ apply Hsub. apply IHkeys. by exists x.
           ++ apply list_elem_of_singleton in Hx. subst x. by rewrite <- Hk.
      * by rewrite add_to_total_sum, IHsum, total_outstanding_one, Hpaid.
Qed.

(** After [credit.save()] of an unpaid entry marked paid, in a table with
    distinct numbers: the outstanding total falls by the amount of the
    entry. *)
Lemma total_outstanding_paid (credits : list CreditEntry.t)
    (credit : CreditEntry.t) (now_ : datetime) :
  NoDup (CreditEntry.id <$> credits) →
  credit ∈ credits →
  CreditEntry.is_paid credit = false →
  total_outstanding
    (map (λ c, if CreditEntry.id c =? CreditEntry.id credit
               then CreditEntry.paid_at credit now_ else c) credits)
  = total_outstanding credits - CreditEntry.amount credit.
Proof.
  intros Hnd Hin Hunpaid.
  induction credits as [|x credits IH]; [by apply elem_of_nil in Hin|].
  cbn in Hnd. apply NoDup_cons in Hnd as [Hx Hnd].
  change (x :: credits) with ([x] ++ credits).
  rewrite map_app, !total_outstanding_app, !total_outstanding_one.
  cbn [map]. rewrite total_outstanding_one.
  destruct (Z.eqb_spec (CreditEntry.id x) (CreditEntry.id credit)) as [Heq|Hne].
  - assert (x = credit) as ->.
    { apply elem_of_cons in Hin as [->|Hin]; [done|].
      exfalso. apply Hx. rewrite Heq. by apply list_elem_of_fmap_2. }
    rewrite Hunpaid. cbn. rewrite map_id_on; [lia|].
    intros c Hc.
    destruct (Z.eqb_spec (CreditEntry.id c) (CreditEntry.id credit)) as [Hc'|];
      [|done].
    exfalso. apply Hx. rewrite <- Hc'. by apply list_elem_of_fmap_2.
  - apply elem_of_cons in Hin as [->|Hin]; [done|].
    rewrite (IH Hnd Hin). lia.
Qed.

Lemma NoDup_filter_keys {A : Type} (key : A → Z) (P : A → bool) (l : list A) :
  NoDup (key <$> l) → NoDup (key <$> List.filter P l).
Proof.
  induction l as [|a l IH]; [done|]. cbn [fmap list_fmap List.filter].
  intros Hnd. apply NoDup_cons in Hnd as [Ha Hnd].
  destruct (P a); [|by apply IH]. cbn. apply NoDup_cons. split; [|by apply IH].
  intros Hin. apply Ha.
  apply list_elem_of_fmap in Hin as (x & -> & Hx).
  apply list_elem_of_In, filter_In in Hx as [Hx _].
  apply list_elem_of_fmap_2. by apply list_elem_of_In.
Qed.

(** The same for what one customer owes: it falls for the customer of the
    entry, and stays for every other. *)
Lemma outstanding_of_paid (credits : list CreditEntry.t)
    (credit : CreditEntry.t) (now_ : datetime) (k : Z) :
  NoDup (CreditEntry.id <$> credits) →
  credit ∈ credits →
  CreditEntry.is_paid credit = false →
  outstanding_of k
    (map (λ c, if CreditEntry.id c =? CreditEntry.id credit
               then CreditEntry.paid_at credit now_ else c) credits)
  = outstanding_of k credits
    - if CreditEntry.customer credit =? k then CreditEntry.amount credit else 0.
Proof.
  intros Hnd Hin Hunpaid. unfold outstanding_of.
  assert (∀ c, c ∈ credits → CreditEntry.id c = CreditEntry.id credit →
               c = credit) as Hkey.
  { intros c Hc Heq.
    apply list_elem_of_lookup in Hc as [i Hi].
    apply list_elem_of_lookup in Hin as [j Hj].
    assert (i = j) as ->; [|congruence].
    eapply NoDup_lookup; [exact Hnd| |];
      rewrite list_lookup_fmap; [by rewrite Hi|by rewrite Hj, Heq]. }
  rewrite filter_map_commute.
  2: { intros c Hc.
       destruct (Z.eqb_spec (CreditEntry.id c) (CreditEntry.id credit)) as [He|];
         [|done].
       by rewrite (Hkey c Hc He). }
  destruct (Z.eqb_spec (CreditEntry.customer credit) k) as [Hk|Hk].
  - apply total_outstanding_paid; [by apply NoDup_filter_keys| |done].
    apply list_elem_of_In, filter_In. split; [by apply list_elem_of_In|].
    by apply Z.eqb_eq.
  - rewrite map_id_on; [lia|]. intros c Hc.
    apply list_elem_of_In, filter_In in Hc as [Hc Hck].
    apply list_elem_of_In in Hc. apply Z.eqb_eq in Hck.
    destruct (Z.eqb_spec (CreditEntry.id c) (CreditEntry.id credit)) as [He|];
      [|done].
    rewrite (Hkey c Hc He) in Hck. congruence.
Qed.

(** X20: marking an unpaid credit entry paid takes exactly its amount off
    the outstanding total of the credit list and off what the customer of
    the entry owes, and leaves what every other customer owes; marking a
    paid entry changes none of these.  The numbers of the entries are taken
    to be distinct. *)
Theorem mark_credit_paid_settles (request : Request) (credit_id : Z) (db : DB)
    (credit : CreditEntry.t) (k : Z) :
  NoDup (CreditEntry.id <$> credit_entries db) →
  get_credit db credit_id = Some credit →
  let db' := (mark_credit_paid request credit_id db).2 in
  let settled :=
    if CreditEntry.is_paid credit then 0 else CreditEntry.amount credit in
  total_outstanding (credit_entries db')
  = total_outstanding (credit_entries db) - settled
  ∧ outstanding_of k (credit_entries db')
    = outstanding_of k (credit_entries db)
      - if CreditEntry.customer credit =? k then settled else 0.
Proof.
  intros Hnd Hget. cbv zeta.
  pose proof (find_key_in CreditEntry.id _ _ _ Hget) as Hin.
  unfold mark_credit_paid. rewrite Hget.
  destruct (CreditEntry.is_paid credit) eqn:Hpaid; cbn [negb snd].
  { split; [lia|]. destruct (_ =? _); lia. }
  cbn [credit_entries _audit_log with_audit_logs save_credit
       with_credit_entries CreditEntry.paid_at CreditEntry.id].
  split.
  - by apply (total_outstanding_paid _ credit (now request) Hnd).
  - by apply (outstanding_of_paid _ credit (now request) k Hnd).
Qed.

Lemma mark_credit_paid_settles_witness :
  let db := sample_db Order.pending in
  let credit := CreditEntry.mk 1 1 None "Sugar 2kg" 1 9000 5 false None in
  let db' := (mark_credit_paid (post_request ∅ ∅ 50) 1 db).2 in
  let settled :=
    if CreditEntry.is_paid credit then 0 else CreditEntry.amount credit in
  total_outstanding (credit_entries db')
  = total_outstanding (credit_entries db) - settled
  ∧ outstanding_of 1 (credit_entries db')
    = outstanding_of 1 (credit_entries db)
      - if CreditEntry.customer credit =? 1 then settled else 0.
Proof.
  apply (mark_credit_paid_settles (post_request ∅ ∅ 50) 1
           (sample_db Order.pending)
           (CreditEntry.mk 1 1 None "Sugar 2kg" 1 9000 5 false None) 1).
  - apply (bool_decide_unpack _). vm_compute. exact I.
  - reflexivity.
Defined.

Lemma resolve_customer_frame (post : gmap string string) (db db1 : DB)
    (customer : option Customer.t) :
  resolve_customer post db = Ok (customer, db1) →
  products db1 = products db ∧ credit_entries db1 = credit_entries db.
Proof.
  unfold resolve_customer.
  destruct (if Py.truthy (post !! "customer_id") then _ else _) as [[c|]|];
    [by intros [= <- <-]| |done].
  destruct (negb _); [by intros [= <- <-]|].
  destruct (objects_get _ _); [by intros [= <- <-]|by intros [= <- <-]|done].
Qed.

(** X21: a credit entry for a product of the table, for numbers that the
    interpreter reads and the columns hold.  The amount of the entry is the
    amount of the form when that is above zero, and otherwise the price of
    the product, the discount not taken off, times the quantity.  With a
    quantity of at least 0 the entry is appended unpaid, for the customer
    the form resolves to and with the quantity of the form; its item name is
    that of the form, or the name of the product when the form gives none;
    and the outstanding total rises by the amount.  A negative quantity is
    refused by the check of the column: the request ends in
    [IntegrityError] and no entry is written. *)
Theorem add_credit_amount (request : Request) (db db1 : DB)
    (customer : Customer.t) (product : Product.t)
    (quantity_text id_text : string) (q pid : Z) (a : money) :
  is_POST request = true →
  POST_data request !! "quantity" = Some quantity_text →
  Py.within_limit quantity_text →
  Py.int quantity_text = Some q →
  Py.within_limit (Py.get (POST_data request) "customer_id" "") →
  resolve_customer (POST_data request) db = Ok (Some customer, db1) →
  POST_data request !! "product_id" = Some id_text →
  Py.within_limit id_text →
  Py.int id_text = Some pid →
  get_product db pid = Some product →
  Product.name product ≠ ""%string →
  Py.float (Py.get (POST_data request) "amount" "0") = Some a →
  - max_amount ≤ (if 0 <? a then a else Product.price product * q) ≤ max_amount →
  let db' := (add_credit request db).2 in
  let amount := if 0 <? a then a else Product.price product * q in
  let item := Py.get_or (POST_data request) "item_name" (Product.name product) in
  (0 ≤ q < 2 ^ 63 →
   (add_credit request db).1 = Redirect "credit_list"
   ∧ credit_entries db'
     = credit_entries db ++
       [CreditEntry.mk (next_id (CreditEntry.id <$> credit_entries db))
          (Customer.id customer) (Some pid) item q amount (now request) false
          None]
   ∧ total_outstanding (credit_entries db')
     = total_outstanding (credit_entries db) + amount)
  ∧ (- 2 ^ 63 ≤ q < 0 →
     (add_credit request db).1 = Raised IntegrityError
     ∧ credit_entries db' = credit_entries db).
Proof.
  intros Hpost Hq _ Hqint _ Hc Hid _ Hint Hget Hname Ha _. cbv zeta.
  pose proof (find_key_eq Product.id _ _ _ Hget) as Hk.
  destruct (resolve_customer_frame _ _ _ _ Hc) as (Hps & Hcs).
  assert (add_credit request db
          = if q <? 0 then (Raised IntegrityError, db1)
            else
              (Redirect "credit_list",
               with_credit_entries db1
                 (credit_entries db ++
                  [CreditEntry.mk (next_id (CreditEntry.id <$> credit_entries db))
                     (Customer.id customer) (Some pid)
                     (Py.get_or (POST_data request) "item_name"
                        (Product.name product))
                     q (if 0 <? a then a else Product.price product * q)
                     (now request) false None]))) as Hrun.
  { unfold add_credit. rewrite Hpost, Hq, Hqint, Hc, Hid.
    rewrite (int_parsed_truthy _ _ Hint). cbn [from_option id].
    unfold get_by_id_text. rewrite Hint.
    unfold get_product. rewrite Hps. fold (get_product db pid). rewrite Hget.
    rewrite Ha. cbn [from_option id].
    unfold Py.get_or, Py.or_else.
    destruct (Py.truthy (POST_data request !! "item_name")) eqn:Hitem.
    - rewrite Hitem. cbn [negb fmap option_fmap option_map].
      rewrite Hcs, Hk.
      apply truthy_named in Hitem as (name & -> & _). cbn [from_option id].
      destruct (Z.leb_spec a 0), (Z.ltb_spec 0 a); try lia; done.
    - assert (Py.truthy (Some (Product.name product)) = true) as ->.
      { cbn. by destruct (String.eqb_spec (Product.name product) ""). }
      cbn [negb fmap option_fmap option_map from_option id].
      rewrite Hcs, Hk.
      destruct (Z.leb_spec a 0), (Z.ltb_spec 0 a); try lia; done. }
  rewrite Hrun. split; intros Hsign.
  - destruct (Z.ltb_spec q 0); [lia|].
    cbn [fst snd credit_entries with_credit_entries].
    split; [done|]. split; [done|].
    by rewrite total_outstanding_app, total_outstanding_one.
  - destruct (Z.ltb_spec q 0); [|lia]. by cbn [fst snd].
Qed.

Lemma add_credit_amount_witness :
  let request :=
    post_request {[ "customer_id" := "1"; "product_id" := "1";
                    "quantity" := "3"; "amount" := "0" ]} ∅ 90 in
  let db := sample_db Order.pending in
  let db' := (add_credit request db).2 in
  let amount := if 0 <? 0 then 0 else Product.price apple * 3 in
  let item := Py.get_or (POST_data request) "item_name" (Product.name apple) in
  (0 ≤ 3 < 2 ^ 63 →
   (add_credit request db).1 = Redirect "credit_list"
   ∧ credit_entries db'
     = credit_entries db ++
       [CreditEntry.mk (next_id (CreditEntry.id <$> credit_entries db))
          (Customer.id (Customer.mk 1 "Asha" "98" "Pune")) (Some 1) item 3
          amount (now request) false None]
   ∧ total_outstanding (credit_entries db')
     = total_outstanding (credit_entries db) + amount)
  ∧ (- 2 ^ 63 ≤ 3 < 0 →
     (add_credit request db).1 = Raised IntegrityError
     ∧ credit_entries db' = credit_entries db).
Proof.
  apply (add_credit_amount
           (post_request {[ "customer_id" := "1"; "product_id" := "1";
                            "quantity" := "3"; "amount" := "0" ]} ∅ 90)
           (sample_db Order.pending) (sample_db Order.pending)
           (Customer.mk 1 "Asha" "98" "Pune") apple "3" "1" 3 1 0).
  - reflexivity.
  - vm_compute. reflexivity.
  - unfold Py.within_limit, Py.max_str_digits. cbn. lia.
  - vm_compute. reflexivity.
  - unfold Py.within_limit, Py.max_str_digits. vm_compute. lia.
  - vm_compute. reflexivity.
  - vm_compute. reflexivity.
  - unfold Py.within_limit, Py.max_str_digits. cbn. lia.
  - vm_compute. reflexivity.
  - reflexivity.
  - discriminate.
  - vm_compute. reflexivity.
  - vm_compute. split; discriminate.
Defined.

(** Three apples on credit with no amount given come to 30.00, the price of
    10.00 without its discount of 1.00; a quantity of -3 is refused and the
    outstanding total stays at 90.00. *)
Example add_credit_of_sample :
  total_outstanding
    (credit_entries
       (add_credit
          (post_request {[ "customer_id" := "1"; "product_id" := "1";
                           "quantity" := "3"; "amount" := "0" ]} ∅ 90)
          (sample_db Order.pending)).2) = 9000 + 3000
  ∧ add_credit
      (post_request {[ "customer_id" := "1"; "product_id" := "1";
                       "quantity" := "-3" ]} ∅ 90)
      (sample_db Order.pending)
    = (Raised IntegrityError, sample_db Order.pending).
Proof. split; vm_compute; reflexivity. Qed.

(** ** The currency filter *)

Lemma take_drop_last (n : nat) (l : list ascii) :
  but_last_chars n l ++ last_chars n l = l.
Proof. unfold but_last_chars, last_chars. apply take_drop. Qed.

Lemma rev_last_two (l : list ascii) :
  l ≠ [] →
  (List.length l ≤ 2)%nat ∧ but_last_chars 2 l = [] ∧ last_chars 2 l = l
  ∨ ∃ a b, rev (last_chars 2 l) = [a; b] ∧ but_last_chars 2 l ≠ []
           ∧ rev l = a :: b :: rev (but_last_chars 2 l).
Proof.
  intros Hne.
  destruct (le_lt_dec (List.length l) 2) as [Hle|Hgt].
  - left. split; [done|]. unfold but_last_chars, last_chars.
    replace (List.length l - 2)%nat with 0%nat by lia. by rewrite take_0, drop_0.
  - right.
    pose proof (take_drop_last 2 l) as Hsplit.
    assert (List.length (last_chars 2 l) = 2%nat) as Hlen.
    { unfold last_chars. rewrite length_drop. lia. }
    assert (List.length (but_last_chars 2 l) = (List.length l - 2)%nat) as Hlen'.
    { unfold but_last_chars. rewrite length_take. lia. }
    destruct (last_chars 2 l) as [|x [|y [|z t]]] eqn:Hlast; try done.
    exists y, x. split; [done|]. split.
    + intros Hnil. rewrite Hnil in Hlen'. cbn in Hlen'. lia.
    + rewrite <- Hsplit at 1. by rewrite rev_app_distr.
Qed.

Lemma commas_every_two_short (l : list ascii) :
  (List.length l ≤ 2)%nat → commas_every_two l = l.
Proof. destruct l as [|a [|b [|c l]]]; cbn; [done..|lia]. Qed.

Lemma commas_every_two_step (a b : ascii) (rest : list ascii) :
  rest ≠ [] →
  commas_every_two (a :: b :: rest) = a :: b :: ","%char :: commas_every_two rest.
Proof. by destruct rest. Qed.

Lemma group_pairs_spec (fuel : nat) (other acc : list ascii) :
  (List.length other ≤ fuel)%nat →
  rev (group_pairs fuel other acc)
  = if decide (other = []) then rev acc
    else if decide (acc = []) then commas_every_two (rev other)
    else rev acc ++ ","%char :: commas_every_two (rev other).
Proof.
  revert other acc. induction fuel as [|fuel IH]; intros other acc Hlen.
  - destruct other; [done|cbn in Hlen; lia].
  - case_decide as Hne; [by subst other|].
    set (acc2 := if decide (acc = []) then last_chars 2 other
                 else last_chars 2 other ++ ","%char :: acc).
    assert (group_pairs (S fuel) other acc
            = group_pairs fuel (but_last_chars 2 other) acc2) as ->.
    { unfold acc2. destruct other; [done|]. by destruct acc. }
    assert (0 < List.length other)%nat as Hpos
      by (destruct other; [done|cbn; lia]).
    assert (List.length (but_last_chars 2 other) ≤ fuel)%nat as Hfuel.
    { unfold but_last_chars. rewrite length_take. lia. }
    rewrite (IH _ _ Hfuel).
    assert (acc2 ≠ []) as Hacc2.
    { unfold acc2. pose proof (take_drop_last 2 other) as Hsplit.
      case_decide; [|by destruct (last_chars 2 other)].
      intros Hnil. rewrite Hnil, app_nil_r in Hsplit.
      assert (List.length (but_last_chars 2 other) = List.length other)
        as Heq by (by rewrite Hsplit).
      unfold but_last_chars in Heq. rewrite length_take in Heq. lia. }
    destruct (rev_last_two other Hne)
      as [(Hshort & Hnone & Hall)|(a & b & Hlast & Hmore & Hrev)].
    + rewrite Hnone. rewrite decide_True by done.
      rewrite commas_every_two_short by (by rewrite length_rev).
      unfold acc2. rewrite Hall. case_decide; [done|].
      by rewrite rev_app_distr; cbn [rev]; rewrite <- !app_assoc.
    + rewrite (decide_False (P := but_last_chars 2 other = [])) by done.
      rewrite (decide_False (P := acc2 = [])) by done.
      assert (rev (but_last_chars 2 other) ≠ []) as Hmore2.
      { intros H. apply Hmore. apply (f_equal (@rev _)) in H.
        by rewrite rev_involutive in H. }
      rewrite Hrev, (commas_every_two_step _ _ _ Hmore2).
      unfold acc2. case_decide.
      * by rewrite Hlast.
      * rewrite rev_app_distr. cbn [rev]. rewrite Hlast.
        by rewrite <- !app_assoc.
Qed.

(** The Indian grouping of the filter is the grouping told from the
    right. *)
Lemma group_indian_rev (integer_part : string) :
  rev (list_ascii_of_string (group_indian integer_part))
  = commas_indian (rev (list_ascii_of_string integer_part)).
Proof.
  unfold group_indian.
  set (l := list_ascii_of_string integer_part).
  destruct (Nat.ltb_spec 3 (List.length l)) as [Hlong|Hshort].
  - rewrite list_ascii_of_string_of_list_ascii, rev_app_distr. cbn [rev].
    pose proof (take_drop_last 3 l) as Hsplit.
    assert (List.length (last_chars 3 l) = 3%nat) as Hlen.
    { unfold last_chars. rewrite length_drop. lia. }
    assert (List.length (but_last_chars 3 l) = (List.length l - 3)%nat) as Hlen2.
    { unfold but_last_chars. rewrite length_take. lia. }
    rewrite group_pairs_spec by done.
    destruct (last_chars 3 l) as [|x [|y [|z [|? ?]]]] eqn:Hlast; try done.
    destruct (but_last_chars 3 l) as [|w rest] eqn:Hrest;
      [cbn in Hlen2; lia|].
    rewrite (decide_False (P := w :: rest = [])) by done.
    rewrite decide_True by done.
    rewrite <- Hsplit, rev_app_distr. cbn [rev app].
    cbn. destruct (rev rest ++ [w]) eqn:Hr; [by destruct (rev rest)|]. done.
  - fold l. destruct (rev l) as [|a [|b [|c [|d t]]]] eqn:Hrev; try done.
    exfalso. apply (f_equal (@List.length _)) in Hrev.
    rewrite length_rev in Hrev. cbn in Hrev. lia.
Qed.

Lemma commas_every_two_digits (l : list ascii) :
  without_commas (commas_every_two l) = without_commas l.
Proof.
  assert (∀ n l, (List.length l ≤ n)%nat →
                 without_commas (commas_every_two l) = without_commas l) as H.
  { clear l. induction n as [|n IH]; intros l Hlen.
    - by destruct l; [|cbn in Hlen; lia].
    - destruct l as [|a [|b rest]]; [done..|].
      destruct rest as [|c rest]; [done|].
      rewrite commas_every_two_step by done.
      unfold without_commas in *. cbn [List.filter].
      rewrite (IH (c :: rest)) by (cbn in *; lia).
      change (negb (Ascii.eqb ","%char ","%char)) with false. done. }
  by apply (H (List.length l)).
Qed.

Lemma commas_indian_digits (l : list ascii) :
  without_commas (commas_indian l) = without_commas l.
Proof.
  destruct l as [|a [|b [|c [|d rest]]]]; try done.
  unfold commas_indian, without_commas. cbn [List.filter].
  change (negb (Ascii.eqb ","%char ","%char)) with false.
  fold (without_commas (commas_every_two (d :: rest))).
  rewrite commas_every_two_digits. done.
Qed.

Lemma pretty_digits (n : Z) :
  0 ≤ n →
  Forall (λ a, is_Some (Py.digit (Py.code a))) (list_ascii_of_string (pretty n)).
Proof.
  intros Hn. destruct n as [|p|p]; [by repeat constructor| |lia].
  unfold pretty, pretty_Z, pretty, pretty_positive, pretty, pretty_N.
  destruct (decide (N.pos p = 0%N)); [done|].
  destruct (pretty_N_go_digits (N.pos p)) as (_ & Hd & _ & _).
  cbv zeta in Hd. apply Forall_fmap in Hd.
  eapply Forall_impl; [exact Hd | by intros ? (? & _)].
Qed.

Lemma without_commas_digits (l : list ascii) :
  Forall (λ a, is_Some (Py.digit (Py.code a))) l → without_commas l = l.
Proof.
  induction 1 as [|c l Hc _ IH]; [done|].
  unfold without_commas in *. cbn [List.filter]. rewrite IH.
  destruct (Ascii.eqb_spec c ","%char) as [->|]; [|done].
  by destruct Hc.
Qed.

(** Two digits read back as the number they write. *)
Lemma int_two_digits (a b : nat) :
  (a < 10)%nat → (b < 10)%nat →
  let text := String (ascii_of_nat (48 + a)) (String (ascii_of_nat (48 + b)) "") in
  Py.int text = Some (Z.of_nat (10 * a + b))
  ∧ Forall (λ c, is_Some (Py.ascii_digit (Py.code c)))
      (list_ascii_of_string text).
Proof.
  intros Ha Hb.
  cbv zeta.
  do 10 (destruct a as [|a];
         [do 10 (destruct b as [|b];
                 [split;
                  [vm_compute; reflexivity
                  |cbn [list_ascii_of_string];
                   repeat (constructor; [vm_compute; by eexists|]);
                   constructor] |]); lia|]).
  lia.
Qed.

(** X22: the [currency] filter writes an amount with the commas of the
    Indian numbering.  Its text is the sign, the currency mark, the grouped
    whole part, a point and the decimals.  The grouped whole part, read from
    the right, is the digits of the whole part of the amount with a comma
    after the first three and then after every two when more digits follow,
    and without its commas it is these digits.  The decimals are two digits
    of [0-9], and they read back as the hundredths of the amount.  The
    amount has at most fifteen digits, which the float of the filter holds
    exactly. *)
Theorem currency_groups (value : money) :
  Z.abs value < 10 ^ 15 →
  let digits := list_ascii_of_string (pretty (Z.abs value / 100)) in
  ∃ grouped decimals,
    currency value
    = ((if (value <? 0)%Z then "-" else "") +:+ "â‚¹"
       +:+ string_of_list_ascii grouped +:+ "." +:+ decimals)%string
    ∧ rev grouped = commas_indian (rev digits)
    ∧ without_commas grouped = digits
    ∧ String.length decimals = 2%nat
    ∧ Forall (λ c, is_Some (Py.ascii_digit (Py.code c)))
        (list_ascii_of_string decimals)
    ∧ Py.int decimals = Some (Z.abs value mod 100).
Proof.
  intros _. cbv zeta.
  exists (list_ascii_of_string (group_indian (pretty (Z.abs value / 100)))).
  eexists. split; [|split; [|split; [|split]]].
  - unfold currency, format_2f. rewrite string_of_list_ascii_of_string.
    destruct (value <? 0); reflexivity.
  - apply group_indian_rev.
  - rewrite <- (rev_involutive (list_ascii_of_string (group_indian _))).
    rewrite group_indian_rev. unfold without_commas.
    rewrite List.filter_rev.
    fold (without_commas (commas_indian
                            (rev (list_ascii_of_string
                                    (pretty (Z.abs value / 100)))))).
    rewrite commas_indian_digits. unfold without_commas.
    rewrite <- List.filter_rev, rev_involutive.
    apply without_commas_digits, pretty_digits.
    apply Z.div_pos; lia.
  - reflexivity.
  - set (val := Z.abs value).
    assert (0 ≤ val) as Hval by (unfold val; lia).
    assert (0 ≤ val mod 100 / 10 < 10) as Htens.
    { pose proof (Z.mod_pos_bound val 100 ltac:(lia)). split.
      - apply Z.div_pos; lia.
      - apply Z.div_lt_upper_bound; lia. }
    assert (0 ≤ val mod 10 < 10) as Hunits by (apply Z.mod_pos_bound; lia).
    destruct (int_two_digits (Z.to_nat (val mod 100 / 10)) (Z.to_nat (val mod 10)))
      as [Hint Hdigits]; [lia..|].
    cbv zeta in Hint, Hdigits. split; [exact Hdigits|].
    rewrite Hint. f_equal.
    rewrite Nat2Z.inj_add, Nat2Z.inj_mul, !Z2Nat.id by lia.
    change (Z.of_nat 10) with 10.
    pose proof (Z.div_mod (val mod 100) 10 ltac:(lia)) as Hsplit.
    assert (val mod 100 mod 10 = val mod 10) as Hunit.
    { pose proof (Z.rem_mul_r val 10 10 ltac:(lia) ltac:(lia)) as Hrem.
      change (10 * 10) with 100 in Hrem. rewrite Hrem.
      rewrite (Z.mul_comm 10), Z.mod_add by lia.
      apply Z.mod_mod. lia. }
    lia.
Qed.

Lemma currency_groups_witness :
  let digits := list_ascii_of_string (pretty (Z.abs (-123456789) / 100)) in
  ∃ grouped decimals,
    currency (-123456789)
    = ((if (-123456789 <? 0)%Z then "-" else "") +:+ "â‚¹"
       +:+ string_of_list_ascii grouped +:+ "." +:+ decimals)%string
    ∧ rev grouped = commas_indian (rev digits)
    ∧ without_commas grouped = digits
    ∧ String.length decimals = 2%nat
    ∧ Forall (λ c, is_Some (Py.ascii_digit (Py.code c)))
        (list_ascii_of_string decimals)
    ∧ Py.int decimals = Some (Z.abs (-123456789) mod 100).
Proof.
  apply (currency_groups (-123456789)). vm_compute. reflexivity.
Defined.

(** Twelve lakh rupees and some, and a small negative amount. *)
Example currency_of_sample :
  currency 123456789 = "â‚¹12,34,567.89"%string
  ∧ currency (-100050) = "-â‚¹1,000.50"%string
  ∧ currency 99999 = "â‚¹999.99"%string.
Proof. repeat split; vm_compute; reflexivity. Qed.

(** ** Scanning into the cart is adding to the cart *)

(** X23: a scan that finds an active product does to the cart what
    [add_to_cart] does for the number of that product with the quantity of
    the scan: the two handlers agree on the cart.  The stock of the product
    is not looked at, so a product without stock that is still active goes
    into the cart. *)
Theorem scan_add_to_cart_adds (request : Request) (db : DB)
    (product : Product.t) :
  _find_product_by_code db (get_or_post request "code" "") = Ok (Some product) →
  Product.is_active product = true →
  scan_add_to_cart request db
  = (Redirect "cart_summary",
     (add_to_cart
        (mkRequest POST ∅ {[ "quantity" := get_or_post request "qty" "1" ]}
           (session_cart request) (user request) (now request))
        (Product.id product)).2).
Proof.
  intros Hfind Hactive. unfold scan_add_to_cart, add_to_cart.
  rewrite Hfind, Hactive.
  cbn [negb is_POST method POST_data session_cart snd].
  unfold Py.get. rewrite lookup_singleton_eq. cbn [from_option id].
  by destruct (session_cart request !! cart_key (Product.id product)).
Qed.

Lemma scan_add_to_cart_adds_witness :
  scan_add_to_cart
    (mkRequest GET {[ "code" := "qr-milk"; "qty" := "3" ]} ∅ {[ "2" := 1 ]} None 90)
    (sample_db Order.pending)
  = (Redirect "cart_summary",
     (add_to_cart
        (mkRequest POST ∅
           {[ "quantity" :=
                get_or_post
                  (mkRequest GET {[ "code" := "qr-milk"; "qty" := "3" ]} ∅
                     {[ "2" := 1 ]} None 90) "qty" "1" ]}
           (session_cart
              (mkRequest GET {[ "code" := "qr-milk"; "qty" := "3" ]} ∅
                 {[ "2" := 1 ]} None 90))
           (user (mkRequest GET {[ "code" := "qr-milk"; "qty" := "3" ]} ∅
                    {[ "2" := 1 ]} None 90))
           (now (mkRequest GET {[ "code" := "qr-milk"; "qty" := "3" ]} ∅
                   {[ "2" := 1 ]} None 90)))
        (Product.id milk)).2).
Proof.
  apply (scan_add_to_cart_adds
           (mkRequest GET {[ "code" := "qr-milk"; "qty" := "3" ]} ∅
              {[ "2" := 1 ]} None 90)
           (sample_db Order.pending) milk).
  - vm_compute. reflexivity.
  - reflexivity.
Defined.

(** Three more bottles of milk scanned into a cart that holds one make
    four, though two are in stock. *)
Example scan_add_to_cart_of_sample :
  (scan_add_to_cart
     (mkRequest GET {[ "code" := "qr-milk"; "qty" := "3" ]} ∅ {[ "2" := 1 ]} None 90)
     (sample_db Order.pending)).2 !! "2" = Some 4.
Proof. vm_compute. reflexivity. Qed.

(** ** Stock changes that leave no audit entry *)

Lemma audit_logs_return_lines (request : Request) (oreturn_id : Z)
    (lines : list (OrderItem.t * Product.t)) (st : DB * money) :
  audit_logs (foldl (return_line request oreturn_id) st lines).1
  = audit_logs st.1.
Proof.
  revert st. induction lines as [|[item product] lines IH]; intros [db total];
    [done|].
  cbn [foldl]. rewrite IH. unfold return_line.
  by destruct (0 <? requested_quantity (POST_data request) item).
Qed.

(** X24: the audit trail misses two ways in which stock changes.  A return
    and a purchase from a wholesaler, which raise the stock of products, and
    the purchase the prices too, write no audit entry: the audit trail after
    the request is the audit trail before it. *)
Theorem returns_and_purchases_leave_no_audit (request : Request)
    (order_id : Z) (db : DB) :
  audit_logs (return_order request order_id db).2 = audit_logs db
  ∧ audit_logs (wholesaler_dashboard request db).2 = audit_logs db.
Proof.
  split.
  - destruct (get_order db order_id) as [order|] eqn:Hget;
      [|unfold return_order; by rewrite Hget].
    destruct (is_POST request) eqn:Hpost;
      [|unfold return_order; by rewrite Hget, Hpost].
    rewrite (return_order_post _ _ _ _ Hget Hpost). cbv zeta.
    destruct (_ && _);
      cbn [audit_logs save_status with_orders create_payment
           with_order_payments]; by rewrite audit_logs_return_lines.
  - unfold wholesaler_dashboard. destruct (is_POST request); [|done].
    destruct (resolve_wholesaler (POST_data request) db)
      as [[[w|] db1]|] eqn:Hw; [| |done].
    + assert (audit_logs db1 = audit_logs db) as Hlogs.
      { revert Hw. unfold resolve_wholesaler.
        destruct (if Py.truthy (POST_data request !! "wholesaler_id")
                  then _ else _) as [[w'|]|]; [by intros [= <- <-]| |done].
        destruct (Py.truthy (Some _)); [|by intros [= <- <-]].
        destruct (objects_get _ _);
          [by intros [= <- <-]|by intros [= <- <-]|done]. }
      destruct (_ <=? 0); [done|]. destruct (_ <=? 0); [done|].
      unfold resolve_product.
      destruct (if Py.truthy (POST_data request !! "product_id")
                then _ else _) as [p|]; [done|].
      by destruct (Py.truthy (Some _)).
    + revert Hw. unfold resolve_wholesaler.
      destruct (if Py.truthy (POST_data request !! "wholesaler_id")
                then _ else _) as [[w'|]|]; [done| |done].
      destruct (Py.truthy (Some _)); [|by intros [= <-]].
      by destruct (objects_get _ _).
Qed.

(** The return of the sample order and the sample purchase raise the stock
    of apples and of milk, and the audit trail stays empty. *)
Example stock_raised_without_audit :
  Product.stock_quantity <$> products returned_db = [15; 2]
  ∧ audit_logs returned_db = []
  ∧ Product.stock_quantity
      <$> products (wholesaler_dashboard sample_purchase
                      (sample_db Order.pending)).2 = [10; 12]
  ∧ audit_logs (wholesaler_dashboard sample_purchase
                  (sample_db Order.pending)).2 = [].
Proof. repeat split; vm_compute; reflexivity. Qed.

(** ** Placing an order and the report *)

Lemma report_tables_checkout_lines (request : Request) (order_id : Z)
    (lines : list (Product.t * Z)) (db : DB) :
  let db' := foldl (checkout_line request order_id) db lines in
  purchases db' = purchases db ∧ purchase_items db' = purchase_items db
  ∧ expenses db' = expenses db ∧ order_returns db' = order_returns db
  ∧ order_return_items db' = order_return_items db.
Proof.
  cbv zeta. revert db.
  induction lines as [|[product q] lines IH]; intros db; [done|].
  cbn [foldl]. destruct (IH (checkout_line request order_id db (product, q)))
    as (-> & -> & -> & -> & ->). done.
Qed.

Lemma cost_price_checkout_lines (request : Request) (order_id : Z)
    (lines : list (Product.t * Z)) (db : DB) (k : Z) :
  Product.cost_price
    <$> get_product (foldl (checkout_line request order_id) db lines) k
  = Product.cost_price <$> get_product db k.
Proof.
  revert db. induction lines as [|line lines IH]; intros db; [done|].
  cbn [foldl]. rewrite IH, get_product_checkout_line.
  destruct (get_product db k) as [p|]; [|done]. cbn.
  by destruct (Product.id p =? Product.id line.1).
Qed.

(** The tables of the report after [checkout]. *)
Lemma checkout_report_tables (request : Request) (db : DB) :
  let db' := (checkout request db).1.2 in
  purchases db' = purchases db ∧ purchase_items db' = purchase_items db
  ∧ expenses db' = expenses db ∧ order_returns db' = order_returns db
  ∧ order_return_items db' = order_return_items db
  ∧ ∀ k, Product.cost_price <$> get_product db' k
         = Product.cost_price <$> get_product db k.
Proof.
  cbv zeta. unfold checkout. case_bool_decide; [done|].
  destruct (is_POST request && _); [|done].
  destruct (upsert_customer _ _ _ db) as [db0|] eqn:Hc; [|done].
  assert (purchases db0 = purchases db ∧ purchase_items db0 = purchase_items db
          ∧ expenses db0 = expenses db ∧ order_returns db0 = order_returns db
          ∧ order_return_items db0 = order_return_items db
          ∧ products db0 = products db) as (Hpu & Hpi & Hex & Hre & Hri & Hps).
  { revert Hc. unfold upsert_customer.
    destruct (objects_get _ _) as [c| |]; [|by intros [= <-]|done].
    by destruct (_ || _); intros [= <-]. }
  cbn [fst snd].
  set (db1 := with_orders db0 _).
  set (lines := cart_products (session_cart request) db1).
  destruct (report_tables_checkout_lines request
              (next_id (Order.id <$> orders db0)) lines db1)
    as (Hpu1 & Hpi1 & Hex1 & Hre1 & Hri1).
  assert (∀ k, Product.cost_price
                 <$> get_product
                       (foldl (checkout_line request
                                 (next_id (Order.id <$> orders db0))) db1 lines) k
               = Product.cost_price <$> get_product db k) as Hcost.
  { intros k. rewrite cost_price_checkout_lines. unfold get_product.
    subst db1. cbn [products with_orders]. by rewrite Hps. }
  repeat match goal with |- context [if ?b then _ else _] => destruct b end;
    cbn [purchases purchase_items expenses order_returns order_return_items
         create_payment with_order_payments];
    change (get_product (with_order_payments ?d ?x)) with (get_product d);
    rewrite Hpu1, Hpi1, Hex1, Hre1, Hri1; subst db1;
    cbn [purchases purchase_items expenses order_returns order_return_items
         with_orders]; done.
Qed.

(** X25: placing an order changes no figure of the report.  The order is
    written as pending, and the report counts completed and returned orders
    only, so revenue, profit, money spent, expenses and net profit of every
    window are after [checkout] what they were before, whatever the
    request. *)
Theorem checkout_leaves_report (request : Request) (db : DB)
    (a b : datetime) :
  sales_stats (checkout request db).1.2 a b = sales_stats db a b.
Proof.
  destruct (checkout_report_tables request db)
    as (Hpu & Hpi & Hex & Hre & Hri & Hcost). cbv zeta in *.
  destruct (checkout_cases request db) as [[response H]|(order_id & db' & H)];
    rewrite H in *; cbn [fst snd] in *; [done|].
  apply checkout_placed_rows in H
    as (_ & Hid & (name & phone & address & _ & _ & _ & Horders)
        & db0 & Hitems & Hi0).
  destruct (order_items_checkout_snapshot request order_id
              (cart_products (session_cart request) db) db0)
    as (items & Happ & Hall).
  rewrite Happ, Hi0 in Hitems.
  assert (∀ k, match get_order db' k with
               | Some o => counted_order a b o
               | None => false
               end
               = match get_order db k with
                 | Some o => counted_order a b o
                 | None => false
                 end) as Hcounted.
  { intros k. unfold get_order. rewrite Horders, find_app_first.
    destruct (find _ (orders db)); [done|]. cbn.
    by destruct (order_id =? k). }
  assert (sold_items db' a b = sold_items db a b) as Hsold.
  { unfold sold_items. rewrite Hitems, List.filter_app.
    rewrite (filter_none _ items).
    - rewrite app_nil_r. apply List.filter_ext. intros i. apply Hcounted.
    - intros i Hi. rewrite Hcounted.
      apply list_elem_of_lookup in Hi as [n Hn].
      destruct (Forall2_lookup_l _ _ _ _ _ Hall Hn) as (line & _ & Ho & _).
      rewrite Ho. unfold get_order.
      destruct (find _ (orders db)) as [o|] eqn:Hfind; [|done].
      pose proof (find_key_eq Order.id _ _ _ Hfind) as Hk.
      apply (find_key_in Order.id) in Hfind.
      exfalso. apply (next_id_fresh (Order.id <$> orders db)).
      rewrite <- Hid, <- Hk. by apply list_elem_of_fmap_2. }
  assert (∀ k u q, margin db' k u q = margin db k u q) as Hmargin.
  { intros k u q. unfold margin. specialize (Hcost k).
    destruct (get_product db' k), (get_product db k); cbn in Hcost;
      congruence. }
  unfold sales_stats, returned_items.
  rewrite Hsold, Hpu, Hpi, Hex, Hre, Hri.
  f_equal; f_equal;
    try (f_equal; apply sum_of_ext; intros; apply Hmargin);
    try (apply sum_of_ext; intros; apply Hmargin).
Qed.

(** ** The dashboard total and the report *)

Lemma find_key_some {A : Type} (key : A → Z) (rows : list A) (k : Z) :
  k ∈ key <$> rows → ∃ row, find (λ r, key r =? k) rows = Some row.
Proof.
  induction rows as [|r rows IH]; intros Hin; [by apply elem_of_nil in Hin|].
  cbn. destruct (Z.eqb_spec (key r) k) as [|Hne]; [by eexists|].
  apply IH. cbn in Hin. apply elem_of_cons in Hin as [Heq|Hin]; [congruence|done].
Qed.

Lemma filter_all {A : Type} (P : A → bool) (l : list A) :
  (∀ x, x ∈ l → P x = true) → List.filter P l = l.
Proof.
  induction l as [|a l IH]; intros H; [done|].
  cbn [List.filter]. rewrite H by (by left). f_equal. apply IH.
  intros x Hx. apply H. by right.
Qed.

(** X26: the total of the dashboard and the revenue of the report agree
    when no order is open.  [total_sales] of [shop_dashboard] counts the
    pending and preparing orders too and looks at no dates; when no order
    is pending or preparing, and the window holds the creation of every
    order and of every return, it is the revenue [sales_stats] reports for
    the window.  Every return item is taken to belong to a return of the
    table. *)
Theorem shop_dashboard_total_is_revenue (db : DB) (a b : datetime) :
  Forall (λ o, Order.status o ≠ Order.pending
               ∧ Order.status o ≠ Order.preparing
               ∧ in_window a b (Order.created_at o) = true) (orders db) →
  Forall (λ r, in_window a b (OrderReturn.created_at r) = true)
    (order_returns db) →
  Forall (λ i, OrderReturnItem.order_return i
               ∈ OrderReturn.id <$> order_returns db) (order_return_items db) →
  total_sales (shop_dashboard db).1 = revenue (sales_stats db a b).
Proof.
  intros Horders Hreturns Hfk.
  unfold shop_dashboard, sales_stats, sold_items, returned_items.
  cbn [fst total_sales revenue].
  change (get_order (deactivate_sold_out db)) with (get_order db).
  change (order_items (deactivate_sold_out db)) with (order_items db).
  change (order_return_items (deactivate_sold_out db))
    with (order_return_items db).
  f_equal.
  - f_equal. apply List.filter_ext. intros i.
    destruct (get_order db (OrderItem.order i)) as [o|] eqn:Ho; [|done].
    apply (find_key_in Order.id) in Ho.
    rewrite Forall_forall in Horders.
    destruct (Horders o Ho) as (Hp & Hq & Hw).
    unfold counted_order. rewrite Hw, andb_true_r.
    by destruct (Order.status o).
  - f_equal. symmetry. apply filter_all. intros i Hi.
    rewrite Forall_forall in Hfk.
    destruct (find_key_some OrderReturn.id _ _ (Hfk i Hi)) as (r & Hr).
    rewrite Hr. apply (find_key_in OrderReturn.id) in Hr.
    rewrite Forall_forall in Hreturns. by apply Hreturns.
Qed.

Lemma shop_dashboard_total_is_revenue_witness :
  total_sales (shop_dashboard returned_db).1
  = revenue (sales_stats returned_db 0 100).
Proof.
  apply (shop_dashboard_total_is_revenue returned_db 0 100).
  - change (orders returned_db)
      with [Order.mk 1 "Asha" "98" "Pune" 10 10 Order.returned].
    apply Forall_cons. split; [|apply Forall_nil; exact I].
    cbn. split; [discriminate|]. split; [discriminate|reflexivity].
  - apply (bool_decide_unpack _). vm_compute. exact I.
  - apply (bool_decide_unpack _). vm_compute. exact I.
Defined.

(** With the sample order pending, the dashboard says 56.00 and the report
    nothing. *)
Example shop_dashboard_counts_pending :
  total_sales (shop_dashboard (sample_db Order.pending)).1 = 5600
  ∧ pending_orders_count (shop_dashboard (sample_db Order.pending)).1 = 1
  ∧ revenue (sales_stats (sample_db Order.pending) 0 100) = 0.
Proof. repeat split; reflexivity. Qed.
